(** * Civitas: committee store, payment schedule and trust score

    A shallow embedding of the persistence layer
    ([database/db_manager.py]), the schedule calculator
    ([utils/payment_manager.py]), the trust score engine
    ([utils/trust_score.py]), the filters and sort orders of the committee
    browser ([pages/committee_management.py]) and the trust bands of the
    member dashboard ([pages/member_dashboard.py]) of the Civitas platform,
    with the properties the specification states about them and further
    properties of the code.

    Conventions of the embedding:
    - Python [int] is [Z]; [str] is [string]; [Optional[T]] is [option T].
    - Python [float] is IEEE binary64, the kernel's primitive [float].
    - [uuid.uuid4()] and [datetime.now()] are inputs: every operation that
      draws an identifier or reads the clock takes the value drawn as an
      argument.
    - A [DatabaseManager] either reaches PostgreSQL or runs on its in-memory
      fallback dictionaries; both branches of every method are embedded. *)

From Stdlib Require Import ZArith QArith PrimFloat FloatOps SpecFloat Uint63.
From stdpp Require Import base decidable option list strings gmap sorting relations.

Open Scope string_scope.
Open Scope list_scope.
Open Scope Z_scope.

(** ** Exceptions and results *)

(** The exceptions the embedded code can meet: [OverflowError] from
    [datetime] arithmetic, [psycopg2.IntegrityError] from a constraint
    violation of the SQL schema. *)
Inductive exn := OverflowError | IntegrityError.

Inductive res (A : Type) : Type :=
  | Ok (a : A)
  | Raise (e : exn).
Arguments Ok {A} a.
Arguments Raise {A} e.

Definition res_bind {A B} (r : res A) (k : A → res B) : res B :=
  match r with
  | Ok a => k a
  | Raise e => Raise e
  end.

(** A Python [for] loop over [xs] threading the loop state [s]; an exception
    raised by the body leaves the loop. *)
Fixpoint for_each {A S} (xs : list A) (body : S → A → res S) (s : S) : res S :=
  match xs with
  | [] => Ok s
  | x :: xs' => res_bind (body s x) (for_each xs' body)
  end.

(** ** [datetime] and [timedelta] of the Python standard library *)

Module datetime.

(** A naive [datetime]: its proleptic Gregorian ordinal ([toordinal()],
    0001-01-01 is day 1) and the microseconds elapsed since midnight. *)
Record t := mk { toordinal : Z; time_us : Z }.

Definition MAXORDINAL : Z := 3652059.
Definition MAX_DELTA_DAYS : Z := 999999999.

Definition is_leap (year : Z) : bool :=
  (year mod 4 =? 0) && (negb (year mod 100 =? 0) || (year mod 400 =? 0)).

Definition days_before_year (year : Z) : Z :=
  let y := year - 1 in
  y * 365 + y / 4 - y / 100 + y / 400.

Definition DAYS_BEFORE_MONTH : list Z :=
  [0; 31; 59; 90; 120; 151; 181; 212; 243; 273; 304; 334].

Definition days_before_month (year month : Z) : Z :=
  nth (Z.to_nat (month - 1)) DAYS_BEFORE_MONTH 0
  + (if (2 <? month) && is_leap year then 1 else 0).

Definition ymd2ord (year month day : Z) : Z :=
  days_before_year year + days_before_month year month + day.

(** [datetime(year, month, day)]: midnight of that day. *)
Definition of_ymd (year month day : Z) : t :=
  mk (ymd2ord year month day) 0.

(** [timedelta(days=n)]: the number of days, refused beyond
    999999999 days in magnitude. *)
Definition timedelta (days : Z) : res Z :=
  if Z.abs days <=? MAX_DELTA_DAYS then Ok days else Raise OverflowError.

(** [d + delta] for a whole number of days: the clock time is kept and the
    result must stay within 0001-01-01 .. 9999-12-31. *)
Definition add (d : t) (delta_days : Z) : res t :=
  let o := toordinal d + delta_days in
  if (0 <? o) && (o <=? MAXORDINAL) then Ok (mk o (time_us d))
  else Raise OverflowError.

(** [(a - b).days] *)
Definition days_between (a b : t) : Z :=
  toordinal a - toordinal b - (if time_us a <? time_us b then 1 else 0).

(** [a <= b] *)
Definition le (a b : t) : Prop :=
  toordinal a < toordinal b ∨ (toordinal a = toordinal b ∧ time_us a ≤ time_us b).

#[global] Instance le_dec (a b : t) : Decision (le a b).
Proof. unfold le. apply _. Defined.

#[global] Instance eq_dec : EqDecision t.
Proof. solve_decision. Defined.

End datetime.

(** ** Python floats *)

(** [float(z)] for an integer of magnitude below 2^53 (list lengths and the
    small constants of the score formulas), where the conversion is exact. *)
Definition float_of_Z (z : Z) : float :=
  if z <? 0 then PrimFloat.opp (PrimFloat.of_uint63 (Uint63.of_Z (- z)))
  else PrimFloat.of_uint63 (Uint63.of_Z z).

(** [int(x)]: truncation toward zero of a finite float. (On NaN and the
    infinities Python raises; the quotients of counts taken below are finite,
    and the model sends the others to 0.) *)
Definition int_of_float (x : float) : Z :=
  match Prim2SF x with
  | S754_finite s m e =>
      let a := match e with
               | Z0 => Zpos m
               | Zpos p => Zpos m * 2 ^ Zpos p
               | Zneg p => Zpos m / 2 ^ Zpos p
               end in
      if s then - a else a
  | _ => 0
  end.

(** [a / b] on two integers (true division). *)
Definition truediv (a b : Z) : float :=
  PrimFloat.div (float_of_Z a) (float_of_Z b).

(** ** Python dictionaries

    A [dict] keeps its keys in insertion order; assigning to a key that is
    present replaces the value in place. *)

Abbreviation pydict V := (list (string * V)).

Fixpoint dict_get {V} (k : string) (d : pydict V) : option V :=
  match d with
  | [] => None
  | (k', v) :: d' => if decide (k' = k) then Some v else dict_get k d'
  end.

Fixpoint dict_set {V} (k : string) (v : V) (d : pydict V) : pydict V :=
  match d with
  | [] => [(k, v)]
  | (k', v') :: d' =>
      if decide (k' = k) then (k, v) :: d' else (k', v') :: dict_set k v d'
  end.

Definition dict_del {V} (k : string) (d : pydict V) : pydict V :=
  filter (λ kv, kv.1 ≠ k) d.

Definition dict_values {V} (d : pydict V) : list V := d.*2.

Definition dict_keys {V} (d : pydict V) : list string := d.*1.

(** The attributes of a [dict] object that do not start with an underscore;
    [hasattr(d, name)] on a dictionary looks a name up here, never among the
    keys. *)
Definition dict_attributes : list string :=
  ["clear"; "copy"; "fromkeys"; "get"; "items"; "keys"; "pop"; "popitem";
   "setdefault"; "update"; "values"].

Definition dict_hasattr (name : string) : bool :=
  bool_decide (name ∈ dict_attributes).

(** ** The data classes of [database/db_manager.py] *)

Module User.
Record t := mk {
  id : string;
  username : string;
  full_name : string;
  email : string;
  phone : string;
  role : string;
  cnic : option string;
  trust_score : Z;
  created_date : datetime.t;
  password_hash : string
}.
End User.

Module Committee.
Record t := mk {
  id : string;
  title : string;
  description : option string;
  monthly_amount : Z;
  total_members : Z;
  current_members : Z;
  duration : Z;
  committee_type : string;
  category : string;
  payment_frequency : string;
  status : string;
  admin_id : string;
  created_date : datetime.t
}.

(** In-place updates of a stored committee. *)
Definition set_current_members (n : Z) (c : t) : t :=
  mk (id c) (title c) (description c) (monthly_amount c) (total_members c)
     n (duration c) (committee_type c) (category c) (payment_frequency c)
     (status c) (admin_id c) (created_date c).

Definition set_settings (title' : string) (description' : option string)
    (status' payment_frequency' category' committee_type' : string) (c : t) : t :=
  mk (id c) title' description' (monthly_amount c) (total_members c)
     (current_members c) (duration c) committee_type' category'
     payment_frequency' status' (admin_id c) (created_date c).
End Committee.

Module Payment.
Record t := mk {
  id : string;
  committee_id : string;
  user_id : string;
  amount : Z;
  payment_date : datetime.t;
  status : string;
  transaction_id : option string;
  payment_method : string
}.
End Payment.

Module Payout.
Record t := mk {
  id : string;
  committee_id : string;
  user_id : string;
  amount : Z;
  payout_date : datetime.t;
  status : string;
  payout_method : string
}.
End Payout.

(** A row of [committee_members]; the fallback keeps the same five fields in
    a dictionary per member. *)
Module Member.
Record t := mk {
  id : string;
  committee_id : string;
  user_id : string;
  position : Z;
  joined_date : datetime.t
}.
End Member.

(** A row of [committee_invitations]; the fallback keeps the same fields in
    a dictionary per invitation. *)
Module Invitation.
Record t := mk {
  id : string;
  committee_id : string;
  invited_user_id : string;
  invited_by_id : string;
  invitation_date : datetime.t;
  status : string;
  response_date : option datetime.t;
  message : option string
}.

Definition respond (status' : string) (now : datetime.t) (i : t) : t :=
  mk (id i) (committee_id i) (invited_user_id i) (invited_by_id i)
     (invitation_date i) status' (Some now) (message i).
End Invitation.

(** The dictionary [get_user_by_id] returns: eight keys, no [created_date]
    and no [password_hash]. *)
Module UserInfo.
Record t := mk {
  id : string;
  username : string;
  full_name : string;
  email : string;
  phone : string;
  role : string;
  trust_score : Z;
  cnic : option string
}.

Definition of_user (u : User.t) : t :=
  mk (User.id u) (User.username u) (User.full_name u) (User.email u)
     (User.phone u) (User.role u) (User.trust_score u) (User.cnic u).
End UserInfo.

(** The dictionary [get_user_invitations] returns per invitation. The
    database branch adds the key ['invited_by_username'], which the fallback
    branch does not have ([None]). *)
Module UserInvitation.
Record t := mk {
  id : string;
  committee_title : string;
  committee_id : string;
  invited_by_id : string;
  invitation_date : datetime.t;
  message : option string;
  invited_by_username : option string
}.
End UserInvitation.

(** ** The in-memory fallback store

    [_init_fallback_storage] creates [self.fallback_data], a dictionary of
    five dictionaries keyed by identifier; [self.fallback_invitations] is a
    separate attribute that exists only once the first invitation was sent
    ([None] below: [hasattr(self, 'fallback_invitations')] is false). Every
    definition of this module is the [if not conn:] branch of the method of
    the same name. *)

Module Fallback.

Record t := mk {
  users : pydict User.t;
  committees : pydict Committee.t;
  committee_members : pydict Member.t;
  payments : pydict Payment.t;
  payouts : pydict Payout.t;
  fallback_invitations : option (pydict Invitation.t)
}.

Definition set_users (us : pydict User.t) (s : t) : t :=
  mk us (committees s) (committee_members s) (payments s) (payouts s)
     (fallback_invitations s).

Definition set_committees (cs : pydict Committee.t) (s : t) : t :=
  mk (users s) cs (committee_members s) (payments s) (payouts s)
     (fallback_invitations s).

Definition set_committee_members (ms : pydict Member.t) (s : t) : t :=
  mk (users s) (committees s) ms (payments s) (payouts s)
     (fallback_invitations s).

Definition set_fallback_invitations (invs : pydict Invitation.t) (s : t) : t :=
  mk (users s) (committees s) (committee_members s) (payments s) (payouts s)
     (Some invs).

(** [hashlib.sha256('password'.encode()).hexdigest()] *)
Definition demo_password_hash : string :=
  "5e884898da28047151d0e56f8dc6292773603d0d6aabbdd62a11ef721d1542d8".

Definition _init_fallback_storage (demo_admin_id demo_member_id : string)
    (now_admin now_member : datetime.t) : t :=
  let users0 : pydict User.t := [] in
  let users1 :=
    dict_set demo_admin_id
      (User.mk demo_admin_id "demo_admin" "Demo Admin" "admin@civitas.pk"
         "+92-300-1234567" "admin" (Some "12345-1234567-1") 95 now_admin
         demo_password_hash) users0 in
  let users2 :=
    dict_set demo_member_id
      (User.mk demo_member_id "demo_member" "Demo Member" "member@civitas.pk"
         "+92-300-7654321" "member" (Some "54321-7654321-5") 88 now_member
         demo_password_hash) users1 in
  mk users2 [] [] [] [] None.

(** [password_hash] is the SHA-256 digest the method computes from the
    password. *)
Definition create_user (s : t) (username password_hash full_name email phone
    role : string) (cnic : option string) (user_id : string)
    (now : datetime.t) : t * bool :=
  if decide (Exists (λ user, User.username user = username) (dict_values (users s)))
  then (s, false)
  else
    (set_users
       (dict_set user_id
          (User.mk user_id username full_name email phone role cnic 85 now
             password_hash) (users s)) s,
     true).

Definition get_user_by_id (s : t) (user_id : string) : option UserInfo.t :=
  match dict_get user_id (users s) with
  | Some user => Some (UserInfo.of_user user)
  | None => None
  end.

Definition create_committee (s : t) (title : string)
    (description : option string) (monthly_amount total_members duration : Z)
    (committee_type category payment_frequency admin_id : string)
    (committee_id member_id : string) (now_created now_joined : datetime.t)
    : t * bool :=
  let s1 :=
    set_committees
      (dict_set committee_id
         (Committee.mk committee_id title description monthly_amount
            total_members 1 duration committee_type category
            payment_frequency "active" admin_id now_created)
         (committees s)) s in
  (* Add admin as first member *)
  let s2 :=
    set_committee_members
      (dict_set member_id
         (Member.mk member_id committee_id admin_id 1 now_joined)
         (committee_members s1)) s1 in
  (s2, true).

Definition get_user_committees (s : t) (user_id : string) : list Committee.t :=
  mbind (λ member,
      if decide (Member.user_id member = user_id) then
        match dict_get (Member.committee_id member) (committees s) with
        | Some committee => [committee]
        | None => []
        end
      else [])
    (dict_values (committee_members s)).

Definition get_public_committees_for_user (s : t) (user_id : string)
    : list Committee.t :=
  let user_committee_ids : gset string :=
    list_to_set
      (Member.committee_id <$>
         filter (λ member, Member.user_id member = user_id)
           (dict_values (committee_members s))) in
  filter (λ committee,
      Committee.committee_type committee = "public"
      ∧ (Committee.id committee ∉ user_committee_ids)
      ∧ Committee.current_members committee < Committee.total_members committee)
    (dict_values (committees s)).

Definition join_committee (s : t) (committee_id user_id : string)
    (member_id : string) (now : datetime.t) : t * bool :=
  match dict_get committee_id (committees s) with
  | Some committee =>
      if decide (Committee.current_members committee
                 < Committee.total_members committee) then
        (* Check if user already joined *)
        if decide (Exists (λ member,
                       Member.committee_id member = committee_id
                       ∧ Member.user_id member = user_id)
                     (dict_values (committee_members s)))
        then (s, false)
        else
          (* Add member *)
          let position := Committee.current_members committee + 1 in
          let s1 :=
            set_committee_members
              (dict_set member_id
                 (Member.mk member_id committee_id user_id position now)
                 (committee_members s)) s in
          (* Update committee *)
          let s2 :=
            set_committees
              (dict_set committee_id
                 (Committee.set_current_members
                    (Committee.current_members committee + 1) committee)
                 (committees s1)) s1 in
          (s2, true)
      else (s, false)
  | None => (s, false)
  end.

Definition get_member_position_in_committee (s : t)
    (committee_id user_id : string) : Z :=
  match
    filter (λ member,
        Member.committee_id member = committee_id
        ∧ Member.user_id member = user_id)
      (dict_values (committee_members s))
  with
  | member :: _ => Member.position member
  | [] => 0
  end.

Definition get_user_payment_history (s : t) (user_id : string)
    : list Payment.t := [].

Definition update_user_profile (s : t) (user_id full_name email phone : string)
    (cnic : option string) : t * bool :=
  match dict_get user_id (users s) with
  | Some user =>
      (set_users
         (dict_set user_id
            (User.mk (User.id user) (User.username user) full_name email phone
               (User.role user) cnic (User.trust_score user)
               (User.created_date user) (User.password_hash user))
            (users s)) s,
       true)
  | None => (s, false)
  end.

Definition update_committee_settings (s : t) (committee_id title : string)
    (description : option string)
    (status payment_frequency category committee_type : string) : t * bool :=
  match dict_get committee_id (committees s) with
  | Some committee =>
      (set_committees
         (dict_set committee_id
            (Committee.set_settings title description status payment_frequency
               category committee_type committee)
            (committees s)) s,
       true)
  | None => (s, false)
  end.

Definition delete_committee (s : t) (committee_id : string) : t * bool :=
  match dict_get committee_id (committees s) with
  | Some _ =>
      let s1 := set_committees (dict_del committee_id (committees s)) s in
      (* Remove committee members *)
      let members_to_remove :=
        (filter (λ kv, Member.committee_id kv.2 = committee_id)
           (committee_members s1)).*1 in
      let s2 :=
        set_committee_members
          (foldl (λ ms mid, dict_del mid ms) (committee_members s1)
             members_to_remove) s1 in
      (s2, true)
  | None => (s, false)
  end.

Definition send_committee_invitation (s : t)
    (committee_id invited_user_id invited_by_id : string)
    (message : option string) (invitation_id : string) (now : datetime.t)
    : t * bool :=
  let invitations :=
    match fallback_invitations s with
    | Some invs => invs
    | None => []
    end in
  (set_fallback_invitations
     (dict_set invitation_id
        (Invitation.mk invitation_id committee_id invited_user_id
           invited_by_id now "pending" None message)
        invitations) s,
   true).

Definition respond_to_invitation (s : t) (invitation_id response : string)
    (now : datetime.t) (member_id : string) (now_joined : datetime.t)
    : t * bool :=
  match fallback_invitations s with
  | Some invitations =>
      match dict_get invitation_id invitations with
      | Some invitation =>
          let s1 :=
            set_fallback_invitations
              (dict_set invitation_id
                 (Invitation.respond response now invitation) invitations) s in
          (* If accepted, join the committee *)
          if decide (response = "accepted") then
            join_committee s1 (Invitation.committee_id invitation)
              (Invitation.invited_user_id invitation) member_id now_joined
          else (s1, true)
      | None => (s, false)
      end
  | None => (s, false)
  end.

(** The loop returns at the first user whose name and digest match;
    [password_hash] is the SHA-256 digest the method computes from the
    password. *)
Definition authenticate_user (s : t) (username password_hash : string)
    : option UserInfo.t :=
  match
    filter (λ user,
        User.username user = username
        ∧ User.password_hash user = password_hash)
      (dict_values (users s))
  with
  | user :: _ => Some (UserInfo.of_user user)
  | [] => None
  end.

Definition get_user_invitations (s : t) (user_id : string)
    : list UserInvitation.t :=
  match fallback_invitations s with
  | Some fallback_invitations =>
      mbind (λ inv,
          if decide (Invitation.invited_user_id inv = user_id
                     ∧ Invitation.status inv = "pending") then
            match dict_get (Invitation.committee_id inv) (committees s) with
            | Some committee =>
                [UserInvitation.mk (Invitation.id inv)
                   (Committee.title committee) (Invitation.committee_id inv)
                   (Invitation.invited_by_id inv)
                   (Invitation.invitation_date inv) (Invitation.message inv)
                   None]
            | None => []
            end
          else [])
        (dict_values fallback_invitations)
  | None => []
  end.

End Fallback.

(** ** The PostgreSQL store

    The six tables [initialize_database] creates, each a list of rows, with
    the constraints of the schema checked by the statements that can violate
    them: primary keys, [UNIQUE(username)], [UNIQUE(committee_id, user_id)]
    and the [REFERENCES] clauses. A statement that violates one raises
    [psycopg2.IntegrityError] and changes nothing; PostgreSQL then refuses
    further statements until the rollback, which every caller performs next.
    Other database errors (a lost connection, a value too long for its
    column, an integer out of the range of [INTEGER]) are not modelled: they
    are [psycopg2.Error]s too and take the same path, rollback and [False].
    The column [is_active] of [users] is never read or written and is left
    out; so are the read-only methods no property below concerns. *)

Module Pg.

Record Database := mk {
  users : list User.t;
  committees : list Committee.t;
  committee_members : list Member.t;
  payments : list Payment.t;
  payouts : list Payout.t;
  committee_invitations : list Invitation.t
}.

(** *** Connections and transactions *)

(** A connection holds the committed database and the working copy of the
    open transaction. *)
Record Conn := mkConn { committed : Database; working : Database }.

(** Code running on a connection: it may raise, and the connection lives
    on through the exception. *)
Definition M (A : Type) : Type := Conn → res A * Conn.

Definition ret {A} (a : A) : M A := λ c, (Ok a, c).

Definition raise {A} (e : exn) : M A := λ c, (Raise e, c).

Definition bind {A B} (m : M A) (k : A → M B) : M B := λ c,
  match m c with
  | (Ok a, c') => k a c'
  | (Raise e, c') => (Raise e, c')
  end.

Notation "'let!' x ':=' m 'in' k" := (bind m (λ x, k))
  (at level 10, x pattern, m at level 100, k at level 200, only parsing).
Notation "m ';;' k" := (bind m (λ _, k))
  (at level 100, k at level 200, right associativity, only parsing).

(** [conn.commit()] *)
Definition commit : M unit := λ c, (Ok tt, mkConn (working c) (working c)).

(** [conn.rollback()] *)
Definition rollback : M unit := λ c, (Ok tt, mkConn (committed c) (committed c)).

(** [try: m except ...: handler] *)
Definition try_except {A} (m : M A) (handler : exn → M A) : M A := λ c,
  match m c with
  | (Raise e, c') => handler e c'
  | r => r
  end.

(** [except psycopg2.Error: h]; [IntegrityError] is one of its subclasses,
    [OverflowError] is not. *)
Definition except_psycopg2_Error {A} (h : M A) (e : exn) : M A :=
  match e with
  | IntegrityError => h
  | OverflowError => raise e
  end.

(** [conn = self.get_connection(); try: m finally: conn.close()]: what was
    not committed when the connection closes is lost. *)
Definition with_connection {A} (m : M A) (db : Database) : Database * res A :=
  let '(r, c) := m (mkConn db db) in (committed c, r).

(** A [SELECT] on the cursor. *)
Definition query {A} (q : Database → A) : M A := λ c, (Ok (q (working c)), c).

(** An [INSERT], [UPDATE] or [DELETE] on the cursor. *)
Definition execute {A} (stmt : Database → res (A * Database)) : M A := λ c,
  match stmt (working c) with
  | Ok (a, db') => (Ok a, mkConn (committed c) db')
  | Raise e => (Raise e, c)
  end.

(** *** Table updates *)

Definition set_users (us : list User.t) (db : Database) : Database :=
  mk us (committees db) (committee_members db) (payments db) (payouts db)
     (committee_invitations db).

Definition set_committees (cs : list Committee.t) (db : Database) : Database :=
  mk (users db) cs (committee_members db) (payments db) (payouts db)
     (committee_invitations db).

Definition set_committee_members (ms : list Member.t) (db : Database) : Database :=
  mk (users db) (committees db) ms (payments db) (payouts db)
     (committee_invitations db).

Definition set_payments (ps : list Payment.t) (db : Database) : Database :=
  mk (users db) (committees db) (committee_members db) ps (payouts db)
     (committee_invitations db).

Definition set_payouts (ps : list Payout.t) (db : Database) : Database :=
  mk (users db) (committees db) (committee_members db) (payments db) ps
     (committee_invitations db).

Definition set_committee_invitations (invs : list Invitation.t) (db : Database)
    : Database :=
  mk (users db) (committees db) (committee_members db) (payments db)
     (payouts db) invs.

(** *** Constraints *)

Definition user_exists (db : Database) (user_id : string) : Prop :=
  Exists (λ u, User.id u = user_id) (users db).

Definition committee_exists (db : Database) (committee_id : string) : Prop :=
  Exists (λ c, Committee.id c = committee_id) (committees db).

(** Some row of another table still references the committee. *)
Definition committee_referenced (db : Database) (committee_id : string) : Prop :=
  Exists (λ m, Member.committee_id m = committee_id) (committee_members db)
  ∨ Exists (λ p, Payment.committee_id p = committee_id) (payments db)
  ∨ Exists (λ p, Payout.committee_id p = committee_id) (payouts db)
  ∨ Exists (λ i, Invitation.committee_id i = committee_id)
      (committee_invitations db).

(** *** Statements *)

(** [INSERT INTO users (id, username, password_hash, full_name, email,
    phone, role, cnic)]; [trust_score] and [created_date] take their
    defaults, 85 and [CURRENT_TIMESTAMP]. *)
Definition insert_user (user_id username password_hash full_name email phone
    role : string) (cnic : option string) (now : datetime.t) (db : Database)
    : res (unit * Database) :=
  if decide (user_exists db user_id
             ∨ Exists (λ u, User.username u = username) (users db))
  then Raise IntegrityError
  else
    Ok (tt,
        set_users
          (users db ++
             [User.mk user_id username full_name email phone role cnic 85 now
                password_hash]) db).

(** [INSERT INTO committees (id, title, description, monthly_amount,
    total_members, current_members, duration, committee_type, category,
    payment_frequency, admin_id)]; [status] and [created_date] take their
    defaults, ['active'] and [CURRENT_TIMESTAMP]. *)
Definition insert_committee (committee_id title : string)
    (description : option string)
    (monthly_amount total_members current_members duration : Z)
    (committee_type category payment_frequency admin_id : string)
    (now : datetime.t) (db : Database) : res (unit * Database) :=
  if decide (committee_exists db committee_id ∨ ¬ user_exists db admin_id)
  then Raise IntegrityError
  else
    Ok (tt,
        set_committees
          (committees db ++
             [Committee.mk committee_id title description monthly_amount
                total_members current_members duration committee_type
                category payment_frequency "active" admin_id now]) db).

(** [INSERT INTO committee_members (id, committee_id, user_id, position)];
    [joined_date] takes its default [CURRENT_TIMESTAMP]. *)
Definition insert_committee_member (member_id committee_id user_id : string)
    (position : Z) (now : datetime.t) (db : Database) : res (unit * Database) :=
  if decide (Exists (λ m, Member.id m = member_id) (committee_members db)
             ∨ ¬ committee_exists db committee_id
             ∨ ¬ user_exists db user_id
             ∨ Exists (λ m, Member.committee_id m = committee_id
                            ∧ Member.user_id m = user_id)
                 (committee_members db))
  then Raise IntegrityError
  else
    Ok (tt,
        set_committee_members
          (committee_members db ++
             [Member.mk member_id committee_id user_id position now]) db).

(** [INSERT INTO committee_invitations (id, committee_id, invited_user_id,
    invited_by_id, message)]; [status] defaults to ['pending'],
    [invitation_date] to [CURRENT_TIMESTAMP], [response_date] to NULL. *)
Definition insert_invitation (invitation_id committee_id invited_user_id
    invited_by_id : string) (message : option string) (now : datetime.t)
    (db : Database) : res (unit * Database) :=
  if decide (Exists (λ i, Invitation.id i = invitation_id)
               (committee_invitations db)
             ∨ ¬ committee_exists db committee_id
             ∨ ¬ user_exists db invited_user_id
             ∨ ¬ user_exists db invited_by_id)
  then Raise IntegrityError
  else
    Ok (tt,
        set_committee_invitations
          (committee_invitations db ++
             [Invitation.mk invitation_id committee_id invited_user_id
                invited_by_id now "pending" None message]) db).

(** [SELECT current_members, total_members FROM committees WHERE id = %s]
    followed by [fetchone()]. *)
Definition select_members_count (committee_id : string) (db : Database)
    : option (Z * Z) :=
  match filter (λ c, Committee.id c = committee_id) (committees db) with
  | c :: _ => Some (Committee.current_members c, Committee.total_members c)
  | [] => None
  end.

(** [UPDATE committees SET current_members = current_members + 1
    WHERE id = %s] *)
Definition increment_current_members (committee_id : string) (db : Database)
    : res (unit * Database) :=
  Ok (tt,
      set_committees
        ((λ c, if decide (Committee.id c = committee_id)
               then Committee.set_current_members
                      (Committee.current_members c + 1) c
               else c) <$> committees db) db).

(** [UPDATE users SET full_name = %s, email = %s, phone = %s, cnic = %s
    WHERE id = %s]; the result is [cur.rowcount]. *)
Definition update_user (user_id full_name email phone : string)
    (cnic : option string) (db : Database) : res (Z * Database) :=
  Ok (Z.of_nat (length (filter (λ u, User.id u = user_id) (users db))),
      set_users
        ((λ u, if decide (User.id u = user_id)
               then User.mk (User.id u) (User.username u) full_name email
                      phone (User.role u) cnic (User.trust_score u)
                      (User.created_date u) (User.password_hash u)
               else u) <$> users db) db).

(** [UPDATE committees SET title = %s, description = %s, status = %s,
    payment_frequency = %s, category = %s, committee_type = %s
    WHERE id = %s]; the result is [cur.rowcount]. *)
Definition update_committee (committee_id title : string)
    (description : option string)
    (status payment_frequency category committee_type : string)
    (db : Database) : res (Z * Database) :=
  Ok (Z.of_nat (length (filter (λ c, Committee.id c = committee_id)
                          (committees db))),
      set_committees
        ((λ c, if decide (Committee.id c = committee_id)
               then Committee.set_settings title description status
                      payment_frequency category committee_type c
               else c) <$> committees db) db).

(** [DELETE FROM payments WHERE committee_id = %s] *)
Definition delete_payments (committee_id : string) (db : Database)
    : res (unit * Database) :=
  Ok (tt,
      set_payments
        (filter (λ p, Payment.committee_id p ≠ committee_id) (payments db)) db).

(** [DELETE FROM payouts WHERE committee_id = %s] *)
Definition delete_payouts (committee_id : string) (db : Database)
    : res (unit * Database) :=
  Ok (tt,
      set_payouts
        (filter (λ p, Payout.committee_id p ≠ committee_id) (payouts db)) db).

(** [DELETE FROM committee_members WHERE committee_id = %s] *)
Definition delete_committee_members (committee_id : string) (db : Database)
    : res (unit * Database) :=
  Ok (tt,
      set_committee_members
        (filter (λ m, Member.committee_id m ≠ committee_id)
           (committee_members db)) db).

(** [DELETE FROM committees WHERE id = %s]; the result is [cur.rowcount].
    Deleting a committee that a row of another table references violates
    that table's foreign key. *)
Definition delete_committees (committee_id : string) (db : Database)
    : res (Z * Database) :=
  if decide (committee_exists db committee_id
             ∧ committee_referenced db committee_id)
  then Raise IntegrityError
  else
    Ok (Z.of_nat (length (filter (λ c, Committee.id c = committee_id)
                            (committees db))),
        set_committees
          (filter (λ c, Committee.id c ≠ committee_id) (committees db)) db).

(** [UPDATE committee_invitations SET status = %s,
    response_date = CURRENT_TIMESTAMP WHERE id = %s AND status = 'pending'];
    the result is [cur.rowcount]. *)
Definition update_pending_invitation (response invitation_id : string)
    (now : datetime.t) (db : Database) : res (Z * Database) :=
  Ok (Z.of_nat (length (filter (λ i, Invitation.id i = invitation_id
                                     ∧ Invitation.status i = "pending")
                          (committee_invitations db))),
      set_committee_invitations
        ((λ i, if decide (Invitation.id i = invitation_id
                          ∧ Invitation.status i = "pending")
               then Invitation.respond response now i
               else i) <$> committee_invitations db) db).

(** [SELECT committee_id, invited_user_id FROM committee_invitations
    WHERE id = %s] followed by [fetchone()]. *)
Definition select_invitation (invitation_id : string) (db : Database)
    : option (string * string) :=
  match filter (λ i, Invitation.id i = invitation_id)
          (committee_invitations db) with
  | i :: _ => Some (Invitation.committee_id i, Invitation.invited_user_id i)
  | [] => None
  end.

(** [ORDER BY created_date DESC] *)
Definition newest_first (a b : Committee.t) : Prop :=
  datetime.le (Committee.created_date b) (Committee.created_date a).

#[global] Instance newest_first_dec a b : Decision (newest_first a b).
Proof. unfold newest_first. apply _. Defined.

(** [ORDER BY payment_date DESC] *)
Definition latest_payment_first (a b : Payment.t) : Prop :=
  datetime.le (Payment.payment_date b) (Payment.payment_date a).

#[global] Instance latest_payment_first_dec a b
  : Decision (latest_payment_first a b).
Proof. unfold latest_payment_first. apply _. Defined.

(** *** Methods

    Every definition below is the branch of the method of the same name
    that runs once [get_connection()] returned a connection. *)

Definition create_user (db : Database) (username password_hash full_name email
    phone role : string) (cnic : option string) (user_id : string)
    (now : datetime.t) : Database * res bool :=
  with_connection
    (try_except
       (execute (insert_user user_id username password_hash full_name email
                   phone role cnic now) ;;
        commit ;;
        ret true)
       (except_psycopg2_Error (rollback ;; ret false)))
    db.

Definition get_user_by_id (db : Database) (user_id : string)
    : option UserInfo.t :=
  match filter (λ u, User.id u = user_id) (users db) with
  | user :: _ => Some (UserInfo.of_user user)
  | [] => None
  end.

Definition create_committee (db : Database) (title : string)
    (description : option string) (monthly_amount total_members duration : Z)
    (committee_type category payment_frequency admin_id : string)
    (committee_id member_id : string) (now : datetime.t)
    : Database * res bool :=
  with_connection
    (try_except
       ((* Create committee *)
        execute (insert_committee committee_id title description
                   monthly_amount total_members 1 duration committee_type
                   category payment_frequency admin_id now) ;;
        (* Add admin as first member *)
        execute (insert_committee_member member_id committee_id admin_id 1
                   now) ;;
        commit ;;
        ret true)
       (except_psycopg2_Error (rollback ;; ret false)))
    db.

(** [SELECT c.* FROM committees c JOIN committee_members cm
    ON c.id = cm.committee_id WHERE cm.user_id = %s
    ORDER BY c.created_date DESC] *)
Definition get_user_committees (db : Database) (user_id : string)
    : list Committee.t :=
  merge_sort newest_first
    (mbind (λ c,
         mbind (λ cm,
             if decide (Committee.id c = Member.committee_id cm
                        ∧ Member.user_id cm = user_id)
             then [c] else [])
           (committee_members db))
       (committees db)).

(** [SELECT c.* FROM committees c WHERE c.committee_type = 'public'
    AND c.current_members < c.total_members AND c.id NOT IN (SELECT
    cm.committee_id FROM committee_members cm WHERE cm.user_id = %s)
    ORDER BY c.created_date DESC] *)
Definition get_public_committees_for_user (db : Database) (user_id : string)
    : list Committee.t :=
  merge_sort newest_first
    (filter (λ c,
         Committee.committee_type c = "public"
         ∧ Committee.current_members c < Committee.total_members c
         ∧ (Committee.id c ∉
              Member.committee_id <$>
                filter (λ cm, Member.user_id cm = user_id)
                  (committee_members db)))
       (committees db)).

Definition join_committee (db : Database) (committee_id user_id : string)
    (member_id : string) (now : datetime.t) : Database * res bool :=
  with_connection
    (try_except
       ((* Check if committee has space *)
        let! result := query (select_members_count committee_id) in
        match result with
        | None => ret false
        | Some (current, total) =>
            if decide (total ≤ current) then ret false
            else
              (* Get next position *)
              let position := current + 1 in
              (* Add member *)
              execute (insert_committee_member member_id committee_id user_id
                         position now) ;;
              (* Update committee member count *)
              execute (increment_current_members committee_id) ;;
              commit ;;
              ret true
        end)
       (except_psycopg2_Error (rollback ;; ret false)))
    db.

(** [SELECT position FROM committee_members WHERE committee_id = %s
    AND user_id = %s] followed by [fetchone()]. *)
Definition get_member_position_in_committee (db : Database)
    (committee_id user_id : string) : Z :=
  match
    filter (λ m, Member.committee_id m = committee_id
                 ∧ Member.user_id m = user_id)
      (committee_members db)
  with
  | m :: _ => Member.position m
  | [] => 0
  end.

(** [SELECT * FROM payments WHERE user_id = %s ORDER BY payment_date DESC] *)
Definition get_user_payment_history (db : Database) (user_id : string)
    : list Payment.t :=
  merge_sort latest_payment_first
    (filter (λ p, Payment.user_id p = user_id) (payments db)).

Definition update_user_profile (db : Database)
    (user_id full_name email phone : string) (cnic : option string)
    : Database * res bool :=
  with_connection
    (try_except
       (let! rowcount := execute (update_user user_id full_name email phone
                                    cnic) in
        commit ;;
        ret (bool_decide (0 < rowcount)))
       (except_psycopg2_Error (rollback ;; ret false)))
    db.

Definition update_committee_settings (db : Database)
    (committee_id title : string) (description : option string)
    (status payment_frequency category committee_type : string)
    : Database * res bool :=
  with_connection
    (try_except
       (let! rowcount := execute (update_committee committee_id title
                                    description status payment_frequency
                                    category committee_type) in
        commit ;;
        ret (bool_decide (0 < rowcount)))
       (except_psycopg2_Error (rollback ;; ret false)))
    db.

Definition delete_committee (db : Database) (committee_id : string)
    : Database * res bool :=
  with_connection
    (try_except
       ((* Delete in proper order due to foreign key constraints *)
        execute (delete_payments committee_id) ;;
        execute (delete_payouts committee_id) ;;
        execute (delete_committee_members committee_id) ;;
        let! rowcount := execute (delete_committees committee_id) in
        commit ;;
        ret (bool_decide (0 < rowcount)))
       (except_psycopg2_Error (rollback ;; ret false)))
    db.

Definition send_committee_invitation (db : Database)
    (committee_id invited_user_id invited_by_id : string)
    (message : option string) (invitation_id : string) (now : datetime.t)
    : Database * res bool :=
  with_connection
    (try_except
       (execute (insert_invitation invitation_id committee_id invited_user_id
                   invited_by_id message now) ;;
        commit ;;
        ret true)
       (except_psycopg2_Error (rollback ;; ret false)))
    db.

(** Internal method to join committee (used within transactions): it runs
    on the caller's cursor and neither commits nor rolls back. *)
Definition _join_committee_internal (committee_id user_id : string)
    (member_id : string) (now : datetime.t) : M bool :=
  try_except
    ((* Check if committee has space *)
     let! result := query (select_members_count committee_id) in
     match result with
     | None => ret false
     | Some (current, total) =>
         if decide (total ≤ current) then ret false
         else
           (* Get next position *)
           let position := current + 1 in
           (* Add member *)
           execute (insert_committee_member member_id committee_id user_id
                      position now) ;;
           (* Update committee member count *)
           execute (increment_current_members committee_id) ;;
           ret true
     end)
    (λ e, match e with
          | IntegrityError => ret false
          | OverflowError => raise e
          end).

Definition respond_to_invitation (db : Database)
    (invitation_id response : string) (now : datetime.t) (member_id : string)
    (now_joined : datetime.t) : Database * res bool :=
  with_connection
    (try_except
       ((* Update invitation status *)
        let! rowcount := execute (update_pending_invitation response
                                    invitation_id now) in
        if decide (rowcount = 0) then ret false
        else
          (* If accepted, get invitation details and join committee *)
          let! joined :=
            if decide (response = "accepted") then
              let! result := query (select_invitation invitation_id) in
              match result with
              | Some (committee_id, user_id) =>
                  (* Join the committee *)
                  _join_committee_internal committee_id user_id member_id
                    now_joined
              | None => ret true
              end
            else ret true in
          if joined then commit ;; ret true
          else rollback ;; ret false)
       (except_psycopg2_Error (rollback ;; ret false)))
    db.

(** [SELECT id, username, full_name, email, phone, role, trust_score, cnic
    FROM users WHERE username = %s AND password_hash = %s] followed by
    [fetchone()]. *)
Definition authenticate_user (db : Database) (username password_hash : string)
    : option UserInfo.t :=
  match
    filter (λ u, User.username u = username
                 ∧ User.password_hash u = password_hash)
      (users db)
  with
  | user :: _ => Some (UserInfo.of_user user)
  | [] => None
  end.

(** [ORDER BY ci.invitation_date DESC] *)
Definition newest_invitation_first (a b : UserInvitation.t) : Prop :=
  datetime.le (UserInvitation.invitation_date b)
    (UserInvitation.invitation_date a).

#[global] Instance newest_invitation_first_dec a b
  : Decision (newest_invitation_first a b).
Proof. unfold newest_invitation_first. apply _. Defined.

(** [SELECT ci.id, ci.committee_id, ci.invited_by_id, ci.invitation_date,
    ci.message, c.title as committee_title, u.username as
    invited_by_username FROM committee_invitations ci JOIN committees c ON
    ci.committee_id = c.id JOIN users u ON ci.invited_by_id = u.id WHERE
    ci.invited_user_id = %s AND ci.status = 'pending' ORDER BY
    ci.invitation_date DESC] *)
Definition get_user_invitations (db : Database) (user_id : string)
    : list UserInvitation.t :=
  merge_sort newest_invitation_first
    (mbind (λ ci,
         mbind (λ c,
             mbind (λ u,
                 if decide (Invitation.committee_id ci = Committee.id c
                            ∧ Invitation.invited_by_id ci = User.id u
                            ∧ Invitation.invited_user_id ci = user_id
                            ∧ Invitation.status ci = "pending")
                 then
                   [UserInvitation.mk (Invitation.id ci) (Committee.title c)
                      (Invitation.committee_id ci)
                      (Invitation.invited_by_id ci)
                      (Invitation.invitation_date ci) (Invitation.message ci)
                      (Some (User.username u))]
                 else [])
               (users db))
           (committees db))
       (committee_invitations db)).

End Pg.

(** ** [DatabaseManager]

    Every method opens with [conn = self.get_connection()] and takes the
    fallback branch when no connection was obtained. A manager is modelled
    with the store it runs on: [Connected] when [get_connection()] returns a
    connection to the database, [Disconnected] when it returns [None] and the
    fallback dictionaries serve (they exist from [initialize_database] on,
    when the first connection attempt failed). *)

Module DatabaseManager.

Inductive t :=
  | Connected (db : Pg.Database)
  | Disconnected (s : Fallback.t).

Definition on_db (r : Pg.Database * res bool) : t * res bool :=
  (Connected r.1, r.2).

Definition on_fallback (r : Fallback.t * bool) : t * res bool :=
  (Disconnected r.1, Ok r.2).

Definition create_user (self : t) (username password_hash full_name email
    phone role : string) (cnic : option string) (user_id : string)
    (now : datetime.t) : t * res bool :=
  match self with
  | Disconnected s =>
      on_fallback (Fallback.create_user s username password_hash full_name
                     email phone role cnic user_id now)
  | Connected db =>
      on_db (Pg.create_user db username password_hash full_name email phone
               role cnic user_id now)
  end.

Definition get_user_by_id (self : t) (user_id : string) : option UserInfo.t :=
  match self with
  | Disconnected s => Fallback.get_user_by_id s user_id
  | Connected db => Pg.get_user_by_id db user_id
  end.

Definition create_committee (self : t) (title : string)
    (description : option string) (monthly_amount total_members duration : Z)
    (committee_type category payment_frequency admin_id : string)
    (committee_id member_id : string) (now_created now_joined : datetime.t)
    : t * res bool :=
  match self with
  | Disconnected s =>
      on_fallback (Fallback.create_committee s title description
                     monthly_amount total_members duration committee_type
                     category payment_frequency admin_id committee_id
                     member_id now_created now_joined)
  | Connected db =>
      on_db (Pg.create_committee db title description monthly_amount
               total_members duration committee_type category
               payment_frequency admin_id committee_id member_id now_created)
  end.

Definition get_user_committees (self : t) (user_id : string)
    : list Committee.t :=
  match self with
  | Disconnected s => Fallback.get_user_committees s user_id
  | Connected db => Pg.get_user_committees db user_id
  end.

Definition get_public_committees_for_user (self : t) (user_id : string)
    : list Committee.t :=
  match self with
  | Disconnected s => Fallback.get_public_committees_for_user s user_id
  | Connected db => Pg.get_public_committees_for_user db user_id
  end.

Definition join_committee (self : t) (committee_id user_id : string)
    (member_id : string) (now : datetime.t) : t * res bool :=
  match self with
  | Disconnected s =>
      on_fallback (Fallback.join_committee s committee_id user_id member_id now)
  | Connected db =>
      on_db (Pg.join_committee db committee_id user_id member_id now)
  end.

Definition get_member_position_in_committee (self : t)
    (committee_id user_id : string) : Z :=
  match self with
  | Disconnected s =>
      Fallback.get_member_position_in_committee s committee_id user_id
  | Connected db => Pg.get_member_position_in_committee db committee_id user_id
  end.

Definition get_user_payment_history (self : t) (user_id : string)
    : list Payment.t :=
  match self with
  | Disconnected s => Fallback.get_user_payment_history s user_id
  | Connected db => Pg.get_user_payment_history db user_id
  end.

Definition update_user_profile (self : t)
    (user_id full_name email phone : string) (cnic : option string)
    : t * res bool :=
  match self with
  | Disconnected s =>
      on_fallback (Fallback.update_user_profile s user_id full_name email
                     phone cnic)
  | Connected db =>
      on_db (Pg.update_user_profile db user_id full_name email phone cnic)
  end.

Definition update_committee_settings (self : t) (committee_id title : string)
    (description : option string)
    (status payment_frequency category committee_type : string)
    : t * res bool :=
  match self with
  | Disconnected s =>
      on_fallback (Fallback.update_committee_settings s committee_id title
                     description status payment_frequency category
                     committee_type)
  | Connected db =>
      on_db (Pg.update_committee_settings db committee_id title description
               status payment_frequency category committee_type)
  end.

Definition delete_committee (self : t) (committee_id : string) : t * res bool :=
  match self with
  | Disconnected s => on_fallback (Fallback.delete_committee s committee_id)
  | Connected db => on_db (Pg.delete_committee db committee_id)
  end.

Definition send_committee_invitation (self : t)
    (committee_id invited_user_id invited_by_id : string)
    (message : option string) (invitation_id : string) (now : datetime.t)
    : t * res bool :=
  match self with
  | Disconnected s =>
      on_fallback (Fallback.send_committee_invitation s committee_id
                     invited_user_id invited_by_id message invitation_id now)
  | Connected db =>
      on_db (Pg.send_committee_invitation db committee_id invited_user_id
               invited_by_id message invitation_id now)
  end.

Definition respond_to_invitation (self : t) (invitation_id response : string)
    (now : datetime.t) (member_id : string) (now_joined : datetime.t)
    : t * res bool :=
  match self with
  | Disconnected s =>
      on_fallback (Fallback.respond_to_invitation s invitation_id response now
                     member_id now_joined)
  | Connected db =>
      on_db (Pg.respond_to_invitation db invitation_id response now member_id
               now_joined)
  end.

Definition approve_join_request (self : t) (request_id committee_id : string)
    (now : datetime.t) (member_id : string) (now_joined : datetime.t)
    : t * res bool :=
  respond_to_invitation self request_id "accepted" now member_id now_joined.

Definition reject_join_request (self : t) (request_id : string)
    (now : datetime.t) (member_id : string) (now_joined : datetime.t)
    : t * res bool :=
  respond_to_invitation self request_id "rejected" now member_id now_joined.

(** *** Views of the store, for stating properties *)

(** The committees the store holds. *)
Definition committees (self : t) : list Committee.t :=
  match self with
  | Disconnected s => dict_values (Fallback.committees s)
  | Connected db => Pg.committees db
  end.

(** The memberships the store holds. *)
Definition memberships (self : t) : list Member.t :=
  match self with
  | Disconnected s => dict_values (Fallback.committee_members s)
  | Connected db => Pg.committee_members db
  end.

(** The invitations the store holds. *)
Definition invitations (self : t) : list Invitation.t :=
  match self with
  | Disconnected s =>
      match Fallback.fallback_invitations s with
      | Some invs => dict_values invs
      | None => []
      end
  | Connected db => Pg.committee_invitations db
  end.

(** The committee a lookup by identifier finds: [committees.get(id)] in the
    fallback, the first row [WHERE id = %s] selects in the database. *)
Definition find_committee (self : t) (committee_id : string)
    : option Committee.t :=
  match self with
  | Disconnected s => dict_get committee_id (Fallback.committees s)
  | Connected db =>
      head (filter (λ c, Committee.id c = committee_id) (Pg.committees db))
  end.

(** [user_id] holds a membership of [committee_id]. *)
Definition is_member (self : t) (committee_id user_id : string) : Prop :=
  ∃ m, m ∈ memberships self
       ∧ Member.committee_id m = committee_id ∧ Member.user_id m = user_id.

(** *** The values [uuid.uuid4()] may return

    A fresh identifier: it names nothing the store holds. *)
Definition uuid4_unused (self : t) (new_id : string) : Prop :=
  match self with
  | Disconnected s =>
      (new_id ∉ dict_keys (Fallback.users s))
      ∧ (new_id ∉ dict_keys (Fallback.committees s))
      ∧ (new_id ∉ dict_keys (Fallback.committee_members s))
      ∧ new_id ∉ match Fallback.fallback_invitations s with
                  | Some invs => dict_keys invs
                  | None => []
                  end
  | Connected db =>
      (new_id ∉ User.id <$> Pg.users db)
      ∧ (new_id ∉ Committee.id <$> Pg.committees db)
      ∧ (new_id ∉ Member.id <$> Pg.committee_members db)
      ∧ (new_id ∉ Invitation.id <$> Pg.committee_invitations db)
  end.

(** *** The states a manager can reach

    A manager starts on the database as [initialize_database] leaves it when
    it creates the tables (empty but for the users) or on the fallback
    dictionaries [_init_fallback_storage] builds; every call of a method that
    writes is a step, with fresh identifiers for the rows it adds. *)
Definition initial (self : t) : Prop :=
  match self with
  | Disconnected s =>
      ∃ demo_admin_id demo_member_id now_admin now_member,
        demo_admin_id ≠ demo_member_id
        ∧ s = Fallback._init_fallback_storage demo_admin_id demo_member_id
                now_admin now_member
  | Connected db =>
      Pg.committees db = [] ∧ Pg.committee_members db = []
      ∧ Pg.payments db = [] ∧ Pg.payouts db = []
      ∧ Pg.committee_invitations db = []
  end.

Inductive step (self : t) : t → Prop :=
  | step_create_user username password_hash full_name email phone role cnic
      user_id now :
      uuid4_unused self user_id →
      step self (create_user self username password_hash full_name email
                   phone role cnic user_id now).1
  | step_create_committee title description monthly_amount total_members
      duration committee_type category payment_frequency admin_id
      committee_id member_id now_created now_joined :
      uuid4_unused self committee_id →
      uuid4_unused self member_id →
      committee_id ≠ member_id →
      step self (create_committee self title description monthly_amount
                   total_members duration committee_type category
                   payment_frequency admin_id committee_id member_id
                   now_created now_joined).1
  | step_join_committee committee_id user_id member_id now :
      uuid4_unused self member_id →
      step self (join_committee self committee_id user_id member_id now).1
  | step_update_user_profile user_id full_name email phone cnic :
      step self (update_user_profile self user_id full_name email phone cnic).1
  | step_update_committee_settings committee_id title description status
      payment_frequency category committee_type :
      step self (update_committee_settings self committee_id title
                   description status payment_frequency category
                   committee_type).1
  | step_delete_committee committee_id :
      step self (delete_committee self committee_id).1
  | step_send_committee_invitation committee_id invited_user_id invited_by_id
      message invitation_id now :
      uuid4_unused self invitation_id →
      step self (send_committee_invitation self committee_id invited_user_id
                   invited_by_id message invitation_id now).1
  | step_respond_to_invitation invitation_id response now member_id
      now_joined :
      uuid4_unused self member_id →
      step self (respond_to_invitation self invitation_id response now
                   member_id now_joined).1.

Definition reachable (self : t) : Prop :=
  ∃ self0, initial self0 ∧ rtc step self0 self.

(** *** Further methods and views *)

Definition authenticate_user (self : t) (username password_hash : string)
    : option UserInfo.t :=
  match self with
  | Disconnected s => Fallback.authenticate_user s username password_hash
  | Connected db => Pg.authenticate_user db username password_hash
  end.

Definition get_user_invitations (self : t) (user_id : string)
    : list UserInvitation.t :=
  match self with
  | Disconnected s => Fallback.get_user_invitations s user_id
  | Connected db => Pg.get_user_invitations db user_id
  end.

(** The users the store holds. *)
Definition users (self : t) : list User.t :=
  match self with
  | Disconnected s => dict_values (Fallback.users s)
  | Connected db => Pg.users db
  end.

End DatabaseManager.

(** ** [TrustScoreManager] ([utils/trust_score.py]) *)

(** [_calculate_payment_score] takes a [List[Any]] and reads three attributes
    off each element: [status], and, guarded by [hasattr], [payment_date] and
    [due_date]. [None] stands for an attribute the object does not have. *)
Class PaymentLike (A : Type) := {
  status_of : A → string;
  payment_date_of : A → option datetime.t;
  due_date_of : A → option datetime.t
}.

(** The [Payment] data class of [database/db_manager.py], the one
    [get_user_payment_history] builds: it has no field [due_date]. *)
#[global] Instance Payment_PaymentLike : PaymentLike Payment.t := {
  status_of := Payment.status;
  payment_date_of p := Some (Payment.payment_date p);
  due_date_of _ := None
}.

(** An object that carries both dates. *)
Module DatedPayment.
Record t := mk {
  status : string;
  payment_date : datetime.t;
  due_date : datetime.t
}.
End DatedPayment.

#[global] Instance DatedPayment_PaymentLike : PaymentLike DatedPayment.t := {
  status_of := DatedPayment.status;
  payment_date_of p := Some (DatedPayment.payment_date p);
  due_date_of p := Some (DatedPayment.due_date p)
}.

Module TrustScoreManager.

(** The body of the loop over [paid_payments]: the running count of on-time
    payments after [payment]. *)
Definition count_on_time `{PaymentLike A} (on_time_payments : Z) (payment : A)
    : Z :=
  match due_date_of payment, payment_date_of payment with
  | Some due_date, Some payment_date =>
      if decide (datetime.le payment_date due_date) then on_time_payments + 1
      else on_time_payments
  | _, _ => on_time_payments
  end.

Definition _calculate_payment_score `{PaymentLike A} (payments : list A) : Z :=
  match payments with
  | [] => 0
  | _ :: _ =>
      let paid_payments := filter (λ p, status_of p = "paid") payments in
      let total_payments := Z.of_nat (length payments) in
      if decide (total_payments = 0) then 0
      else
        let payment_ratio :=
          truediv (Z.of_nat (length paid_payments)) total_payments in
        (* On-time payment bonus *)
        let on_time_payments := foldl count_on_time 0 paid_payments in
        let on_time_ratio :=
          match paid_payments with
          | _ :: _ => truediv on_time_payments (Z.of_nat (length paid_payments))
          | [] => float_of_Z 0
          end in
        int_of_float
          (PrimFloat.add (PrimFloat.mul payment_ratio (float_of_Z 25))
             (PrimFloat.mul on_time_ratio (float_of_Z 15)))
  end.

Definition _calculate_completion_score (committees : list Committee.t) : Z :=
  match committees with
  | [] => 0
  | _ :: _ =>
      let completed_committees :=
        filter (λ c, Committee.status c = "completed") committees in
      let total_committees := Z.of_nat (length committees) in
      let completion_ratio :=
        truediv (Z.of_nat (length completed_committees)) total_committees in
      (* Active participation bonus *)
      let active_committees :=
        filter (λ c, Committee.status c = "active") committees in
      let active_bonus := Z.min 10 (Z.of_nat (length active_committees) * 2) in
      int_of_float
        (PrimFloat.add (PrimFloat.mul completion_ratio (float_of_Z 20))
           (float_of_Z active_bonus))
  end.

(** [user_data.created_date] on the dictionary [get_user_by_id] returns: a
    dictionary has no such attribute, whatever its keys. *)
Definition user_data_created_date (user_data : UserInfo.t) : option datetime.t :=
  None.

Definition _calculate_tenure_score (db : DatabaseManager.t) (now : datetime.t)
    (user_id : string) : Z :=
  match DatabaseManager.get_user_by_id db user_id with
  | None => 0
  | Some user_data =>
      if negb (dict_hasattr "created_date") then 0
      else
        match user_data_created_date user_data with
        | Some created_date =>
            let account_age_days := datetime.days_between now created_date in
            let months_active := truediv account_age_days 30 in
            (* 1 point per month, max 20 points *)
            Z.min 20 (int_of_float months_active)
        | None => 0
        end
  end.

Definition calculate_trust_score (db : DatabaseManager.t) (now : datetime.t)
    (user_id : string) : Z :=
  (* Get user's payment history *)
  let payments := DatabaseManager.get_user_payment_history db user_id in
  let committees := DatabaseManager.get_user_committees db user_id in
  match payments, committees with
  | [], [] => 85 (* Default trust score for new users *)
  | _, _ =>
      (* Base score *)
      let base_score := 50 in
      (* Payment consistency (40 points max) *)
      let payment_score := _calculate_payment_score payments in
      (* Committee completion rate (30 points max) *)
      let completion_score := _calculate_completion_score committees in
      (* Tenure bonus (20 points max) *)
      let tenure_score := _calculate_tenure_score db now user_id in
      let total_score :=
        base_score + payment_score + completion_score + tenure_score in
      (* Cap at 100 *)
      Z.min 100 (Z.max 0 total_score)
  end.

(** [user_data.trust_score] on the dictionary [get_user_by_id] returns: the
    score is under the key ['trust_score'], not an attribute. *)
Definition user_data_trust_score (user_data : UserInfo.t) : option Z := None.

Definition get_current_trust_score (db : DatabaseManager.t) (user_id : string)
    : Z :=
  match DatabaseManager.get_user_by_id db user_id with
  | Some user_data =>
      if dict_hasattr "trust_score" then
        match user_data_trust_score user_data with
        | Some trust_score => trust_score
        | None => 85
        end
      else 85 (* Default score *)
  | None => 85
  end.

(** The dictionary [get_trust_level_description] returns. *)
Module TrustLevel.
Record t := mk {
  level : string;
  description : string;
  benefits : string;
  color : string
}.
End TrustLevel.

Definition get_trust_level_description (score : Z) : TrustLevel.t :=
  if decide (95 ≤ score) then
    TrustLevel.mk "Excellent"
      "Outstanding payment history and committee participation"
      "Access to premium committees, lower fees, priority support" "#228B22"
  else if decide (85 ≤ score) then
    TrustLevel.mk "Very Good" "Reliable member with consistent payments"
      "Access to most committees, good rates" "#32CD32"
  else if decide (75 ≤ score) then
    TrustLevel.mk "Good" "Generally reliable with occasional delays"
      "Access to standard committees" "#FFD700"
  else if decide (60 ≤ score) then
    TrustLevel.mk "Fair" "Some payment issues, room for improvement"
      "Limited committee access, higher fees" "#FFA500"
  else
    TrustLevel.mk "Needs Improvement"
      "Significant payment issues requiring attention"
      "Restricted access, mandatory monitoring" "#DC143C".

Definition get_improvement_recommendations (db : DatabaseManager.t)
    (user_id : string) : list string :=
  let score := get_current_trust_score db user_id in
  let recommendations : list string := [] in
  let recommendations :=
    if decide (score < 85) then
      recommendations ++
        ["Make all payments on time to improve payment consistency"]
    else recommendations in
  let recommendations :=
    if decide (score < 75) then
      recommendations ++
        ["Complete current committee commitments to boost completion rate";
         "Consider joining smaller committees to build trust gradually"]
    else recommendations in
  let recommendations :=
    if decide (score < 60) then
      recommendations ++
        ["Focus on resolving any outstanding payment issues";
         "Communicate with committee admins about any payment difficulties"]
    else recommendations in
  (* Always include positive reinforcement *)
  let recommendations :=
    if decide (85 ≤ score) then
      recommendations ++ ["Maintain your excellent payment record"]
    else recommendations in
  recommendations.

End TrustScoreManager.

(** The payment component as the specification words it, in exact rational
    arithmetic: [25 * (paid_count / total_payment_count) + 15 *
    (on_time_count / paid_count)], a paid payment being on time when its
    [payment_date <= due_date]; 0 for an empty history, and an on-time term
    of 0 when nothing is paid. *)
Definition payment_component_spec (payments : list DatedPayment.t) : Q :=
  let total_payment_count := Z.of_nat (length payments) in
  let paid := filter (λ p, DatedPayment.status p = "paid") payments in
  let paid_count := Z.of_nat (length paid) in
  let on_time_count :=
    Z.of_nat (length (filter (λ p, datetime.le (DatedPayment.payment_date p)
                                     (DatedPayment.due_date p)) paid)) in
  if decide (total_payment_count = 0) then 0%Q
  else
    (25 * (inject_Z paid_count / inject_Z total_payment_count)
     + (if decide (paid_count = 0%Z) then 0
        else 15 * (inject_Z on_time_count / inject_Z paid_count)))%Q.

(** ** [PaymentManager] ([utils/payment_manager.py]) *)

Module PaymentManager.

(** An entry of the payment schedule. *)
Record ScheduleEntry := mkScheduleEntry {
  cycle : Z;
  due_date : datetime.t;
  amount_per_member : option Z
}.

Definition calculate_payment_schedule (committee_id : string)
    (start_date : datetime.t) (payment_frequency : string) (duration : Z)
    : res (list ScheduleEntry) :=
  let schedule : list ScheduleEntry := [] in
  let current_date := start_date in
  let interval_days :=
    if decide (payment_frequency = "monthly") then 30
    else if decide (payment_frequency = "bi_monthly") then 60
    else 30 (* Default to monthly *) in
  for_each (seqZ 0 duration)
    (λ schedule cycle,
       res_bind (datetime.timedelta (interval_days * cycle)) (λ delta,
       res_bind (datetime.add current_date delta) (λ due_date,
       Ok (schedule ++ [mkScheduleEntry (cycle + 1) due_date None]))))
    schedule.

(** A payout notification. *)
Record Notification := mkNotification {
  committee_id : string;
  committee_title : string;
  amount : Z;
  estimated_date : datetime.t
}.

(** The clock is read once per notification; one reading [now] serves all. *)
Definition get_payout_notifications (db : DatabaseManager.t) (now : datetime.t)
    (user_id : string) : res (list Notification) :=
  let notifications : list Notification := [] in
  (* Get user's committees where they're eligible for payout *)
  let committees := DatabaseManager.get_user_committees db user_id in
  for_each committees
    (λ notifications committee,
       (* Check if user is next in payout queue *)
       let position :=
         DatabaseManager.get_member_position_in_committee db
           (Committee.id committee) user_id in
       if decide (position = 1) then (* Next in line for payout *)
         let payout_amount :=
           Committee.monthly_amount committee
           * Committee.current_members committee in
         res_bind (datetime.timedelta 7) (λ delta,
         res_bind (datetime.add now delta) (λ estimated_date,
         Ok (notifications ++
               [mkNotification (Committee.id committee)
                  (Committee.title committee) payout_amount estimated_date])))
       else Ok notifications)
    notifications.

(** [enumerate(xs, start)] *)
Fixpoint enumerate {A} (start : Z) (xs : list A) : list (Z * A) :=
  match xs with
  | [] => []
  | x :: xs' => (start, x) :: enumerate (start + 1) xs'
  end.

(** An entry of the payout schedule. *)
Record PayoutEntry := mkPayoutEntry {
  position : Z;
  member_id : string;
  payout_date : datetime.t;
  is_completed : bool
}.

Definition calculate_payout_schedule (committee_id : string)
    (members : list string) (start_date : datetime.t)
    (payment_frequency : string) : res (list PayoutEntry) :=
  let schedule : list PayoutEntry := [] in
  let interval_days :=
    if decide (payment_frequency = "monthly") then 30
    else if decide (payment_frequency = "bi_monthly") then 60
    else 30 in
  for_each (enumerate 1 members)
    (λ schedule '(position, member_id),
       res_bind (datetime.timedelta (interval_days * (position - 1))) (λ delta,
       res_bind (datetime.add start_date delta) (λ payout_date,
       Ok (schedule ++ [mkPayoutEntry position member_id payout_date false]))))
    schedule.

End PaymentManager.

(** ** The committee browser ([pages/committee_management.py]) *)

(** The metric [show_browse_committees] and [show_committee_details_modal]
    display as the estimated payout of a committee. *)
Definition estimated_payout (committee : Committee.t) : Z :=
  Committee.monthly_amount committee * Committee.total_members committee.

(** ** The member dashboard ([pages/member_dashboard.py]) *)

Definition get_trust_color (score : Z) : string :=
  if decide (95 ≤ score) then "#228B22"      (* Excellent - Dark Green *)
  else if decide (85 ≤ score) then "#32CD32" (* Very Good - Green *)
  else if decide (75 ≤ score) then "#FFD700" (* Good - Gold *)
  else if decide (60 ≤ score) then "#FFA500" (* Fair - Orange *)
  else "#DC143C".                            (* Poor - Red *)

Definition get_trust_level (score : Z) : string :=
  if decide (95 ≤ score) then "Excellent"
  else if decide (85 ≤ score) then "Very Good"
  else if decide (75 ≤ score) then "Good"
  else if decide (60 ≤ score) then "Fair"
  else "Poor".

(** A row of the payout calendar [show_payout_schedule] displays: the
    position, the date whose month is shown, and whether the row is the
    viewing user's; the strings of the row (['Month'], ['Member'],
    ['Status']) are formatted from these and ['Amount'] from the monthly
    pool. *)
Record CalendarRow := mkCalendarRow {
  Position : Z;
  payout_month : datetime.t;
  is_current_user : bool
}.

(** What [show_payout_schedule] computes for the page: the user's position,
    the monthly pool, the expected date of the user's payout and the rows of
    the calendar. One reading [now] of the clock serves all. *)
Definition show_payout_schedule (db : DatabaseManager.t)
    (committee : Committee.t) (user_id : string) (now : datetime.t)
    : res (Z * Z * datetime.t * list CalendarRow) :=
  (* Member's payout information *)
  let member_position :=
    DatabaseManager.get_member_position_in_committee db
      (Committee.id committee) user_id in
  let monthly_pool :=
    Committee.monthly_amount committee * Committee.current_members committee in
  (* Calculate payout date based on position and frequency *)
  let freq_days :=
    if decide (Committee.payment_frequency committee = "bi_monthly")
    then 60 else 30 in
  let months_to_wait := member_position - 1 in
  res_bind (datetime.timedelta (freq_days * months_to_wait)) (λ delta,
  res_bind (datetime.add now delta) (λ payout_date,
  (* Create payout schedule for all members *)
  let payout_schedule : list CalendarRow := [] in
  res_bind
    (for_each (seqZ 1 (Committee.current_members committee + 1 - 1))
       (λ payout_schedule position,
          res_bind (datetime.timedelta (freq_days * (position - 1))) (λ delta,
          res_bind (datetime.add now delta) (λ payout_month,
          let is_current_user := bool_decide (position = member_position) in
          Ok (payout_schedule ++
                [mkCalendarRow position payout_month is_current_user]))))
       payout_schedule)
    (λ payout_schedule,
       Ok (member_position, monthly_pool, payout_date, payout_schedule)))).

(** ** Filtering and sorting the browsed committees
    ([pages/committee_management.py]) *)

(** The only exception the filters can meet. *)
Inductive arithmetic_error := ZeroDivisionError.

Inductive outcome (A : Type) : Type :=
  | Returns (a : A)
  | Raises (e : arithmetic_error).
Arguments Returns {A} a.
Arguments Raises {A} e.

(** A [for] loop whose body may raise an arithmetic error. *)
Fixpoint for_loop {A S} (xs : list A) (body : S → A → outcome S) (s : S)
    : outcome S :=
  match xs with
  | [] => Returns s
  | x :: xs' =>
      match body s x with
      | Returns s' => for_loop xs' body s'
      | Raises e => Raises e
      end
  end.

(** The float literals [0.9] and [0.5]. *)
Definition float_0_9 : float := 0x1.ccccccccccccdp-1%float.
Definition float_0_5 : float := 0x1p-1%float.

Definition apply_committee_filters (committees : list Committee.t)
    (min_amount max_amount : Z)
    (category payment_freq duration availability : string)
    : outcome (list Committee.t) :=
  let filtered : list Committee.t := [] in
  for_loop committees
    (λ filtered committee,
       (* Amount filter *)
       if decide (Committee.monthly_amount committee < min_amount
                  ∨ max_amount < Committee.monthly_amount committee)
       then Returns filtered
       (* Category filter *)
       else if decide (category ≠ "All"
                       ∧ Committee.category committee ≠ category)
       then Returns filtered
       (* Payment frequency filter *)
       else if decide (payment_freq ≠ "All"
                       ∧ Committee.payment_frequency committee ≠ payment_freq)
       then Returns filtered
       (* Duration filter *)
       else if decide (duration ≠ "All"
                       ∧ ((duration = "Short (2-6 months)"
                           ∧ ¬ (2 ≤ Committee.duration committee ≤ 6))
                          ∨ (duration = "Medium (7-12 months)"
                             ∧ ¬ (7 ≤ Committee.duration committee ≤ 12))
                          ∨ (duration = "Long (13+ months)"
                             ∧ Committee.duration committee < 13)))
       then Returns filtered
       (* Availability filter *)
       else if decide (availability ≠ "All") then
         if decide (Committee.total_members committee = 0)
         then Raises ZeroDivisionError
         else
           let fill_rate :=
             truediv (Committee.current_members committee)
               (Committee.total_members committee) in
           if (bool_decide (availability = "Almost Full (90%+)")
               && PrimFloat.ltb fill_rate float_0_9)
              || (bool_decide (availability = "Half Full (50-90%)")
                  && negb (PrimFloat.leb float_0_5 fill_rate
                           && PrimFloat.ltb fill_rate float_0_9))
              || (bool_decide (availability = "Just Started (<50%)")
                  && PrimFloat.leb float_0_5 fill_rate)
           then Returns filtered
           else Returns (filtered ++ [committee])
       else Returns (filtered ++ [committee]))
    filtered.

(** [sorted(xs, key=...)]: a stable sort; [le x y] says that [x] may stand
    before [y]. *)
Fixpoint insert_by {A} (le : A → A → Prop) `{∀ x y, Decision (le x y)}
    (x : A) (l : list A) : list A :=
  match l with
  | [] => [x]
  | y :: l' => if decide (le x y) then x :: y :: l' else y :: insert_by le x l'
  end.

Definition sorted {A} (le : A → A → Prop) `{∀ x y, Decision (le x y)}
    (l : list A) : list A :=
  foldr (insert_by le) [] l.

Definition amount_ascending (a b : Committee.t) : Prop :=
  Committee.monthly_amount a ≤ Committee.monthly_amount b.

Definition amount_descending (a b : Committee.t) : Prop :=
  Committee.monthly_amount b ≤ Committee.monthly_amount a.

Definition most_available_first (a b : Committee.t) : Prop :=
  Committee.total_members b - Committee.current_members b
  ≤ Committee.total_members a - Committee.current_members a.

#[global] Instance amount_ascending_dec a b : Decision (amount_ascending a b).
Proof. unfold amount_ascending. apply _. Defined.

#[global] Instance amount_descending_dec a b : Decision (amount_descending a b).
Proof. unfold amount_descending. apply _. Defined.

#[global] Instance most_available_first_dec a b
  : Decision (most_available_first a b).
Proof. unfold most_available_first. apply _. Defined.

Definition sort_committees (committees : list Committee.t) (sort_by : string)
    : list Committee.t :=
  if decide (sort_by = "Newest First") then
    sorted Pg.newest_first committees
  else if decide (sort_by = "Amount (Low to High)") then
    sorted amount_ascending committees
  else if decide (sort_by = "Amount (High to Low)") then
    sorted amount_descending committees
  else if decide (sort_by = "Most Available") then
    sorted most_available_first committees
  else committees.

(** ** Definitions for the statements *)

(** A payment the loop of [_calculate_payment_score] counts as on time: it
    carries both dates and [payment_date <= due_date]. *)
Definition on_time `{PaymentLike A} (p : A) : Prop :=
  match due_date_of p, payment_date_of p with
  | Some due_date, Some payment_date => datetime.le payment_date due_date
  | _, _ => False
  end.

#[global] Instance on_time_dec `{PaymentLike A} (p : A) : Decision (on_time p).
Proof. unfold on_time. destruct (due_date_of p), (payment_date_of p); apply _. Defined.

(** The payment component from the three counts, evaluated as Python
    evaluates it: in binary64 arithmetic, then truncated by [int]. *)
Definition payment_component_float `{PaymentLike A} (payments : list A) : Z :=
  let total_payment_count := Z.of_nat (length payments) in
  let paid := filter (λ p, status_of p = "paid") payments in
  let paid_count := Z.of_nat (length paid) in
  let on_time_count := Z.of_nat (length (filter on_time paid)) in
  if decide (total_payment_count = 0) then 0
  else
    int_of_float
      (PrimFloat.add
         (PrimFloat.mul (truediv paid_count total_payment_count) (float_of_Z 25))
         (PrimFloat.mul
            (if decide (paid_count = 0) then float_of_Z 0
             else truediv on_time_count paid_count)
            (float_of_Z 15))).

(** Three payments falling due on 2025-01-01: one paid on the due date, two
    still pending. *)
Definition history_3 : list DatedPayment.t :=
  [DatedPayment.mk "paid" (datetime.of_ymd 2025 1 1) (datetime.of_ymd 2025 1 1);
   DatedPayment.mk "pending" (datetime.of_ymd 2025 1 2) (datetime.of_ymd 2025 1 1);
   DatedPayment.mk "pending" (datetime.of_ymd 2025 1 2) (datetime.of_ymd 2025 1 1)].

(** Twenty-seven payments falling due on 2025-01-01: one paid on the due
    date, eight paid a day late, eighteen still pending. *)
Definition history_27 : list DatedPayment.t :=
  DatedPayment.mk "paid" (datetime.of_ymd 2025 1 1) (datetime.of_ymd 2025 1 1)
  :: replicate 8
       (DatedPayment.mk "paid" (datetime.of_ymd 2025 1 2)
          (datetime.of_ymd 2025 1 1))
  ++ replicate 18
       (DatedPayment.mk "pending" (datetime.of_ymd 2025 1 2)
          (datetime.of_ymd 2025 1 1)).

(** *** Invariants of the store *)

(** [m] is the membership of the admin of [c] in [c]. *)
Definition admin_membership (c : Committee.t) (m : Member.t) : Prop :=
  Member.committee_id m = Committee.id c
  ∧ Member.user_id m = Committee.admin_id c.

(** Two memberships of one user in one committee. *)
Definition same_seat (m1 m2 : Member.t) : Prop :=
  Member.committee_id m1 = Member.committee_id m2
  ∧ Member.user_id m1 = Member.user_id m2.

(** What every reachable store satisfies, in terms of the committees and the
    memberships it holds: each committee has a membership of its admin at
    position 1, a user holds one position per committee, and counts and
    positions start at 1. *)
Record store_inv (cs : list Committee.t) (ms : list Member.t) : Prop := {
  inv_admin : ∀ c, c ∈ cs →
    ∃ m, m ∈ ms ∧ admin_membership c m ∧ Member.position m = 1;
  inv_seat : ∀ m1 m2, m1 ∈ ms → m2 ∈ ms → same_seat m1 m2 →
    Member.position m1 = Member.position m2;
  inv_count : ∀ c, c ∈ cs → 1 ≤ Committee.current_members c;
  inv_position : ∀ m, m ∈ ms → 1 ≤ Member.position m
}.

(** The fallback dictionaries in addition keep each committee under its own
    identifier, distinct keys for the memberships, and no membership of a
    committee that is gone. *)
Record fallback_inv (s : Fallback.t) : Prop := {
  inv_store : store_inv (dict_values (Fallback.committees s))
                (dict_values (Fallback.committee_members s));
  inv_key : ∀ k c, (k, c) ∈ Fallback.committees s → Committee.id c = k;
  inv_member_keys : NoDup (dict_keys (Fallback.committee_members s));
  inv_member_committee : ∀ m, m ∈ dict_values (Fallback.committee_members s) →
    Member.committee_id m ∈ dict_keys (Fallback.committees s)
}.

Definition manager_inv (self : DatabaseManager.t) : Prop :=
  match self with
  | DatabaseManager.Connected db =>
      store_inv (Pg.committees db) (Pg.committee_members db)
  | DatabaseManager.Disconnected s => fallback_inv s
  end.

(** *** Concrete stores *)

(** The fallback store right after [_init_fallback_storage]. *)
Definition initial_fallback : Fallback.t :=
  Fallback._init_fallback_storage "admin-id" "member-id"
    (datetime.of_ymd 2025 1 1) (datetime.of_ymd 2025 1 1).

(** A manager on the fallback store after the demo admin created a private
    committee for two. *)
Definition manager_with_committee : DatabaseManager.t :=
  (DatabaseManager.create_committee (DatabaseManager.Disconnected initial_fallback)
     "Family fund" None 5000 2 6 "private" "General" "monthly" "admin-id"
     "committee-id" "membership-1" (datetime.of_ymd 2025 1 1)
     (datetime.of_ymd 2025 1 1)).1.

(** The manager after a third user registered, the admin invited both the
    demo member and the third user to the one seat left, and the third user
    accepted first: the committee is full and the invitation of the demo
    member still pending. *)
Definition manager_with_full_committee : DatabaseManager.t :=
  let t0 := datetime.of_ymd 2025 1 1 in
  let self1 :=
    (DatabaseManager.create_user manager_with_committee "carol"
       Fallback.demo_password_hash "Carol" "carol@civitas.pk" "+92-300-0000000"
       "member" None "carol-id" t0).1 in
  let self2 :=
    (DatabaseManager.send_committee_invitation self1 "committee-id" "member-id"
       "admin-id" None "invitation-1" t0).1 in
  let self3 :=
    (DatabaseManager.send_committee_invitation self2 "committee-id" "carol-id"
       "admin-id" None "invitation-2" t0).1 in
  (DatabaseManager.respond_to_invitation self3 "invitation-2" "accepted" t0
     "membership-2" t0).1.

(** A database with two users and an open public committee for three that
    the first user created. *)
Definition database_with_open_committee : Pg.Database :=
  let t0 := datetime.of_ymd 2025 1 1 in
  let db0 := Pg.mk [] [] [] [] [] [] in
  let db1 :=
    (Pg.create_user db0 "amina" Fallback.demo_password_hash "Amina" "amina@civitas.pk" "+92-300-1111111"
       "admin" None "amina-id" t0).1 in
  let db2 :=
    (Pg.create_user db1 "bilal" Fallback.demo_password_hash "Bilal" "bilal@civitas.pk" "+92-300-2222222"
       "member" None "bilal-id" t0).1 in
  (Pg.create_committee db2 "Neighbours" None 5000 3 6 "public" "General"
     "monthly" "amina-id" "committee-id" "membership-1" t0).1.

(** *** Tactics *)

(** Unfolds the transaction monad of the database branch. *)
Ltac pg_run :=
  cbv [Pg.with_connection Pg.try_except Pg.bind Pg.query Pg.execute Pg.ret
       Pg.raise Pg.commit Pg.rollback Pg.except_psycopg2_Error
       Pg.committed Pg.working].

(** Settles a decidable statement about concrete data by evaluation. *)
Ltac decide_by_computation := apply (bool_decide_unpack _); by vm_compute.

(** *** The committees a choice of filters keeps *)

Definition within_duration (duration : string) (months : Z) : Prop :=
  (duration = "Short (2-6 months)" → 2 ≤ months ≤ 6)
  ∧ (duration = "Medium (7-12 months)" → 7 ≤ months ≤ 12)
  ∧ (duration = "Long (13+ months)" → 13 ≤ months).

(** The amount, category, frequency and duration filters. *)
Definition passes_filters (min_amount max_amount : Z)
    (category payment_freq duration : string) (c : Committee.t) : Prop :=
  min_amount ≤ Committee.monthly_amount c ≤ max_amount
  ∧ (category = "All" ∨ Committee.category c = category)
  ∧ (payment_freq = "All" ∨ Committee.payment_frequency c = payment_freq)
  ∧ within_duration duration (Committee.duration c).

#[global] Instance passes_filters_dec min_amount max_amount category
    payment_freq duration c
  : Decision (passes_filters min_amount max_amount category payment_freq
                duration c).
Proof. unfold passes_filters, within_duration. apply _. Defined.

(** The availability filter on the fill rate of a committee with seats. *)
Definition in_availability_band (availability : string) (c : Committee.t)
    : Prop :=
  let fill_rate :=
    truediv (Committee.current_members c) (Committee.total_members c) in
  (availability = "Almost Full (90%+)" → PrimFloat.ltb fill_rate float_0_9 = false)
  ∧ (availability = "Half Full (50-90%)" →
       PrimFloat.leb float_0_5 fill_rate = true
       ∧ PrimFloat.ltb fill_rate float_0_9 = true)
  ∧ (availability = "Just Started (<50%)" →
       PrimFloat.leb float_0_5 fill_rate = false).

#[global] Instance in_availability_band_dec availability c
  : Decision (in_availability_band availability c).
Proof. unfold in_availability_band. apply _. Defined.

(** *** What a change of settings leaves alone *)

(** Two versions of a committee with the same identifier, money terms, seat
    counts, admin and creation date. *)
Definition same_terms (c c' : Committee.t) : Prop :=
  Committee.id c' = Committee.id c
  ∧ Committee.monthly_amount c' = Committee.monthly_amount c
  ∧ Committee.total_members c' = Committee.total_members c
  ∧ Committee.current_members c' = Committee.current_members c
  ∧ Committee.duration c' = Committee.duration c
  ∧ Committee.admin_id c' = Committee.admin_id c
  ∧ Committee.created_date c' = Committee.created_date c.

(** A database where the second user of [database_with_open_committee] has
    been invited to its committee. *)
Definition database_with_invitation : Pg.Database :=
  (Pg.send_committee_invitation database_with_open_committee "committee-id"
     "bilal-id" "amina-id" None "invitation-1" (datetime.of_ymd 2025 1 2)).1.

(** *** The payout queue *)

(** The committees have distinct identifiers; every membership belongs to a
    stored committee; the memberships of a committee hold, in the order they
    were added, the positions 1, 2, ... up to its [current_members]; and a
    committee has at least one member and no more than its seats (a
    committee created with less than one seat has its admin alone). *)
Record queue_inv (cs : list Committee.t) (ms : list Member.t) : Prop := {
  inv_ids : NoDup (Committee.id <$> cs);
  inv_refs : ∀ m, m ∈ ms → Member.committee_id m ∈ Committee.id <$> cs;
  inv_queue : ∀ c, c ∈ cs →
    Member.position
      <$> filter (λ m, Member.committee_id m = Committee.id c) ms
    = seqZ 1 (Committee.current_members c);
  inv_capacity : ∀ c, c ∈ cs →
    1 ≤ Committee.current_members c ≤ Z.max 1 (Committee.total_members c)
}.

(** The ways one call of a method changes the committees and the
    memberships of the store: not at all; a new committee with its admin at
    position 1; a new member at the end of the queue of a committee with a
    free seat; new settings for a committee; a committee gone with its
    memberships. *)
Inductive store_change (cs : list Committee.t) (ms : list Member.t)
  : list Committee.t → list Member.t → Prop :=
  | change_none : store_change cs ms cs ms
  | change_create c m :
      (Committee.id c ∉ Committee.id <$> cs) →
      Member.committee_id m = Committee.id c →
      Member.user_id m = Committee.admin_id c →
      Member.position m = 1 →
      Committee.current_members c = 1 →
      store_change cs ms (cs ++ [c]) (ms ++ [m])
  | change_join c m :
      c ∈ cs →
      Committee.current_members c < Committee.total_members c →
      Member.committee_id m = Committee.id c →
      Member.position m = Committee.current_members c + 1 →
      store_change cs ms
        ((λ x, if decide (Committee.id x = Committee.id c)
               then Committee.set_current_members
                      (Committee.current_members x + 1) x
               else x) <$> cs)
        (ms ++ [m])
  | change_settings committee_id title description status payment_frequency
      category committee_type :
      store_change cs ms
        ((λ x, if decide (Committee.id x = committee_id)
               then Committee.set_settings title description status
                      payment_frequency category committee_type x
               else x) <$> cs)
        ms
  | change_delete committee_id :
      store_change cs ms
        (filter (λ c, Committee.id c ≠ committee_id) cs)
        (filter (λ m, Member.committee_id m ≠ committee_id) ms).

(** *** What a change of profile leaves alone *)

(** Two versions of a user with the same identifier, name, digest, role and
    trust score. *)
Definition same_login (u u' : User.t) : Prop :=
  User.id u' = User.id u
  ∧ User.username u' = User.username u
  ∧ User.password_hash u' = User.password_hash u
  ∧ User.role u' = User.role u
  ∧ User.trust_score u' = User.trust_score u.

(** A manager on the fallback store after the demo admin created a public
    committee for three. *)
Definition manager_with_public_committee : DatabaseManager.t :=
  (DatabaseManager.create_committee (DatabaseManager.Disconnected initial_fallback)
     "Neighbours" None 5000 3 6 "public" "General" "monthly" "admin-id"
     "committee-id" "membership-1" (datetime.of_ymd 2025 1 1)
     (datetime.of_ymd 2025 1 1)).1.

(** * Properties *)

(** ** Dictionaries *)

Lemma dict_get_Some {V} (k : string) (v : V) (d : pydict V) :
  dict_get k d = Some v → (k, v) ∈ d.
Proof.
  induction d as [|[k' v'] d IH]; simpl; [done|].
  case_decide as Hk.
  - intros [= ->]. subst. left.
  - intros Hg. right. by apply IH.
Qed.

Lemma dict_get_value {V} (k : string) (v : V) (d : pydict V) :
  dict_get k d = Some v → v ∈ dict_values d.
Proof.
  intros Hg%dict_get_Some. unfold dict_values.
  apply list_elem_of_fmap. by exists (k, v).
Qed.

Lemma dict_get_None {V} (k : string) (d : pydict V) :
  dict_get k d = None ↔ k ∉ dict_keys d.
Proof.
  unfold dict_keys. induction d as [|[k' v'] d IH]; simpl.
  - split; [intros _; apply not_elem_of_nil | done].
  - case_decide as Hk; rewrite not_elem_of_cons.
    + split; [done | intros [? _]; congruence].
    + rewrite IH. split; [intros ?; split; [congruence | done] | tauto].
Qed.

Lemma dict_set_fresh {V} (k : string) (v : V) (d : pydict V) :
  k ∉ dict_keys d → dict_set k v d = d ++ [(k, v)].
Proof.
  unfold dict_keys. induction d as [|[k' v'] d IH]; simpl; [done|].
  rewrite not_elem_of_cons. intros [Hk Hd].
  case_decide; [congruence|]. by rewrite IH.
Qed.

Lemma elem_of_dict_set {V} (k : string) (v : V) (d : pydict V) (kv : string * V) :
  kv ∈ dict_set k v d → kv = (k, v) ∨ kv ∈ d.
Proof.
  induction d as [|[k' v'] d IH]; simpl.
  - rewrite list_elem_of_singleton. tauto.
  - case_decide as Hk; rewrite !elem_of_cons; [tauto|].
    intros [->|Hin]; [tauto|]. destruct (IH Hin); tauto.
Qed.

Lemma elem_of_dict_set_new {V} (k : string) (v : V) (d : pydict V) :
  (k, v) ∈ dict_set k v d.
Proof.
  induction d as [|[k' v'] d IH]; simpl.
  - left.
  - case_decide; [left | by right].
Qed.

Lemma elem_of_dict_set_old {V} (k : string) (v : V) (d : pydict V)
    (kv : string * V) :
  kv ∈ d → kv.1 ≠ k → kv ∈ dict_set k v d.
Proof.
  intros Hin Hne. induction d as [|[k' v'] d IH]; simpl;
    [by apply elem_of_nil in Hin|].
  apply elem_of_cons in Hin as [->|Hin].
  - simpl in Hne. case_decide; [done | left].
  - case_decide; right; [done | by apply IH].
Qed.

Lemma dict_keys_dict_set {V} (k : string) (v : V) (d : pydict V) :
  dict_keys (dict_set k v d)
  = if decide (k ∈ dict_keys d) then dict_keys d else dict_keys d ++ [k].
Proof.
  unfold dict_keys. induction d as [|[k' v'] d IH].
  - rewrite decide_False by apply not_elem_of_nil. done.
  - cbn [dict_set]. destruct (decide (k' = k)) as [->|Hk].
    + rewrite decide_True by (rewrite fmap_cons; left). done.
    + rewrite !fmap_cons, IH. cbn [fst]. destruct (decide (k ∈ d.*1)) as [Hin|Hin].
      * rewrite decide_True by (by right). done.
      * rewrite decide_False; [done|]. rewrite not_elem_of_cons. split; congruence.
Qed.

Lemma dict_set_NoDup {V} (k : string) (v : V) (d : pydict V) :
  NoDup (dict_keys d) → NoDup (dict_keys (dict_set k v d)).
Proof.
  intros Hd. rewrite dict_keys_dict_set. case_decide as Hin; [done|].
  apply NoDup_app. split; [done|]. split; [|apply NoDup_singleton].
  intros x Hx ->%list_elem_of_singleton. done.
Qed.

Lemma elem_of_dict_set_NoDup {V} (k : string) (v : V) (d : pydict V)
    (kv : string * V) :
  NoDup (dict_keys d) →
  kv ∈ dict_set k v d → kv = (k, v) ∨ (kv ∈ d ∧ kv.1 ≠ k).
Proof.
  unfold dict_keys. induction d as [|[k' v'] d IH]; simpl.
  - rewrite list_elem_of_singleton. tauto.
  - rewrite NoDup_cons. intros [Hk' Hd].
    case_decide as Hk; rewrite !elem_of_cons.
    + subst k'. intros [->|Hin]; [tauto|]. right. split; [tauto|].
      intros Heq. apply Hk'. rewrite <- Heq.
      apply list_elem_of_fmap. by exists kv.
    + intros [->|Hin]; [right; split; [by left | done]|].
      destruct (IH Hd Hin) as [->|[? ?]]; tauto.
Qed.

Lemma elem_of_dict_del {V} (k : string) (d : pydict V) (kv : string * V) :
  kv ∈ dict_del k d ↔ kv ∈ d ∧ kv.1 ≠ k.
Proof. unfold dict_del. rewrite list_elem_of_filter. tauto. Qed.

Lemma dict_del_NoDup {V} (k : string) (d : pydict V) :
  NoDup (dict_keys d) → NoDup (dict_keys (dict_del k d)).
Proof.
  unfold dict_keys, dict_del. induction d as [|[k' v'] d IH]; [done|].
  rewrite fmap_cons, NoDup_cons. intros [Hk' Hd]. rewrite filter_cons.
  case_decide; [|by apply IH].
  rewrite fmap_cons. apply NoDup_cons. split; [|by apply IH].
  intros Hin. apply Hk'. apply list_elem_of_fmap in Hin as (kv & -> & Hkv).
  apply list_elem_of_filter in Hkv as [_ Hkv]. apply list_elem_of_fmap. by exists kv.
Qed.

Lemma elem_of_foldl_dict_del {V} (ks : list string) (d : pydict V)
    (kv : string * V) :
  kv ∈ foldl (λ ms mid, dict_del mid ms) d ks ↔ kv ∈ d ∧ kv.1 ∉ ks.
Proof.
  revert d. induction ks as [|k ks IH]; intros d; simpl.
  - split; [intros ?; split; [done | apply not_elem_of_nil] | tauto].
  - rewrite IH, elem_of_dict_del, not_elem_of_cons. tauto.
Qed.

Lemma foldl_dict_del_NoDup {V} (ks : list string) (d : pydict V) :
  NoDup (dict_keys d) →
  NoDup (dict_keys (foldl (λ ms mid, dict_del mid ms) d ks)).
Proof.
  revert d. induction ks as [|k ks IH]; intros d Hd; simpl; [done|].
  apply IH. by apply dict_del_NoDup.
Qed.

Lemma elem_of_dict_values {V} (v : V) (d : pydict V) :
  v ∈ dict_values d ↔ ∃ k, (k, v) ∈ d.
Proof.
  unfold dict_values. rewrite list_elem_of_fmap. split.
  - intros ([k v'] & -> & Hin). by exists k.
  - intros [k Hin]. by exists (k, v).
Qed.

(** ** Reading the store *)

Lemma filter_head_nil {A} (P : A → Prop) `{∀ x, Decision (P x)} (l : list A) :
  (∀ x, x ∈ l → ¬ P x) → filter P l = [].
Proof.
  intros Hl. destruct (filter P l) as [|x l'] eqn:E; [done|].
  assert (x ∈ filter P l) as [HP Hx]%list_elem_of_filter by (rewrite E; left).
  by destruct (Hl x).
Qed.

Lemma filter_head_elem {A} (P : A → Prop) `{∀ x, Decision (P x)} (l : list A)
    (x : A) (l' : list A) :
  filter P l = x :: l' → x ∈ l ∧ P x.
Proof.
  intros E. assert (x ∈ filter P l) as [HP Hx]%list_elem_of_filter
    by (rewrite E; left). done.
Qed.

Lemma get_member_position_nonmember (self : DatabaseManager.t)
    (committee_id user_id : string) :
  ¬ DatabaseManager.is_member self committee_id user_id →
  DatabaseManager.get_member_position_in_committee self committee_id user_id = 0.
Proof.
  intros Hno.
  assert (Hnil : filter (λ m, Member.committee_id m = committee_id
                              ∧ Member.user_id m = user_id)
                   (DatabaseManager.memberships self) = []).
  { apply filter_head_nil. intros m Hm [Hc Hu]. apply Hno. by exists m. }
  destruct self; simpl in *;
    unfold Pg.get_member_position_in_committee,
      Fallback.get_member_position_in_committee; by rewrite Hnil.
Qed.

Lemma get_member_position_member (self : DatabaseManager.t)
    (committee_id user_id : string) :
  DatabaseManager.is_member self committee_id user_id →
  ∃ m, m ∈ DatabaseManager.memberships self
       ∧ Member.committee_id m = committee_id ∧ Member.user_id m = user_id
       ∧ DatabaseManager.get_member_position_in_committee self committee_id
           user_id = Member.position m.
Proof.
  intros (m0 & Hm0 & Hc0 & Hu0).
  destruct (filter (λ m, Member.committee_id m = committee_id
                         ∧ Member.user_id m = user_id)
              (DatabaseManager.memberships self)) as [|m l] eqn:E.
  - assert (m0 ∈ @nil Member.t) as Hin
      by (rewrite <- E; apply list_elem_of_filter; done).
    by apply elem_of_nil in Hin.
  - destruct (filter_head_elem _ _ _ _ E) as [Hm [Hc Hu]].
    exists m. repeat split; try done.
    destruct self; simpl in *;
      unfold Pg.get_member_position_in_committee,
        Fallback.get_member_position_in_committee; by rewrite E.
Qed.

Lemma get_user_committees_stored (self : DatabaseManager.t) (user_id : string)
    (c : Committee.t) :
  c ∈ DatabaseManager.get_user_committees self user_id →
  c ∈ DatabaseManager.committees self.
Proof.
  destruct self as [db|s]; simpl.
  - unfold Pg.get_user_committees. rewrite merge_sort_Permutation.
    intros (c' & Hc & Hc')%list_elem_of_bind.
    apply list_elem_of_bind in Hc as (cm & Hc & Hcm).
    case_decide as Hd; [|by apply elem_of_nil in Hc].
    by apply list_elem_of_singleton in Hc as ->.
  - unfold Fallback.get_user_committees.
    intros (m & Hc & Hm)%list_elem_of_bind.
    case_decide as Hu; [|by apply elem_of_nil in Hc].
    destruct (dict_get _ _) as [c'|] eqn:Hg; [|by apply elem_of_nil in Hc].
    apply list_elem_of_singleton in Hc as ->.
    by eapply dict_get_value.
Qed.

(** ** The trust score *)

Lemma count_on_time_decide `{PaymentLike A} (n : Z) (p : A) :
  TrustScoreManager.count_on_time n p = n + (if decide (on_time p) then 1 else 0).
Proof.
  destruct (decide (on_time p)) as [Ho|Ho]; unfold on_time in Ho;
    unfold TrustScoreManager.count_on_time;
    destruct (due_date_of p), (payment_date_of p); try case_decide;
    tauto || lia.
Qed.

Lemma foldl_count_on_time `{PaymentLike A} (ps : list A) (n : Z) :
  foldl TrustScoreManager.count_on_time n ps = n + Z.of_nat (length (filter on_time ps)).
Proof.
  revert n. induction ps as [|p ps IH]; intros n; simpl.
  - lia.
  - rewrite IH, count_on_time_decide, filter_cons.
    destruct (decide (on_time p)); simpl; lia.
Qed.

(** The tenure component is 0 for every user: [get_user_by_id] returns a
    dictionary, and a dictionary has no attribute [created_date]. *)
Lemma tenure_score_zero (db : DatabaseManager.t) (now : datetime.t)
    (user_id : string) :
  TrustScoreManager._calculate_tenure_score db now user_id = 0.
Proof.
  unfold TrustScoreManager._calculate_tenure_score.
  by destruct (DatabaseManager.get_user_by_id db user_id).
Qed.

(** No payment of [get_user_payment_history] counts as on time: the
    [Payment] data class carries no [due_date]. *)
Lemma stored_payments_never_on_time (payments : list Payment.t) :
  filter on_time payments = [].
Proof. apply filter_head_nil. intros p _ Hp. exact Hp. Qed.

(** C3. For every store, every clock reading and every user,
    [calculate_trust_score] returns a score between 0 and 100. *)
Theorem calculate_trust_score_bounds (db : DatabaseManager.t) (now : datetime.t)
    (user_id : string) :
  0 ≤ TrustScoreManager.calculate_trust_score db now user_id ≤ 100.
Proof.
  unfold TrustScoreManager.calculate_trust_score.
  destruct (DatabaseManager.get_user_payment_history db user_id),
    (DatabaseManager.get_user_committees db user_id); lia.
Qed.

(** C4. A user with no payment and no committee gets exactly 85, the default
    for new users, not the base score of 50. *)
Theorem calculate_trust_score_new_user (db : DatabaseManager.t)
    (now : datetime.t) (user_id : string) :
  DatabaseManager.get_user_payment_history db user_id = [] →
  DatabaseManager.get_user_committees db user_id = [] →
  TrustScoreManager.calculate_trust_score db now user_id = 85.
Proof.
  intros Hp Hc. unfold TrustScoreManager.calculate_trust_score. by rewrite Hp, Hc.
Qed.

(** C5, as the code has it. The payment component is the truncation by
    [int] of [paid / total * 25 + on_time / paid * 15] evaluated in binary64
    arithmetic, a paid payment counting as on time when it carries both dates
    and [payment_date <= due_date]; it is 0 for an empty history, and the
    on-time term is 0 when nothing is paid. *)
Theorem payment_score_float_formula `{PaymentLike A} (payments : list A) :
  TrustScoreManager._calculate_payment_score payments = payment_component_float payments.
Proof.
  unfold TrustScoreManager._calculate_payment_score, payment_component_float.
  destruct payments as [|p ps]; [done|].
  set (l := p :: ps).
  destruct (decide (Z.of_nat (length l) = 0)) as [|_]; [done|].
  rewrite foldl_count_on_time, Z.add_0_l.
  destruct (filter (λ p0, status_of p0 = "paid") l) as [|q qs] eqn:E; [done|].
  destruct (decide (Z.of_nat (length (q :: qs)) = 0)) as [Hz|_]; [done|done].
Qed.


(** One payment of three paid, on time: the code returns 23, the formula
    is worth 70/3. *)
Lemma history_3_score :
  TrustScoreManager._calculate_payment_score history_3 = 23
  ∧ (payment_component_spec history_3 == 70 # 3)%Q.
Proof. split; by vm_compute. Qed.

(** Nine payments of twenty-seven paid, one of them on time: the formula is
    worth exactly 10, the code returns 9, for [9 / 27 * 25 + 1 / 9 * 15]
    falls just short of 10 in binary64. *)
Lemma history_27_score :
  TrustScoreManager._calculate_payment_score history_27 = 9
  ∧ (payment_component_spec history_27 == 10)%Q.
Proof. split; by vm_compute. Qed.

(** C5, as stated, fails: the score differs from the exact value of the
    formula, where that value is not an integer and where it is one. *)
Lemma payment_score_not_exact_formula :
  ¬ (inject_Z (TrustScoreManager._calculate_payment_score history_3)
     == payment_component_spec history_3)%Q
  ∧ ¬ (inject_Z (TrustScoreManager._calculate_payment_score history_27)
       == payment_component_spec history_27)%Q.
Proof. split; vm_compute; discriminate. Qed.

(** ** The payment schedule *)

Lemma for_each_append {A B} (xs : list A) (body : list B → A → res (list B))
    (g : A → B) (acc : list B) :
  (∀ s x, x ∈ xs → body s x = Ok (s ++ [g x])) →
  for_each xs body acc = Ok (acc ++ (g <$> xs)).
Proof.
  revert acc. induction xs as [|x xs IH]; intros acc Hbody; simpl.
  - by rewrite app_nil_r.
  - rewrite (Hbody acc x) by left. simpl. rewrite IH.
    + by rewrite <- app_assoc.
    + intros s y Hy. apply Hbody. by right.
Qed.

Lemma due_date_in_range (start_date : datetime.t) (delta : Z) :
  0 ≤ delta →
  0 < datetime.toordinal start_date →
  datetime.toordinal start_date + delta ≤ datetime.MAXORDINAL →
  res_bind (datetime.timedelta delta) (datetime.add start_date)
  = Ok (datetime.mk (datetime.toordinal start_date + delta)
          (datetime.time_us start_date)).
Proof.
  intros H0 H1 H2. unfold datetime.timedelta, datetime.add, datetime.MAX_DELTA_DAYS.
  unfold datetime.MAXORDINAL in *.
  rewrite (proj2 (Z.leb_le _ _)) by lia. simpl.
  rewrite (proj2 (Z.ltb_lt _ _)) by lia.
  rewrite (proj2 (Z.leb_le _ _)) by lia. done.
Qed.

(** C6, as the code has it. For a start date, a frequency among monthly and
    bi-monthly and a duration of at least 1 such that the last due date is a
    date [datetime] can hold (not after 9999-12-31), the schedule has
    [duration] entries, entry [cycle] (from 0) being numbered [cycle + 1] and
    falling due [interval_days * cycle] days after the start date, with
    [interval_days] 30 for monthly and 60 for bi-monthly. *)
Theorem payment_schedule_thirty_day_steps (committee_id : string)
    (start_date : datetime.t) (payment_frequency : string)
    (duration interval_days : Z) :
  (payment_frequency = "monthly" ∧ interval_days = 30)
  ∨ (payment_frequency = "bi_monthly" ∧ interval_days = 60) →
  1 ≤ duration →
  0 < datetime.toordinal start_date →
  datetime.toordinal start_date + interval_days * (duration - 1)
    ≤ datetime.MAXORDINAL →
  ∃ schedule,
    PaymentManager.calculate_payment_schedule committee_id start_date
      payment_frequency duration = Ok schedule
    ∧ Z.of_nat (length schedule) = duration
    ∧ ∀ cycle, 0 ≤ cycle < duration →
        schedule !! Z.to_nat cycle
        = Some (PaymentManager.mkScheduleEntry (cycle + 1)
                  (datetime.mk
                     (datetime.toordinal start_date + interval_days * cycle)
                     (datetime.time_us start_date))
                  None).
Proof.
  intros Hf Hd Hs He.
  assert (Hstep : 0 < interval_days) by (destruct Hf as [[_ ->]|[_ ->]]; lia).
  set (entry := λ cycle : Z,
         PaymentManager.mkScheduleEntry (cycle + 1)
           (datetime.mk (datetime.toordinal start_date + interval_days * cycle)
              (datetime.time_us start_date)) None).
  exists (entry <$> seqZ 0 duration).
  split; [|split].
  - unfold PaymentManager.calculate_payment_schedule.
    replace (if decide (payment_frequency = "monthly") then 30
             else if decide (payment_frequency = "bi_monthly") then 60 else 30)
      with interval_days
      by (destruct Hf as [[-> ->]|[-> ->]]; by repeat case_decide).
    apply (for_each_append _ _ entry []).
    intros s cycle Hc. apply elem_of_seqZ in Hc.
    pose proof (due_date_in_range start_date (interval_days * cycle)) as Hr.
    unfold res_bind in Hr |- *.
    destruct (datetime.timedelta (interval_days * cycle)) as [delta|e].
    + rewrite Hr by nia. done.
    + discriminate Hr; nia.
  - rewrite length_fmap, length_seqZ. lia.
  - intros cycle Hc. rewrite list_lookup_fmap.
    rewrite lookup_seqZ_lt by lia. simpl.
    unfold entry. rewrite Z2Nat.id by lia. done.
Qed.

(** The schedule of the specification's example: three monthly cycles from
    2025-01-01 fall due on 2025-01-01, 2025-01-31 and 2025-03-02. *)
Lemma payment_schedule_2025_example :
  ∃ schedule,
    PaymentManager.calculate_payment_schedule "committee"
      (datetime.of_ymd 2025 1 1) "monthly" 3 = Ok schedule
    ∧ PaymentManager.due_date <$> schedule
      = [datetime.of_ymd 2025 1 1; datetime.of_ymd 2025 1 31;
         datetime.of_ymd 2025 3 2].
Proof.
  destruct (payment_schedule_thirty_day_steps "committee"
              (datetime.of_ymd 2025 1 1) "monthly" 3 30)
    as (schedule & Hrun & Hlen & Hentries).
  - left. split; reflexivity.
  - lia.
  - vm_compute. reflexivity.
  - vm_compute. discriminate.
  - exists schedule. split; [exact Hrun|].
    pose proof (Hentries 0 ltac:(lia)) as H0.
    pose proof (Hentries 1 ltac:(lia)) as H1.
    pose proof (Hentries 2 ltac:(lia)) as H2.
    destruct schedule as [|e0 [|e1 [|e2 [|e3 rest]]]]; simpl in Hlen; try lia.
    simpl in H0, H1, H2.
    injection H0 as ->. injection H1 as ->. injection H2 as ->.
    vm_compute. reflexivity.
Defined.

(** C6, as stated, fails: a schedule that runs past 9999-12-31 is not
    returned, [datetime] raises [OverflowError]. *)
Lemma payment_schedule_overflow :
  PaymentManager.calculate_payment_schedule "committee"
    (datetime.of_ymd 9999 12 31) "monthly" 2 = Raise OverflowError.
Proof. by vm_compute. Qed.

(** ** Browsing public committees *)

(** C9. The committees [get_public_committees_for_user] returns are the
    stored committees that are public, that the user has not joined, and that
    still have an open seat. *)
Theorem public_committees_open_and_unjoined (self : DatabaseManager.t)
    (user_id : string) (c : Committee.t) :
  c ∈ DatabaseManager.get_public_committees_for_user self user_id
  ↔ c ∈ DatabaseManager.committees self
    ∧ Committee.committee_type c = "public"
    ∧ ¬ DatabaseManager.is_member self (Committee.id c) user_id
    ∧ Committee.current_members c < Committee.total_members c.
Proof.
  assert (Hmem : ∀ ms : list Member.t,
            Committee.id c ∈ Member.committee_id <$>
              filter (λ m, Member.user_id m = user_id) ms
            ↔ ∃ m, m ∈ ms ∧ Member.committee_id m = Committee.id c
                   ∧ Member.user_id m = user_id).
  { intros ms. rewrite list_elem_of_fmap. split.
    - intros (m & Hid & [Hu Hm]%list_elem_of_filter). by exists m.
    - intros (m & Hm & Hid & Hu). exists m. split; [done|].
      by apply list_elem_of_filter. }
  destruct self as [db|s]; simpl; unfold DatabaseManager.is_member; simpl.
  - unfold Pg.get_public_committees_for_user.
    rewrite merge_sort_Permutation, list_elem_of_filter, Hmem. tauto.
  - unfold Fallback.get_public_committees_for_user.
    rewrite list_elem_of_filter, elem_of_list_to_set, Hmem. tauto.
Qed.

(** ** Payout amounts *)

Lemma for_each_append_if {A B} (xs : list A) (body : list B → A → res (list B))
    (P : A → Prop) `{∀ x, Decision (P x)} (g : A → B) (acc : list B) :
  (∀ s x, x ∈ xs → body s x = Ok (if decide (P x) then s ++ [g x] else s)) →
  for_each xs body acc = Ok (acc ++ (g <$> filter P xs)).
Proof.
  revert acc. induction xs as [|x xs IH]; intros acc Hbody; simpl.
  - by rewrite app_nil_r.
  - rewrite (Hbody acc x) by left. simpl. rewrite filter_cons.
    rewrite IH by (intros s y Hy; apply Hbody; by right).
    case_decide; [|done]. by rewrite fmap_cons, <- app_assoc.
Qed.

(** C7, as the code has it. [get_payout_notifications] reports, for each
    committee of the user in which the user holds position 1, the amount
    [monthly_amount * current_members] of the committee as stored when the
    call is made, and nothing for the other committees; the estimated payout
    of the committee browser is [monthly_amount * total_members]. *)
Theorem payout_notification_amount (db : DatabaseManager.t) (now : datetime.t)
    (user_id : string) :
  0 < datetime.toordinal now →
  datetime.toordinal now + 7 ≤ datetime.MAXORDINAL →
  (∃ notifications,
     PaymentManager.get_payout_notifications db now user_id = Ok notifications
     ∧ ∀ n, n ∈ notifications ↔
         ∃ c, c ∈ DatabaseManager.get_user_committees db user_id
              ∧ c ∈ DatabaseManager.committees db
              ∧ DatabaseManager.get_member_position_in_committee db
                  (Committee.id c) user_id = 1
              ∧ PaymentManager.committee_id n = Committee.id c
              ∧ PaymentManager.committee_title n = Committee.title c
              ∧ PaymentManager.amount n
                = Committee.monthly_amount c * Committee.current_members c
              ∧ PaymentManager.estimated_date n
                = datetime.mk (datetime.toordinal now + 7) (datetime.time_us now))
  ∧ ∀ c, estimated_payout c
         = Committee.monthly_amount c * Committee.total_members c.
Proof.
  intros Hlo Hhi. split; [|done].
  set (notify := λ c : Committee.t,
         PaymentManager.mkNotification (Committee.id c) (Committee.title c)
           (Committee.monthly_amount c * Committee.current_members c)
           (datetime.mk (datetime.toordinal now + 7) (datetime.time_us now))).
  set (first := λ c : Committee.t,
         DatabaseManager.get_member_position_in_committee db (Committee.id c)
           user_id = 1).
  exists (notify <$> filter first (DatabaseManager.get_user_committees db user_id)).
  split.
  - unfold PaymentManager.get_payout_notifications.
    apply (for_each_append_if _ _ first notify []).
    intros s c _. unfold first. case_decide; [|done].
    pose proof (due_date_in_range now 7 ltac:(lia) Hlo Hhi) as Hr.
    unfold res_bind in Hr |- *.
    destruct (datetime.timedelta 7) as [delta|e]; [|done].
    by rewrite Hr.
  - intros n. rewrite list_elem_of_fmap. split.
    + intros (c & -> & [Hfirst Hc]%list_elem_of_filter).
      exists c. repeat split; try done. by eapply get_user_committees_stored.
    + intros (c & Hc & _ & Hfirst & Hid & Htitle & Hamount & Hdate).
      exists c. split; [|by apply list_elem_of_filter].
      destruct n. simpl in *. by subst.
Qed.

(** C7, as stated, fails: for a committee of six seats with three members
    the browser's payout figure is [monthly_amount * total_members], 30000 and
    not 15000; and the member at position 2 of a committee is notified of no
    payout amount at all. *)
Lemma estimated_payout_counts_all_seats :
  let c := Committee.mk "c1" "Savings" None 5000 6 3 6 "public" "General"
             "monthly" "active" "u1" (datetime.of_ymd 2025 1 1) in
  estimated_payout c ≠ Committee.monthly_amount c * Committee.current_members c
  ∧ DatabaseManager.get_member_position_in_committee
      manager_with_full_committee "committee-id" "carol-id" = 2
  ∧ PaymentManager.get_payout_notifications manager_with_full_committee
      (datetime.of_ymd 2025 2 1) "carol-id" = Ok [].
Proof. by vm_compute. Qed.

(** ** Joining and invitations *)

Lemma select_members_count_find (db : Pg.Database) (committee_id : string) :
  Pg.select_members_count committee_id db
  = (λ c, (Committee.current_members c, Committee.total_members c))
      <$> DatabaseManager.find_committee (DatabaseManager.Connected db)
            committee_id.
Proof.
  unfold Pg.select_members_count. simpl.
  by destruct (filter _ (Pg.committees db)).
Qed.

(** C2. Joining a committee that is full, or one the user is already a
    member of, returns [False] without raising and leaves the whole store as
    it was. *)
Theorem join_committee_soft_failure (self : DatabaseManager.t)
    (committee_id user_id member_id : string) (now : datetime.t) :
  (∃ c, DatabaseManager.find_committee self committee_id = Some c
        ∧ Committee.current_members c = Committee.total_members c)
  ∨ DatabaseManager.is_member self committee_id user_id →
  DatabaseManager.join_committee self committee_id user_id member_id now
  = (self, Ok false).
Proof.
  intros Hcase. destruct self as [db|s]; simpl in *.
  - unfold DatabaseManager.on_db, Pg.join_committee. pg_run.
    rewrite select_members_count_find. simpl.
    destruct (head _) as [c|] eqn:Hfind; simpl; [|done].
    case_decide as Hfull; [done|].
    destruct Hcase as [(c' & [= <-] & Heq)|(m & Hm & Hc & Hu)]; [lia|].
    unfold Pg.insert_committee_member. rewrite decide_True; [done|].
    do 3 right. apply Exists_exists. by exists m.
  - unfold DatabaseManager.on_fallback, Fallback.join_committee.
    destruct (dict_get committee_id (Fallback.committees s)) as [c|] eqn:Hget;
      [|done].
    case_decide as Hopen; [|done].
    destruct Hcase as [(c' & [= <-] & Heq)|(m & Hm & Hc & Hu)]; [lia|].
    rewrite decide_True; [done|]. apply Exists_exists. by exists m.
Qed.

(** On the database branch a response either takes effect in full or leaves
    the database as it was. *)
Lemma Pg_respond_to_invitation_atomic (db : Pg.Database)
    (invitation_id response : string) (now : datetime.t) (member_id : string)
    (now_joined : datetime.t) :
  let r := Pg.respond_to_invitation db invitation_id response now member_id
             now_joined in
  r.2 = Ok true ∨ r = (db, Ok false).
Proof.
  unfold Pg.respond_to_invitation, Pg._join_committee_internal. pg_run.
  unfold Pg.update_pending_invitation. simpl.
  case_decide as Hrows; [by right|].
  case_decide as Hresp; simpl; [|by left].
  destruct (Pg.select_invitation _ _) as [[cid uid]|]; simpl; [|by left].
  destruct (Pg.select_members_count _ _) as [[current total]|]; simpl;
    [|by right].
  case_decide as Hfull; simpl; [by right|].
  unfold Pg.insert_committee_member.
  case_decide; simpl; [by right | by left].
Qed.

(** C1, on the fallback branch: accepting an invitation to a committee that
    filled up in the meantime returns [False] and creates no membership, but
    the status, written before the join is tried, stays ['accepted']. *)
Theorem respond_to_invitation_fallback_not_atomic :
  let now := datetime.of_ymd 2025 2 1 in
  let self := manager_with_full_committee in
  let r :=
    DatabaseManager.respond_to_invitation self "invitation-1" "accepted" now
      "membership-3" now in
  (λ i, (Invitation.id i, Invitation.status i))
    <$> DatabaseManager.invitations self
  = [("invitation-1", "pending"); ("invitation-2", "accepted")]
  ∧ (λ c, (Committee.current_members c, Committee.total_members c))
      <$> DatabaseManager.committees self = [(2, 2)]
  ∧ r.2 = Ok false
  ∧ (λ i, (Invitation.id i, Invitation.status i))
      <$> DatabaseManager.invitations r.1
    = [("invitation-1", "accepted"); ("invitation-2", "accepted")]
  ∧ Member.user_id <$> DatabaseManager.memberships r.1 = ["admin-id"; "carol-id"]
  ∧ (λ c, (Committee.current_members c, Committee.total_members c))
      <$> DatabaseManager.committees r.1 = [(2, 2)].
Proof. by vm_compute. Qed.

(** ** Preservation of the invariants *)

Lemma store_inv_admin_first (cs : list Committee.t) (ms : list Member.t)
    (c : Committee.t) (m : Member.t) :
  store_inv cs ms → c ∈ cs → m ∈ ms → admin_membership c m →
  Member.position m = 1.
Proof.
  intros Hinv Hc Hm [Hcid Huid].
  destruct (inv_admin _ _ Hinv c Hc) as (m1 & Hm1 & [Hcid1 Huid1] & Hpos).
  rewrite <- Hpos. apply (inv_seat _ _ Hinv); [done | done |].
  split; congruence.
Qed.

(** A new membership on a seat nobody holds. *)
Lemma store_inv_add_member (cs : list Committee.t) (ms ms' : list Member.t)
    (m : Member.t) :
  store_inv cs ms →
  (∀ x, x ∈ ms' ↔ x ∈ ms ∨ x = m) →
  (∀ x, x ∈ ms → ¬ same_seat x m) →
  1 ≤ Member.position m →
  store_inv cs ms'.
Proof.
  intros Hinv Hms Hfree Hpos. split.
  - intros c Hc. destruct (inv_admin _ _ Hinv c Hc) as (m1 & Hm1 & Ha & Hp).
    exists m1. split; [apply Hms; by left | done].
  - intros m1 m2 [H1| ->]%Hms [H2| ->]%Hms Hs; try done.
    + by apply (inv_seat _ _ Hinv).
    + by destruct (Hfree m1).
    + destruct (Hfree m2); [done|]. destruct Hs. by split.
  - apply Hinv.
  - intros x [Hx| ->]%Hms; [by apply (inv_position _ _ Hinv) | done].
Qed.

(** Committees dropped or updated in place, identity and admin kept. *)
Lemma store_inv_update_committees (cs cs' : list Committee.t)
    (ms : list Member.t) :
  store_inv cs ms →
  (∀ c', c' ∈ cs' →
     ∃ c, c ∈ cs ∧ Committee.id c' = Committee.id c
          ∧ Committee.admin_id c' = Committee.admin_id c
          ∧ Committee.current_members c ≤ Committee.current_members c') →
  store_inv cs' ms.
Proof.
  intros Hinv Hcs. split; try apply Hinv.
  - intros c' (c & Hc & Hid & Hadm & _)%Hcs.
    destruct (inv_admin _ _ Hinv c Hc) as (m & Hm & [Hmc Hmu] & Hp).
    exists m. split; [done|]. split; [|done]. split; congruence.
  - intros c' (c & Hc & _ & _ & Hle)%Hcs.
    pose proof (inv_count _ _ Hinv c Hc). lia.
Qed.

(** A new committee with the membership of its admin. *)
Lemma store_inv_add_committee (cs cs' : list Committee.t)
    (ms ms' : list Member.t) (c : Committee.t) (m : Member.t) :
  store_inv cs ms →
  (∀ x, x ∈ cs' → x ∈ cs ∨ x = c) →
  (∀ x, x ∈ ms' ↔ x ∈ ms ∨ x = m) →
  (∀ x, x ∈ ms → ¬ same_seat x m) →
  admin_membership c m → Member.position m = 1 →
  Committee.current_members c = 1 →
  store_inv cs' ms'.
Proof.
  intros Hinv Hcs Hms Hfree Ha Hp Hc1.
  assert (Hinv' : store_inv cs ms')
    by (eapply store_inv_add_member; [done | done | done | lia]).
  split; try apply Hinv'.
  - intros x [Hx| ->]%Hcs; [by apply (inv_admin _ _ Hinv')|].
    exists m. split; [apply Hms; by right | done].
  - intros x [Hx| ->]%Hcs; [by apply (inv_count _ _ Hinv) | lia].
Qed.

(** A committee removed with its memberships. *)
Lemma store_inv_delete (cs cs' : list Committee.t) (ms ms' : list Member.t)
    (committee_id : string) :
  store_inv cs ms →
  (∀ c, c ∈ cs' → c ∈ cs ∧ Committee.id c ≠ committee_id) →
  (∀ x, x ∈ ms' ↔ x ∈ ms ∧ Member.committee_id x ≠ committee_id) →
  store_inv cs' ms'.
Proof.
  intros Hinv Hcs Hms. split.
  - intros c [Hc Hne]%Hcs.
    destruct (inv_admin _ _ Hinv c Hc) as (m & Hm & [Hmc Hmu] & Hp).
    exists m. split; [apply Hms; split; [done | congruence] | done].
  - intros m1 m2 [H1 _]%Hms [H2 _]%Hms. by apply (inv_seat _ _ Hinv).
  - intros c [Hc _]%Hcs. by apply (inv_count _ _ Hinv).
  - intros m [Hm _]%Hms. by apply (inv_position _ _ Hinv).
Qed.

(** A user takes the next position of a committee. *)
Lemma store_inv_join (cs cs' : list Committee.t) (ms ms' : list Member.t)
    (c : Committee.t) (m : Member.t) :
  store_inv cs ms →
  c ∈ cs → Member.position m = Committee.current_members c + 1 →
  (∀ x, x ∈ ms → ¬ same_seat x m) →
  (∀ x, x ∈ ms' ↔ x ∈ ms ∨ x = m) →
  (∀ c', c' ∈ cs' →
     ∃ c0, c0 ∈ cs ∧ Committee.id c' = Committee.id c0
           ∧ Committee.admin_id c' = Committee.admin_id c0
           ∧ Committee.current_members c0 ≤ Committee.current_members c') →
  store_inv cs' ms'.
Proof.
  intros Hinv Hc Hp Hfree Hms Hcs.
  apply (store_inv_update_committees cs); [|done].
  apply (store_inv_add_member cs ms ms' m); try done.
  pose proof (inv_count _ _ Hinv c Hc). lia.
Qed.

(** *** The database branch *)

Lemma select_members_count_Some (db : Pg.Database) (committee_id : string)
    (current total : Z) :
  Pg.select_members_count committee_id db = Some (current, total) →
  ∃ c, c ∈ Pg.committees db ∧ Committee.id c = committee_id
       ∧ Committee.current_members c = current
       ∧ Committee.total_members c = total.
Proof.
  unfold Pg.select_members_count.
  destruct (filter _ (Pg.committees db)) as [|c l] eqn:E; [done|].
  intros [= <- <-]. destruct (filter_head_elem _ _ _ _ E) as [Hc Hid].
  by exists c.
Qed.

(** The two statements of a join, run on a database that satisfies the
    invariant, leave one that does. *)
Lemma Pg_join_statements_inv (db db1 : Pg.Database)
    (committee_id user_id member_id : string) (now : datetime.t)
    (current total : Z) :
  store_inv (Pg.committees db) (Pg.committee_members db) →
  Pg.select_members_count committee_id db = Some (current, total) →
  Pg.insert_committee_member member_id committee_id user_id (current + 1) now db
    = Ok (tt, db1) →
  match Pg.increment_current_members committee_id db1 with
  | Ok (_, db2) => store_inv (Pg.committees db2) (Pg.committee_members db2)
  | Raise _ => False
  end.
Proof.
  intros Hinv (c & Hc & Hid & Hcur & Htot)%select_members_count_Some.
  unfold Pg.insert_committee_member, Pg.increment_current_members.
  case_decide as Hcheck; [done|]. intros [= <-]. simpl.
  apply (store_inv_join (Pg.committees db) _ (Pg.committee_members db) _ c
           (Member.mk member_id committee_id user_id (current + 1) now)).
  - done.
  - done.
  - simpl. lia.
  - intros x Hx [Hxc Hxu]. simpl in *. apply Hcheck. do 3 right.
    apply Exists_exists. by exists x.
  - intros x. rewrite elem_of_app, list_elem_of_singleton. tauto.
  - intros c' (c0 & -> & Hc0)%list_elem_of_fmap. exists c0.
    split; [done|]. case_decide; simpl; repeat split; lia.
Qed.

Lemma Pg_create_user_inv (db : Pg.Database) username password_hash full_name
    email phone role cnic user_id now :
  let db' := (Pg.create_user db username password_hash full_name email phone
                role cnic user_id now).1 in
  store_inv (Pg.committees db) (Pg.committee_members db) →
  store_inv (Pg.committees db') (Pg.committee_members db').
Proof.
  unfold Pg.create_user. pg_run. unfold Pg.insert_user.
  by case_decide.
Qed.

Lemma Pg_update_user_profile_inv (db : Pg.Database) user_id full_name email
    phone cnic :
  let db' := (Pg.update_user_profile db user_id full_name email phone cnic).1 in
  store_inv (Pg.committees db) (Pg.committee_members db) →
  store_inv (Pg.committees db') (Pg.committee_members db').
Proof. unfold Pg.update_user_profile. pg_run. done. Qed.

Lemma Pg_send_committee_invitation_inv (db : Pg.Database) committee_id
    invited_user_id invited_by_id message invitation_id now :
  let db' := (Pg.send_committee_invitation db committee_id invited_user_id
                invited_by_id message invitation_id now).1 in
  store_inv (Pg.committees db) (Pg.committee_members db) →
  store_inv (Pg.committees db') (Pg.committee_members db').
Proof.
  unfold Pg.send_committee_invitation. pg_run. unfold Pg.insert_invitation.
  by case_decide.
Qed.

Lemma Pg_create_committee_inv (db : Pg.Database) title description
    monthly_amount total_members duration committee_type category
    payment_frequency admin_id committee_id member_id now :
  let db' := (Pg.create_committee db title description monthly_amount
                total_members duration committee_type category
                payment_frequency admin_id committee_id member_id now).1 in
  store_inv (Pg.committees db) (Pg.committee_members db) →
  store_inv (Pg.committees db') (Pg.committee_members db').
Proof.
  unfold Pg.create_committee. pg_run. unfold Pg.insert_committee.
  case_decide as Hc; simpl; [done|].
  unfold Pg.insert_committee_member. case_decide as Hm; simpl; [done|].
  intros Hinv.
  apply (store_inv_add_committee (Pg.committees db) _ (Pg.committee_members db)
           _
           (Committee.mk committee_id title description monthly_amount
              total_members 1 duration committee_type category
              payment_frequency "active" admin_id now)
           (Member.mk member_id committee_id admin_id 1 now)); try done.
  - intros x. rewrite elem_of_app, list_elem_of_singleton. done.
  - intros x. rewrite elem_of_app, list_elem_of_singleton. tauto.
  - intros x Hx [Hxc Hxu]. simpl in *. apply Hm. do 3 right.
    apply Exists_exists. by exists x.
Qed.

Lemma Pg_join_committee_inv (db : Pg.Database) committee_id user_id member_id
    now :
  let db' := (Pg.join_committee db committee_id user_id member_id now).1 in
  store_inv (Pg.committees db) (Pg.committee_members db) →
  store_inv (Pg.committees db') (Pg.committee_members db').
Proof.
  unfold Pg.join_committee. pg_run.
  destruct (Pg.select_members_count committee_id db) as [[current total]|]
    eqn:Hsel; simpl; [|done].
  case_decide as Hfull; simpl; [done|].
  destruct (Pg.insert_committee_member _ _ _ _ _ _) as [[[] db1]|e] eqn:Hins;
    simpl; [|by destruct e].
  intros Hinv.
  exact (Pg_join_statements_inv db db1 _ _ _ _ _ _ Hinv Hsel Hins).
Qed.

Lemma Pg_update_committee_settings_inv (db : Pg.Database) committee_id title
    description status payment_frequency category committee_type :
  let db' := (Pg.update_committee_settings db committee_id title description
                status payment_frequency category committee_type).1 in
  store_inv (Pg.committees db) (Pg.committee_members db) →
  store_inv (Pg.committees db') (Pg.committee_members db').
Proof.
  unfold Pg.update_committee_settings. pg_run. simpl. intros Hinv.
  apply (store_inv_update_committees (Pg.committees db)); [done|].
  intros c' (c & -> & Hc)%list_elem_of_fmap. exists c. split; [done|].
  case_decide; simpl; repeat split; lia.
Qed.

Lemma Pg_delete_committee_inv (db : Pg.Database) committee_id :
  let db' := (Pg.delete_committee db committee_id).1 in
  store_inv (Pg.committees db) (Pg.committee_members db) →
  store_inv (Pg.committees db') (Pg.committee_members db').
Proof.
  unfold Pg.delete_committee. pg_run. simpl.
  unfold Pg.delete_committees. case_decide as Href; simpl; [done|].
  intros Hinv.
  apply (store_inv_delete (Pg.committees db) _ (Pg.committee_members db) _
           committee_id); [done | |].
  - intros c [Hne Hc]%list_elem_of_filter. done.
  - intros x. rewrite list_elem_of_filter. tauto.
Qed.

Lemma Pg_respond_to_invitation_inv (db : Pg.Database) invitation_id response
    now member_id now_joined :
  let db' := (Pg.respond_to_invitation db invitation_id response now member_id
                now_joined).1 in
  store_inv (Pg.committees db) (Pg.committee_members db) →
  store_inv (Pg.committees db') (Pg.committee_members db').
Proof.
  unfold Pg.respond_to_invitation, Pg._join_committee_internal. pg_run.
  unfold Pg.update_pending_invitation. simpl.
  case_decide as Hrows; [done|].
  case_decide as Hresp; simpl; [|done].
  destruct (Pg.select_invitation _ _) as [[cid uid]|]; simpl; [|done].
  set (dbi := Pg.set_committee_invitations _ db).
  destruct (Pg.select_members_count cid dbi) as [[current total]|] eqn:Hsel;
    simpl; [|done].
  case_decide as Hfull; simpl; [done|].
  destruct (Pg.insert_committee_member _ _ _ _ _ dbi) as [[[] db1]|e] eqn:Hins;
    simpl; [|by destruct e].
  intros Hinv.
  exact (Pg_join_statements_inv dbi db1 _ _ _ _ _ _ Hinv Hsel Hins).
Qed.

(** *** The fallback branch *)

Lemma elem_of_dict_keys {V} (k : string) (v : V) (d : pydict V) :
  (k, v) ∈ d → k ∈ dict_keys d.
Proof. intros Hin. unfold dict_keys. apply list_elem_of_fmap. by exists (k, v). Qed.

Lemma dict_keys_functional {V} (k : string) (v1 v2 : V) (d : pydict V) :
  NoDup (dict_keys d) → (k, v1) ∈ d → (k, v2) ∈ d → v1 = v2.
Proof.
  unfold dict_keys. induction d as [|[k' v'] d IH]; [by intros _ ?%elem_of_nil|].
  rewrite fmap_cons, NoDup_cons. intros [Hk' Hd].
  rewrite !elem_of_cons. intros [H1|H1] [H2|H2].
  - congruence.
  - injection H1 as -> ->. destruct Hk'. by eapply (elem_of_dict_keys _ v2).
  - injection H2 as -> ->. destruct Hk'. by eapply (elem_of_dict_keys _ v1).
  - by apply IH.
Qed.

Lemma dict_keys_dict_set_mono {V} (k k' : string) (v : V) (d : pydict V) :
  k' ∈ dict_keys d → k' ∈ dict_keys (dict_set k v d).
Proof.
  rewrite dict_keys_dict_set. case_decide; [done|].
  intros Hin. apply elem_of_app. by left.
Qed.

Lemma dict_keys_dict_set_new {V} (k : string) (v : V) (d : pydict V) :
  k ∈ dict_keys (dict_set k v d).
Proof. apply (elem_of_dict_keys k v), elem_of_dict_set_new. Qed.

Lemma dict_values_set_fresh {V} (k : string) (v : V) (d : pydict V) (x : V) :
  k ∉ dict_keys d →
  x ∈ dict_values (dict_set k v d) ↔ x ∈ dict_values d ∨ x = v.
Proof.
  intros Hk. rewrite dict_set_fresh by done. unfold dict_values.
  rewrite fmap_app, elem_of_app. simpl. by rewrite list_elem_of_singleton.
Qed.

Lemma dict_values_set {V} (k : string) (v : V) (d : pydict V) (x : V) :
  x ∈ dict_values (dict_set k v d) → x ∈ dict_values d ∨ x = v.
Proof.
  intros [k' [[= _ ->]|Hin]%elem_of_dict_set]%elem_of_dict_values; [by right|].
  left. apply elem_of_dict_values. by exists k'.
Qed.

(** Changes to the users or to the invitations leave the invariant alone. *)
Lemma fallback_inv_same_committees (s s' : Fallback.t) :
  Fallback.committees s' = Fallback.committees s →
  Fallback.committee_members s' = Fallback.committee_members s →
  fallback_inv s → fallback_inv s'.
Proof.
  intros Hc Hm [H1 H2 H3 H4]. split; rewrite ?Hc, ?Hm; done.
Qed.

Lemma Fallback_create_user_inv (s : Fallback.t) username password_hash
    full_name email phone role cnic user_id now :
  fallback_inv s →
  fallback_inv (Fallback.create_user s username password_hash full_name email
                  phone role cnic user_id now).1.
Proof.
  unfold Fallback.create_user. case_decide; [done|].
  by apply fallback_inv_same_committees.
Qed.

Lemma Fallback_update_user_profile_inv (s : Fallback.t) user_id full_name email
    phone cnic :
  fallback_inv s →
  fallback_inv (Fallback.update_user_profile s user_id full_name email phone
                  cnic).1.
Proof.
  unfold Fallback.update_user_profile. destruct (dict_get _ _); [|done].
  by apply fallback_inv_same_committees.
Qed.

Lemma Fallback_send_committee_invitation_inv (s : Fallback.t) committee_id
    invited_user_id invited_by_id message invitation_id now :
  fallback_inv s →
  fallback_inv (Fallback.send_committee_invitation s committee_id
                  invited_user_id invited_by_id message invitation_id now).1.
Proof. by apply fallback_inv_same_committees. Qed.

Lemma Fallback_create_committee_inv (s : Fallback.t) title description
    monthly_amount total_members duration committee_type category
    payment_frequency admin_id committee_id member_id now_created now_joined :
  committee_id ∉ dict_keys (Fallback.committees s) →
  member_id ∉ dict_keys (Fallback.committee_members s) →
  fallback_inv s →
  fallback_inv (Fallback.create_committee s title description monthly_amount
                  total_members duration committee_type category
                  payment_frequency admin_id committee_id member_id now_created
                  now_joined).1.
Proof.
  intros Hcid Hmid [Hstore Hkey Hnodup Hmc].
  unfold Fallback.create_committee. simpl.
  set (c := Committee.mk committee_id title description monthly_amount
              total_members 1 duration committee_type category
              payment_frequency "active" admin_id now_created).
  set (m := Member.mk member_id committee_id admin_id 1 now_joined).
  split; simpl.
  - apply (store_inv_add_committee (dict_values (Fallback.committees s)) _
             (dict_values (Fallback.committee_members s)) _ c m); try done.
    + apply dict_values_set.
    + intros x. by apply dict_values_set_fresh.
    + intros x Hx [Hxc _]. simpl in Hxc. apply Hcid. rewrite <- Hxc.
      by apply Hmc.
  - intros k c0 [[= -> ->]|Hin]%elem_of_dict_set; [done | by apply Hkey].
  - by apply dict_set_NoDup.
  - intros x [Hx| ->]%dict_values_set.
    + by apply dict_keys_dict_set_mono, Hmc.
    + apply dict_keys_dict_set_new.
Qed.

Lemma Fallback_join_committee_inv (s : Fallback.t) committee_id user_id
    member_id now :
  member_id ∉ dict_keys (Fallback.committee_members s) →
  fallback_inv s →
  fallback_inv (Fallback.join_committee s committee_id user_id member_id now).1.
Proof.
  intros Hmid Hinv. unfold Fallback.join_committee.
  destruct (dict_get committee_id (Fallback.committees s)) as [c|] eqn:Hget;
    [|done].
  case_decide as Hopen; [|done]. case_decide as Hseat; [done|].
  destruct Hinv as [Hstore Hkey Hnodup Hmc]. simpl.
  set (m := Member.mk member_id committee_id user_id
              (Committee.current_members c + 1) now).
  set (c' := Committee.set_current_members (Committee.current_members c + 1) c).
  assert (Hcid : Committee.id c = committee_id)
    by (by apply Hkey, dict_get_Some).
  split; simpl.
  - apply (store_inv_join (dict_values (Fallback.committees s)) _
             (dict_values (Fallback.committee_members s)) _ c m); try done.
    + by eapply dict_get_value.
    + intros x Hx [Hxc Hxu]. apply Hseat. apply Exists_exists. by exists x.
    + intros x. by apply dict_values_set_fresh.
    + intros c0 [Hc0| ->]%dict_values_set.
      * exists c0. repeat split; done || lia.
      * exists c. split; [by eapply dict_get_value|]. simpl.
        repeat split; lia.
  - intros k c0 [[= -> ->]|Hin]%elem_of_dict_set; [done | by apply Hkey].
  - by apply dict_set_NoDup.
  - intros x [Hx| ->]%dict_values_set.
    + by apply dict_keys_dict_set_mono, Hmc.
    + apply dict_keys_dict_set_new.
Qed.

Lemma Fallback_update_committee_settings_inv (s : Fallback.t) committee_id
    title description status payment_frequency category committee_type :
  fallback_inv s →
  fallback_inv (Fallback.update_committee_settings s committee_id title
                  description status payment_frequency category
                  committee_type).1.
Proof.
  intros Hinv. unfold Fallback.update_committee_settings.
  destruct (dict_get committee_id (Fallback.committees s)) as [c|] eqn:Hget;
    [|done].
  destruct Hinv as [Hstore Hkey Hnodup Hmc].
  assert (Hcid : Committee.id c = committee_id)
    by (by apply Hkey, dict_get_Some).
  split; simpl.
  - apply (store_inv_update_committees (dict_values (Fallback.committees s)));
      [done|].
    intros c0 [Hc0| ->]%dict_values_set.
    + exists c0. repeat split; done || lia.
    + exists c. split; [by eapply dict_get_value|]. simpl. repeat split; lia.
  - intros k c0 [[= -> ->]|Hin]%elem_of_dict_set; [done | by apply Hkey].
  - done.
  - intros x Hx. by apply dict_keys_dict_set_mono, Hmc.
Qed.

Lemma Fallback_delete_committee_inv (s : Fallback.t) committee_id :
  fallback_inv s →
  fallback_inv (Fallback.delete_committee s committee_id).1.
Proof.
  intros Hinv. unfold Fallback.delete_committee.
  destruct (dict_get committee_id (Fallback.committees s)) as [c|] eqn:Hget;
    [|done].
  destruct Hinv as [Hstore Hkey Hnodup Hmc]. simpl.
  set (removed := (filter (λ kv : string * Member.t,
                             Member.committee_id kv.2 = committee_id)
                     (Fallback.committee_members s)).*1).
  assert (Hleft : ∀ k m,
            (k, m) ∈ foldl (λ ms mid, dict_del mid ms)
                       (Fallback.committee_members s) removed
            ↔ (k, m) ∈ Fallback.committee_members s
              ∧ Member.committee_id m ≠ committee_id).
  { intros k m. rewrite elem_of_foldl_dict_del. simpl.
    split; intros [Hin Hk]; (split; [done|]).
    - intros Hm. apply Hk. apply list_elem_of_fmap. exists (k, m).
      split; [done|]. by apply list_elem_of_filter.
    - intros ([k' m'] & Heq & [Hm' Hin']%list_elem_of_filter)%list_elem_of_fmap.
      simpl in *. subst k'.
      by rewrite (dict_keys_functional k m m' _ Hnodup Hin Hin') in Hk. }
  split; simpl.
  - apply (store_inv_delete (dict_values (Fallback.committees s)) _
             (dict_values (Fallback.committee_members s)) _ committee_id);
      [done | |].
    + intros c0 [k [Hin Hne]%elem_of_dict_del]%elem_of_dict_values.
      split; [apply elem_of_dict_values; by exists k|].
      simpl in Hne. by rewrite (Hkey k c0 Hin).
    + intros m. rewrite !elem_of_dict_values. split.
      * intros [k [Hin Hne]%Hleft]. split; [by exists k | done].
      * intros [[k Hin] Hne]. exists k. by apply Hleft.
  - intros k c0 [Hin _]%elem_of_dict_del. by apply Hkey.
  - by apply foldl_dict_del_NoDup.
  - intros m [k [Hin Hne]%Hleft]%elem_of_dict_values.
    assert (Hm : m ∈ dict_values (Fallback.committee_members s))
      by (apply elem_of_dict_values; by exists k).
    apply Hmc in Hm. unfold dict_keys in *.
    apply list_elem_of_fmap in Hm as ([k' c'] & Hk' & Hin').
    apply list_elem_of_fmap. exists (k', c'). split; [done|].
    apply elem_of_dict_del. split; [done|]. simpl in *. congruence.
Qed.

Lemma Fallback_respond_to_invitation_inv (s : Fallback.t) invitation_id
    response now member_id now_joined :
  member_id ∉ dict_keys (Fallback.committee_members s) →
  fallback_inv s →
  fallback_inv (Fallback.respond_to_invitation s invitation_id response now
                  member_id now_joined).1.
Proof.
  intros Hmid Hinv. unfold Fallback.respond_to_invitation.
  destruct (Fallback.fallback_invitations s) as [invs|]; [|done].
  destruct (dict_get invitation_id invs) as [i|]; [|done].
  case_decide.
  - apply Fallback_join_committee_inv; [done|].
    by apply (fallback_inv_same_committees s).
  - by apply (fallback_inv_same_committees s).
Qed.

(** *** Every reachable store satisfies the invariant *)

Lemma store_inv_empty : store_inv [] [].
Proof.
  split.
  - by intros c ?%elem_of_nil.
  - by intros m1 m2 ?%elem_of_nil.
  - by intros c ?%elem_of_nil.
  - by intros m ?%elem_of_nil.
Qed.

Lemma manager_inv_initial (self : DatabaseManager.t) :
  DatabaseManager.initial self → manager_inv self.
Proof.
  destruct self as [db|s]; simpl.
  - intros (-> & -> & _). apply store_inv_empty.
  - intros (a & b & ta & tb & _ & ->). split; simpl.
    + apply store_inv_empty.
    + by intros k c ?%elem_of_nil.
    + apply NoDup_nil_2.
    + by intros m ?%elem_of_nil.
Qed.

Lemma manager_inv_step (self self' : DatabaseManager.t) :
  manager_inv self → DatabaseManager.step self self' → manager_inv self'.
Proof.
  intros Hinv Hstep.
  destruct Hstep as
    [username password_hash full_name email phone role cnic user_id now Hid
    |title description monthly_amount total_members duration committee_type
       category payment_frequency admin_id committee_id member_id now_created
       now_joined Hcid Hmid Hne
    |committee_id user_id member_id now Hmid
    |user_id full_name email phone cnic
    |committee_id title description status payment_frequency category
       committee_type
    |committee_id
    |committee_id invited_user_id invited_by_id message invitation_id now Hid
    |invitation_id response now member_id now_joined Hmid];
    destruct self as [db|s].
  - exact (Pg_create_user_inv db username password_hash full_name email phone
             role cnic user_id now Hinv).
  - by apply Fallback_create_user_inv.
  - exact (Pg_create_committee_inv db title description monthly_amount
             total_members duration committee_type category payment_frequency
             admin_id committee_id member_id now_created Hinv).
  - apply Fallback_create_committee_inv;
      [apply Hcid | apply Hmid | done].
  - exact (Pg_join_committee_inv db committee_id user_id member_id now Hinv).
  - apply Fallback_join_committee_inv; [apply Hmid | done].
  - exact (Pg_update_user_profile_inv db user_id full_name email phone cnic
             Hinv).
  - by apply Fallback_update_user_profile_inv.
  - exact (Pg_update_committee_settings_inv db committee_id title description
             status payment_frequency category committee_type Hinv).
  - by apply Fallback_update_committee_settings_inv.
  - exact (Pg_delete_committee_inv db committee_id Hinv).
  - by apply Fallback_delete_committee_inv.
  - exact (Pg_send_committee_invitation_inv db committee_id invited_user_id
             invited_by_id message invitation_id now Hinv).
  - by apply Fallback_send_committee_invitation_inv.
  - exact (Pg_respond_to_invitation_inv db invitation_id response now
             member_id now_joined Hinv).
  - apply Fallback_respond_to_invitation_inv; [apply Hmid | done].
Qed.

Lemma manager_inv_reachable (self : DatabaseManager.t) :
  DatabaseManager.reachable self → manager_inv self.
Proof.
  intros (self0 & Hinit & Hsteps).
  apply manager_inv_initial in Hinit.
  induction Hsteps as [|x y z Hxy _ IH]; [done|].
  apply IH. by apply (manager_inv_step x).
Qed.

Lemma manager_inv_store (self : DatabaseManager.t) :
  manager_inv self →
  store_inv (DatabaseManager.committees self) (DatabaseManager.memberships self).
Proof. destruct self; simpl; [done | by intros []]. Qed.

(** C8. A successful [create_committee] stores the committee with one
    current member and status ['active'] and a membership of the admin at
    position 1; and in every reachable store, each committee has a membership
    of its admin at position 1 and every membership of the admin in it has
    position 1. *)
Theorem create_committee_admin_first :
  (∀ (self : DatabaseManager.t) (title : string) (description : option string)
     (monthly_amount total_members duration : Z)
     (committee_type category payment_frequency admin_id : string)
     (committee_id member_id : string) (now_created now_joined : datetime.t),
     let r := DatabaseManager.create_committee self title description
                monthly_amount total_members duration committee_type category
                payment_frequency admin_id committee_id member_id now_created
                now_joined in
     r.2 = Ok true →
     Committee.mk committee_id title description monthly_amount total_members
       1 duration committee_type category payment_frequency "active" admin_id
       now_created ∈ DatabaseManager.committees r.1
     ∧ ∃ m, m ∈ DatabaseManager.memberships r.1
            ∧ Member.id m = member_id
            ∧ Member.committee_id m = committee_id
            ∧ Member.user_id m = admin_id
            ∧ Member.position m = 1)
  ∧ (∀ self : DatabaseManager.t,
       DatabaseManager.reachable self →
       ∀ c, c ∈ DatabaseManager.committees self →
         (∃ m, m ∈ DatabaseManager.memberships self
               ∧ Member.committee_id m = Committee.id c
               ∧ Member.user_id m = Committee.admin_id c
               ∧ Member.position m = 1)
         ∧ ∀ m, m ∈ DatabaseManager.memberships self →
             Member.committee_id m = Committee.id c →
             Member.user_id m = Committee.admin_id c →
             Member.position m = 1).
Proof.
  split.
  - intros [db|s] *; simpl.
    + unfold Pg.create_committee. pg_run. unfold Pg.insert_committee.
      case_decide as Hc; simpl; [done|].
      unfold Pg.insert_committee_member. case_decide as Hm; simpl; [done|].
      intros _. split.
      * apply elem_of_app. right. left.
      * eexists. split; [apply elem_of_app; right; left | done].
    + intros _. split.
      * apply elem_of_dict_values. exists committee_id.
        apply elem_of_dict_set_new.
      * exists (Member.mk member_id committee_id admin_id 1 now_joined).
        split; [|done]. apply elem_of_dict_values. exists member_id.
        apply elem_of_dict_set_new.
  - intros self Hreach%manager_inv_reachable%manager_inv_store c Hc. split.
    + destruct (inv_admin _ _ Hreach c Hc) as (m & Hm & [Hmc Hmu] & Hp).
      by exists m.
    + intros m Hm Hmc Hmu.
      by apply (store_inv_admin_first _ _ c m Hreach).
Qed.

(** C10. [get_member_position_in_committee] returns 0 for a user with no
    membership in the committee, whether the committee exists or not; in a
    reachable store a member's position is at least 1, so 0 is returned for
    non-members only. *)
Theorem member_position_zero_for_nonmember :
  (∀ (self : DatabaseManager.t) (committee_id user_id : string),
     ¬ DatabaseManager.is_member self committee_id user_id →
     DatabaseManager.get_member_position_in_committee self committee_id user_id
     = 0)
  ∧ (∀ (self : DatabaseManager.t) (committee_id user_id : string),
       DatabaseManager.reachable self →
       DatabaseManager.is_member self committee_id user_id →
       1 ≤ DatabaseManager.get_member_position_in_committee self committee_id
             user_id).
Proof.
  split.
  - apply get_member_position_nonmember.
  - intros self committee_id user_id
      Hreach%manager_inv_reachable%manager_inv_store
      (m & Hm & _ & _ & ->)%get_member_position_member.
    by apply (inv_position _ _ Hreach).
Qed.

(** ** The properties at concrete stores *)

Lemma initial_fallback_initial :
  DatabaseManager.initial (DatabaseManager.Disconnected initial_fallback).
Proof.
  exists "admin-id", "member-id", (datetime.of_ymd 2025 1 1),
    (datetime.of_ymd 2025 1 1). split; [done | reflexivity].
Defined.

Lemma manager_with_committee_reachable :
  DatabaseManager.reachable manager_with_committee.
Proof.
  exists (DatabaseManager.Disconnected initial_fallback). split.
  - apply initial_fallback_initial.
  - apply rtc_once. apply DatabaseManager.step_create_committee.
    + repeat split; decide_by_computation.
    + repeat split; decide_by_computation.
    + done.
Defined.

(** The store with the full committee is one the manager reaches. *)
Lemma manager_with_full_committee_reachable :
  DatabaseManager.reachable manager_with_full_committee.
Proof.
  destruct manager_with_committee_reachable as (self0 & Hinit & Hsteps).
  exists self0. split; [done|].
  eapply rtc_trans; [exact Hsteps|].
  eapply rtc_l.
  { apply (DatabaseManager.step_create_user _ "carol"
             Fallback.demo_password_hash "Carol" "carol@civitas.pk"
             "+92-300-0000000" "member" None "carol-id"
             (datetime.of_ymd 2025 1 1)).
    repeat split; decide_by_computation. }
  eapply rtc_l.
  { apply (DatabaseManager.step_send_committee_invitation _ "committee-id"
             "member-id" "admin-id" None "invitation-1"
             (datetime.of_ymd 2025 1 1)).
    repeat split; decide_by_computation. }
  eapply rtc_l.
  { apply (DatabaseManager.step_send_committee_invitation _ "committee-id"
             "carol-id" "admin-id" None "invitation-2"
             (datetime.of_ymd 2025 1 1)).
    repeat split; decide_by_computation. }
  apply rtc_once.
  apply (DatabaseManager.step_respond_to_invitation _ "invitation-2" "accepted"
           (datetime.of_ymd 2025 1 1) "membership-2"
           (datetime.of_ymd 2025 1 1)).
  repeat split; decide_by_computation.
Qed.

Lemma join_committee_soft_failure_witness :
  DatabaseManager.join_committee
    manager_with_full_committee "committee-id" "member-id" "membership-3"
    (datetime.of_ymd 2025 2 1)
  = (manager_with_full_committee, Ok false)
  ∧ DatabaseManager.join_committee
      (DatabaseManager.Connected database_with_open_committee) "committee-id"
      "amina-id" "membership-2" (datetime.of_ymd 2025 2 1)
    = (DatabaseManager.Connected database_with_open_committee, Ok false).
Proof.
  split.
  - apply join_committee_soft_failure. left.
    eexists. split; [vm_compute; reflexivity | reflexivity].
  - apply join_committee_soft_failure. right.
    eexists. split; [left | split; reflexivity].
Defined.

Lemma calculate_trust_score_new_user_witness :
  TrustScoreManager.calculate_trust_score
    (DatabaseManager.Disconnected initial_fallback) (datetime.of_ymd 2025 2 1)
    "member-id" = 85.
Proof. apply calculate_trust_score_new_user; reflexivity. Defined.

Lemma payment_score_float_formula_witness :
  TrustScoreManager._calculate_payment_score history_27
  = payment_component_float history_27.
Proof. apply payment_score_float_formula. Defined.

Lemma payout_notification_amount_witness :
  (∃ notifications,
     PaymentManager.get_payout_notifications manager_with_committee
       (datetime.of_ymd 2025 2 1) "admin-id" = Ok notifications
     ∧ ∀ n, n ∈ notifications ↔
         ∃ c, c ∈ DatabaseManager.get_user_committees manager_with_committee
                    "admin-id"
              ∧ c ∈ DatabaseManager.committees manager_with_committee
              ∧ DatabaseManager.get_member_position_in_committee
                  manager_with_committee (Committee.id c) "admin-id" = 1
              ∧ PaymentManager.committee_id n = Committee.id c
              ∧ PaymentManager.committee_title n = Committee.title c
              ∧ PaymentManager.amount n
                = Committee.monthly_amount c * Committee.current_members c
              ∧ PaymentManager.estimated_date n
                = datetime.mk
                    (datetime.toordinal (datetime.of_ymd 2025 2 1) + 7)
                    (datetime.time_us (datetime.of_ymd 2025 2 1)))
  ∧ ∀ c, estimated_payout c
         = Committee.monthly_amount c * Committee.total_members c.
Proof.
  apply payout_notification_amount.
  - vm_compute. reflexivity.
  - vm_compute. discriminate.
Defined.

Lemma create_committee_admin_first_witness :
  (Committee.mk "committee-id" "Family fund" None 5000 2 1 6 "private"
     "General" "monthly" "active" "admin-id" (datetime.of_ymd 2025 1 1)
     ∈ DatabaseManager.committees manager_with_committee
   ∧ ∃ m, m ∈ DatabaseManager.memberships manager_with_committee
          ∧ Member.id m = "membership-1"
          ∧ Member.committee_id m = "committee-id"
          ∧ Member.user_id m = "admin-id"
          ∧ Member.position m = 1)
  ∧ ∀ c, c ∈ DatabaseManager.committees manager_with_committee →
      (∃ m, m ∈ DatabaseManager.memberships manager_with_committee
            ∧ Member.committee_id m = Committee.id c
            ∧ Member.user_id m = Committee.admin_id c
            ∧ Member.position m = 1)
      ∧ ∀ m, m ∈ DatabaseManager.memberships manager_with_committee →
          Member.committee_id m = Committee.id c →
          Member.user_id m = Committee.admin_id c →
          Member.position m = 1.
Proof.
  split.
  - apply (proj1 create_committee_admin_first
             (DatabaseManager.Disconnected initial_fallback)).
    reflexivity.
  - apply (proj2 create_committee_admin_first manager_with_committee).
    apply manager_with_committee_reachable.
Defined.

Lemma public_committees_open_and_unjoined_witness :
  let c :=
    Committee.mk "committee-id" "Neighbours" None 5000 3 1 6 "public" "General"
      "monthly" "active" "amina-id" (datetime.of_ymd 2025 1 1) in
  c ∈ DatabaseManager.get_public_committees_for_user
        (DatabaseManager.Connected database_with_open_committee) "bilal-id"
  ↔ c ∈ DatabaseManager.committees
          (DatabaseManager.Connected database_with_open_committee)
    ∧ Committee.committee_type c = "public"
    ∧ ¬ DatabaseManager.is_member
          (DatabaseManager.Connected database_with_open_committee)
          (Committee.id c) "bilal-id"
    ∧ Committee.current_members c < Committee.total_members c.
Proof. apply public_committees_open_and_unjoined. Defined.

Lemma member_position_zero_for_nonmember_witness :
  DatabaseManager.get_member_position_in_committee
    (DatabaseManager.Disconnected initial_fallback) "committee-id" "member-id"
  = 0
  ∧ 1 ≤ DatabaseManager.get_member_position_in_committee
          manager_with_committee "committee-id" "admin-id".
Proof.
  split.
  - apply (proj1 member_position_zero_for_nonmember).
    intros (m & Hm & _). vm_compute in Hm. inversion Hm.
  - apply (proj2 member_position_zero_for_nonmember).
    + apply manager_with_committee_reachable.
    + eexists. split; [left | split; reflexivity].
Defined.


(** * Further properties *)

(** ** The payout schedule and the errors of the schedules *)

Lemma for_each_raise {A S} (xs : list A) (body : S → A → res S) (e0 : exn)
    (acc : S) :
  (∀ s x, x ∈ xs → body s x = Raise e0 ∨ ∃ s', body s x = Ok s') →
  (∃ x, x ∈ xs ∧ ∀ s, body s x = Raise e0) →
  for_each xs body acc = Raise e0.
Proof.
  revert acc. induction xs as [|x xs IH]; intros acc Hbody (x0 & Hx0 & Hfail).
  - by apply elem_of_nil in Hx0.
  - simpl. destruct (Hbody acc x ltac:(left)) as [->|[s' Hs']]; [done|].
    rewrite Hs'. simpl. apply IH.
    + intros s y Hy. apply Hbody. by right.
    + exists x0. split; [|done].
      apply elem_of_cons in Hx0 as [->|Hin]; [|done].
      rewrite Hfail in Hs'. discriminate.
Qed.

Lemma due_date_out_of_range (start_date : datetime.t) (delta : Z) :
  0 ≤ delta →
  datetime.MAXORDINAL < datetime.toordinal start_date + delta →
  res_bind (datetime.timedelta delta) (datetime.add start_date)
  = Raise OverflowError.
Proof.
  intros H0 H1. unfold datetime.timedelta, datetime.add.
  case_match; simpl; [|done].
  rewrite (proj2 (Z.leb_gt _ _)) by lia. by rewrite andb_false_r.
Qed.

Lemma enumerate_lookup {A} (xs : list A) (start : Z) (i : nat) :
  PaymentManager.enumerate start xs !! i
  = (λ x, (start + Z.of_nat i, x)) <$> xs !! i.
Proof.
  revert start i. induction xs as [|x xs IH]; intros start [|i]; simpl;
    try done.
  - by rewrite Z.add_0_r.
  - rewrite IH. destruct (xs !! i); simpl; [|done]. do 2 f_equal. lia.
Qed.

Lemma enumerate_length {A} (xs : list A) (start : Z) :
  length (PaymentManager.enumerate start xs) = length xs.
Proof. revert start. induction xs; intros start; simpl; [done|]. by rewrite IHxs. Qed.

Lemma enumerate_elem {A} (xs : list A) (start p : Z) (x : A) :
  (p, x) ∈ PaymentManager.enumerate start xs →
  start ≤ p < start + Z.of_nat (length xs).
Proof.
  intros (i & Hi)%list_elem_of_lookup. rewrite enumerate_lookup in Hi.
  destruct (xs !! i) eqn:Hx; simplify_eq/=.
  apply lookup_lt_Some in Hx. lia.
Qed.

Lemma payout_schedule_in_range (committee_id : string)
    (members : list string) (start_date : datetime.t)
    (payment_frequency : string) :
  let interval_days :=
    if decide (payment_frequency = "bi_monthly") then 60 else 30 in
  0 < datetime.toordinal start_date →
  datetime.toordinal start_date
    + interval_days * (Z.of_nat (length members) - 1) ≤ datetime.MAXORDINAL →
  PaymentManager.calculate_payout_schedule committee_id members start_date
    payment_frequency
  = Ok ((λ pm : Z * string,
           PaymentManager.mkPayoutEntry pm.1 pm.2
             (datetime.mk
                (datetime.toordinal start_date + interval_days * (pm.1 - 1))
                (datetime.time_us start_date)) false)
          <$> PaymentManager.enumerate 1 members).
Proof.
  intros interval_days Hlo Hhi.
  unfold PaymentManager.calculate_payout_schedule.
  replace (if decide (payment_frequency = "monthly") then 30
           else if decide (payment_frequency = "bi_monthly") then 60 else 30)
    with interval_days
    by (subst interval_days; repeat case_decide; simplify_eq; done).
  match goal with |- _ = Ok (?g <$> _) => apply (for_each_append _ _ g []) end.
  intros s [p m] Hin. apply enumerate_elem in Hin.
  assert (0 < interval_days) by (subst interval_days; case_decide; lia).
  pose proof (due_date_in_range start_date (interval_days * (p - 1))) as Hr.
  unfold res_bind in Hr |- *.
  destruct (datetime.timedelta _) as [delta|e].
  - rewrite Hr by nia. done.
  - discriminate Hr; nia.
Qed.

(** X1. The payout schedule has one entry per member, in the order of the
    list: the member at index [i] gets position [i + 1] and is paid
    [interval_days * i] days after the start date, 60 days apart for
    bi-monthly and 30 for every other frequency, provided the last payout
    date is one [datetime] can hold. *)
Theorem payout_schedule_positions (committee_id : string)
    (members : list string) (start_date : datetime.t)
    (payment_frequency : string) :
  let interval_days :=
    if decide (payment_frequency = "bi_monthly") then 60 else 30 in
  0 < datetime.toordinal start_date →
  datetime.toordinal start_date
    + interval_days * (Z.of_nat (length members) - 1) ≤ datetime.MAXORDINAL →
  ∃ schedule,
    PaymentManager.calculate_payout_schedule committee_id members start_date
      payment_frequency = Ok schedule
    ∧ length schedule = length members
    ∧ ∀ (i : nat) member_id, members !! i = Some member_id →
        schedule !! i
        = Some (PaymentManager.mkPayoutEntry (Z.of_nat i + 1) member_id
                  (datetime.mk
                     (datetime.toordinal start_date
                        + interval_days * Z.of_nat i)
                     (datetime.time_us start_date))
                  false).
Proof.
  intros interval_days Hlo Hhi. eexists. split; [|split].
  - by apply payout_schedule_in_range.
  - by rewrite length_fmap, enumerate_length.
  - intros i m Hm. rewrite list_lookup_fmap, enumerate_lookup, Hm. simpl.
    f_equal. f_equal; [lia|]. f_equal.
    replace (1 + Z.of_nat i - 1) with (Z.of_nat i) by lia. done.
Qed.

Lemma payout_schedule_positions_witness :
  ∃ schedule,
    PaymentManager.calculate_payout_schedule "committee-id"
      ["admin-id"; "carol-id"] (datetime.of_ymd 2025 1 1) "bi_monthly"
    = Ok schedule
    ∧ length schedule = 2%nat
    ∧ ∀ (i : nat) member_id,
        ["admin-id"; "carol-id"] !! i = Some member_id →
        schedule !! i
        = Some (PaymentManager.mkPayoutEntry (Z.of_nat i + 1) member_id
                  (datetime.mk
                     (datetime.toordinal (datetime.of_ymd 2025 1 1)
                        + 60 * Z.of_nat i)
                     (datetime.time_us (datetime.of_ymd 2025 1 1)))
                  false).
Proof.
  apply (payout_schedule_positions "committee-id" ["admin-id"; "carol-id"]
           (datetime.of_ymd 2025 1 1) "bi_monthly").
  - vm_compute. reflexivity.
  - vm_compute. discriminate.
Defined.

(** X2. From a start date [datetime] can hold, the payout schedule fails
    exactly when its last payout date would lie beyond 9999-12-31: it then
    raises [OverflowError] and returns no entry at all, however many of the
    earlier dates were in range. *)
Theorem payout_schedule_overflow_iff (committee_id : string)
    (members : list string) (start_date : datetime.t)
    (payment_frequency : string) :
  let interval_days :=
    if decide (payment_frequency = "bi_monthly") then 60 else 30 in
  0 < datetime.toordinal start_date ≤ datetime.MAXORDINAL →
  PaymentManager.calculate_payout_schedule committee_id members start_date
    payment_frequency = Raise OverflowError
  ↔ datetime.MAXORDINAL
    < datetime.toordinal start_date
      + interval_days * (Z.of_nat (length members) - 1).
Proof.
  intros interval_days [Hlo Hhi]. split.
  - intros Hraise.
    destruct (decide (datetime.toordinal start_date
                + interval_days * (Z.of_nat (length members) - 1)
                ≤ datetime.MAXORDINAL)) as [Hin|Hout]; [|lia].
    rewrite (payout_schedule_in_range committee_id members start_date
               payment_frequency Hlo Hin) in Hraise.
    discriminate.
  - intros Hout.
    assert (0 < interval_days) as Hk by (subst interval_days; case_decide; lia).
    destruct (last members) as [m|] eqn:Hlast; cycle 1.
    { apply last_None in Hlast. subst members. simpl in Hout. lia. }
    unfold PaymentManager.calculate_payout_schedule.
    replace (if decide (payment_frequency = "monthly") then 30
             else if decide (payment_frequency = "bi_monthly") then 60 else 30)
      with interval_days
      by (subst interval_days; repeat case_decide; simplify_eq; done).
    apply for_each_raise.
    + intros s [p x] Hin. apply enumerate_elem in Hin.
      unfold datetime.timedelta, datetime.add.
      repeat (case_match; simpl); eauto.
    + exists (Z.of_nat (length members), m). split.
      * apply list_elem_of_lookup. exists (pred (length members)).
        rewrite enumerate_lookup, <- last_lookup, Hlast. simpl.
        do 2 f_equal. destruct members; [done|]. simpl length. lia.
      * intros s. pose proof (due_date_out_of_range start_date
          (interval_days * (Z.of_nat (length members) - 1))) as Hr.
        unfold res_bind in Hr |- *.
        destruct (datetime.timedelta _) as [delta|e] eqn:Hd.
        -- rewrite Hr; [done| |lia]. nia.
        -- unfold datetime.timedelta in Hd. case_match; by simplify_eq.
Qed.

Lemma payout_schedule_overflow_iff_witness :
  PaymentManager.calculate_payout_schedule "committee-id"
    ["admin-id"; "carol-id"] (datetime.of_ymd 9999 12 1) "monthly"
  = Raise OverflowError
  ↔ datetime.MAXORDINAL
    < datetime.toordinal (datetime.of_ymd 9999 12 1) + 30 * (2 - 1).
Proof.
  apply (payout_schedule_overflow_iff "committee-id" ["admin-id"; "carol-id"]
           (datetime.of_ymd 9999 12 1) "monthly").
  vm_compute. split; [reflexivity|discriminate].
Defined.

Lemma for_each_ext {A S} (xs : list A) (body1 body2 : S → A → res S) (acc : S) :
  (∀ s x, body1 s x = body2 s x) →
  for_each xs body1 acc = for_each xs body2 acc.
Proof.
  intros Hbody. revert acc. induction xs as [|x xs IH]; intros acc; [done|].
  simpl. rewrite Hbody. destruct (body2 acc x); simpl; [apply IH|done].
Qed.

(** Two loops that append one dated entry per element, with the same day
    offsets and the same tags, raise together or build lists with the same
    tags and dates. *)
Lemma for_each_dates {A B C D K} (xs : list A) (ys : list B)
    (offset1 : A → Z) (offset2 : B → Z) (tag1 : A → K) (tag2 : B → K)
    (mk1 : A → datetime.t → C) (mk2 : B → datetime.t → D)
    (view1 : C → K * datetime.t) (view2 : D → K * datetime.t)
    (start_date : datetime.t) (acc1 : list C) (acc2 : list D) :
  (∀ x d, view1 (mk1 x d) = (tag1 x, d)) →
  (∀ y d, view2 (mk2 y d) = (tag2 y, d)) →
  (λ x, (offset1 x, tag1 x)) <$> xs = (λ y, (offset2 y, tag2 y)) <$> ys →
  view1 <$> acc1 = view2 <$> acc2 →
  match
    for_each xs
      (λ s x, res_bind (datetime.timedelta (offset1 x)) (λ delta,
              res_bind (datetime.add start_date delta) (λ d,
              Ok (s ++ [mk1 x d])))) acc1,
    for_each ys
      (λ s y, res_bind (datetime.timedelta (offset2 y)) (λ delta,
              res_bind (datetime.add start_date delta) (λ d,
              Ok (s ++ [mk2 y d])))) acc2
  with
  | Ok s1, Ok s2 => view1 <$> s1 = view2 <$> s2
  | Raise e1, Raise e2 => e1 = e2
  | _, _ => False
  end.
Proof.
  intros Hd1 Hd2. revert ys acc1 acc2.
  induction xs as [|x xs IH]; intros [|y ys] acc1 acc2 Hoff Hacc;
    try discriminate; simpl; [done|].
  injection Hoff as Hxy Htag Hoff. rewrite Hxy.
  destruct (datetime.timedelta (offset2 y)) as [delta|e]; simpl; [|done].
  destruct (datetime.add start_date delta) as [d|e]; simpl; [|done].
  apply IH; [done|].
  rewrite !fmap_app, Hacc. simpl. by rewrite Hd1, Hd2, Htag.
Qed.

Lemma enumerate_offsets {A} (xs : list A) (k start : Z) :
  (λ pm : Z * A, (k * (pm.1 - 1), pm.1))
    <$> PaymentManager.enumerate (start + 1) xs
  = (λ cycle, (k * cycle, cycle + 1)) <$> seqZ start (Z.of_nat (length xs)).
Proof.
  revert start. induction xs as [|x xs IH]; intros start; [done|].
  cbn [PaymentManager.enumerate length].
  rewrite Nat2Z.inj_succ, seqZ_cons by lia. rewrite !fmap_cons. f_equal.
  - simpl. do 2 f_equal. lia.
  - rewrite IH. do 2 f_equal; lia.
Qed.

(** X3. Payouts fall on the due dates: for a committee with as many cycles as
    members, the payout schedule and the payment schedule either raise the
    same exception or have the same length, the payout of position [p] being
    dated on the due date of cycle [p]. *)
Theorem payout_dates_are_due_dates (committee_id : string)
    (members : list string) (start_date : datetime.t)
    (payment_frequency : string) :
  match
    PaymentManager.calculate_payout_schedule committee_id members start_date
      payment_frequency,
    PaymentManager.calculate_payment_schedule committee_id start_date
      payment_frequency (Z.of_nat (length members))
  with
  | Ok payouts, Ok payments =>
      (λ e, (PaymentManager.position e, PaymentManager.payout_date e))
        <$> payouts
      = (λ e, (PaymentManager.cycle e, PaymentManager.due_date e))
        <$> payments
  | Raise e1, Raise e2 => e1 = e2
  | _, _ => False
  end.
Proof.
  unfold PaymentManager.calculate_payout_schedule,
    PaymentManager.calculate_payment_schedule.
  set (k := if decide (payment_frequency = "monthly") then 30
            else if decide (payment_frequency = "bi_monthly") then 60 else 30).
  rewrite (for_each_ext (PaymentManager.enumerate 1 members) _
    (λ s pm, res_bind (datetime.timedelta (k * (pm.1 - 1))) (λ delta,
             res_bind (datetime.add start_date delta) (λ d,
             Ok (s ++ [PaymentManager.mkPayoutEntry pm.1 pm.2 d false])))))
    by (by intros s [p m]).
  exact (for_each_dates (PaymentManager.enumerate 1 members)
    (seqZ 0 (Z.of_nat (length members)))
    (λ pm, k * (pm.1 - 1)) (λ cycle, k * cycle)
    (λ pm, pm.1) (λ cycle, cycle + 1)
    (λ pm d, PaymentManager.mkPayoutEntry pm.1 pm.2 d false)
    (λ cycle d, PaymentManager.mkScheduleEntry (cycle + 1) d None)
    (λ e, (PaymentManager.position e, PaymentManager.payout_date e))
    (λ e, (PaymentManager.cycle e, PaymentManager.due_date e))
    start_date [] []
    (λ _ _, eq_refl) (λ _ _, eq_refl)
    (enumerate_offsets members k 0) eq_refl).
Qed.

(** ** Trust levels *)

(** X4. The current trust score ignores the stored one: [get_user_by_id]
    returns a dictionary, on which [hasattr(user_data, 'trust_score')] is
    false, so every user, known or not and whatever score the store holds,
    is read at the default 85 and advised only to keep the record up. *)
Theorem current_trust_score_default (db : DatabaseManager.t)
    (user_id : string) :
  TrustScoreManager.get_current_trust_score db user_id = 85
  ∧ TrustScoreManager.get_improvement_recommendations db user_id
    = ["Maintain your excellent payment record"].
Proof.
  assert (TrustScoreManager.get_current_trust_score db user_id = 85) as H.
  { unfold TrustScoreManager.get_current_trust_score.
    by destruct (DatabaseManager.get_user_by_id db user_id). }
  split; [done|].
  unfold TrustScoreManager.get_improvement_recommendations. by rewrite H.
Qed.

(** X5. The trust score manager and the member dashboard band the scores
    alike: the colours agree on every score and the level names on every
    score from 60 up; below 60 the manager says "Needs Improvement" where
    the dashboard says "Poor". *)
Theorem trust_level_matches_dashboard (score : Z) :
  TrustScoreManager.TrustLevel.color (TrustScoreManager.get_trust_level_description score)
  = get_trust_color score
  ∧ (if decide (60 ≤ score)
     then TrustScoreManager.TrustLevel.level
            (TrustScoreManager.get_trust_level_description score)
          = get_trust_level score
     else TrustScoreManager.TrustLevel.level
            (TrustScoreManager.get_trust_level_description score)
          = "Needs Improvement"
          ∧ get_trust_level score = "Poor").
Proof.
  unfold TrustScoreManager.get_trust_level_description, get_trust_color,
    get_trust_level.
  repeat case_decide; try lia; done.
Qed.

(** ** Filtering and sorting the browsed committees *)

Lemma availability_skip_test (availability : string) (c : Committee.t) :
  let fill_rate :=
    truediv (Committee.current_members c) (Committee.total_members c) in
  (bool_decide (availability = "Almost Full (90%+)")
   && PrimFloat.ltb fill_rate float_0_9)
  || (bool_decide (availability = "Half Full (50-90%)")
      && negb (PrimFloat.leb float_0_5 fill_rate
               && PrimFloat.ltb fill_rate float_0_9))
  || (bool_decide (availability = "Just Started (<50%)")
      && PrimFloat.leb float_0_5 fill_rate)
  = bool_decide (¬ in_availability_band availability c).
Proof.
  intros fill_rate.
  destruct (decide (in_availability_band availability c)) as [Hb|Hb].
  - rewrite (bool_decide_eq_false_2 (¬ in_availability_band availability c))
      by tauto.
    unfold in_availability_band in Hb. fold fill_rate in Hb.
    destruct Hb as (H1 & H2 & H3).
    repeat case_bool_decide; simpl; try done; subst; try discriminate.
    + by rewrite H1.
    + by destruct H2 as [-> ->].
    + by rewrite H3.
  - rewrite (bool_decide_eq_true_2 (¬ in_availability_band availability c))
      by done.
    unfold in_availability_band in Hb. fold fill_rate in Hb.
    destruct (PrimFloat.ltb fill_rate float_0_9),
      (PrimFloat.leb float_0_5 fill_rate);
      repeat case_bool_decide; simpl; try done; subst; try discriminate;
      exfalso; apply Hb; intuition (discriminate || congruence).
Qed.

Lemma for_loop_filters (committees : list Committee.t)
    (min_amount max_amount : Z)
    (category payment_freq duration availability : string) :
  apply_committee_filters committees min_amount max_amount category
    payment_freq duration availability
  = if decide (availability ≠ "All"
               ∧ Exists (λ c, passes_filters min_amount max_amount category
                                payment_freq duration c
                              ∧ Committee.total_members c = 0) committees)
    then Raises ZeroDivisionError
    else Returns
           (filter (λ c, passes_filters min_amount max_amount category
                           payment_freq duration c
                         ∧ (availability ≠ "All" →
                            in_availability_band availability c))
              committees).
Proof.
  unfold apply_committee_filters.
  match goal with |- for_loop _ ?b _ = _ => set (body := b) end.
  assert (∀ filtered c,
    body filtered c
    = if decide (passes_filters min_amount max_amount category payment_freq
                   duration c)
      then if decide (availability ≠ "All")
           then if decide (Committee.total_members c = 0)
                then Raises ZeroDivisionError
                else if decide (in_availability_band availability c)
                     then Returns (filtered ++ [c])
                     else Returns filtered
           else Returns (filtered ++ [c])
      else Returns filtered) as Hbody.
  { intros filtered c. subst body. cbn beta.
    rewrite availability_skip_test.
    unfold passes_filters, within_duration.
    repeat (case_decide || case_bool_decide); try done;
      try (exfalso; intuition (lia || congruence); fail).
    all: exfalso;
      match goal with H : ¬ (_ ≤ _ ≤ _ ∧ _) |- _ => apply H end;
      split_and!; try lia.
    all: try (destruct (decide (category = "All")); [by left|right];
              destruct (decide (Committee.category c = category));
              [done|exfalso; tauto]).
    all: try (destruct (decide (payment_freq = "All")); [by left|right];
              destruct (decide (Committee.payment_frequency c = payment_freq));
              [done|exfalso; tauto]).
    all: intros Hd;
      match goal with H : ¬ (_ ≠ "All" ∧ (_ ∨ _)) |- _ =>
        apply dec_stable; intros Hn; apply H; subst duration;
        split; [done|]; (by left) || (by right; left) || (right; right; split; [done|lia])
      end. }
  clearbody body.
  enough (∀ filtered,
    for_loop committees body filtered
    = if decide (availability ≠ "All"
                 ∧ Exists (λ c, passes_filters min_amount max_amount category
                                  payment_freq duration c
                                ∧ Committee.total_members c = 0) committees)
      then Raises ZeroDivisionError
      else Returns
             (filtered ++
              filter (λ c, passes_filters min_amount max_amount category
                             payment_freq duration c
                           ∧ (availability ≠ "All" →
                              in_availability_band availability c))
                committees)) as H by apply H.
  induction committees as [|c cs IH]; intros filtered.
  - simpl. rewrite app_nil_r, decide_False; [done|].
    intros [_ H]. by apply Exists_nil in H.
  - cbn [for_loop]. rewrite Hbody, filter_cons.
    repeat (match goal with |- context [decide ?P] => destruct (decide P) end;
            try rewrite IH);
      repeat match goal with
             | H : context [Exists _ (_ :: _)] |- _ => rewrite Exists_cons in H
             end;
      try rewrite <- app_assoc; try done; exfalso; tauto.
Qed.

(** X6. With the availability filter at "All" the filters never raise and
    keep, in their order, exactly the committees whose amount lies between
    the bounds, whose category and payment frequency are the chosen ones
    (or "All" is chosen) and whose duration lies in the chosen band; a
    duration label that is none of the three bands filters nothing. *)
Theorem filters_without_availability (committees : list Committee.t)
    (min_amount max_amount : Z) (category payment_freq duration : string) :
  apply_committee_filters committees min_amount max_amount category
    payment_freq duration "All"
  = Returns (filter (passes_filters min_amount max_amount category
                       payment_freq duration) committees).
Proof.
  rewrite for_loop_filters, decide_False by (by intros [? _]).
  f_equal. apply list_filter_iff. intros c. split; [by intros [? _]|done].
Qed.

(** X7. The filters raise [ZeroDivisionError] exactly when an availability
    band is chosen and some committee that passes the amount, category,
    frequency and duration filters has no seats at all
    ([total_members = 0]); one such committee loses the whole list. *)
Theorem filters_zero_division_iff (committees : list Committee.t)
    (min_amount max_amount : Z)
    (category payment_freq duration availability : string) :
  apply_committee_filters committees min_amount max_amount category
    payment_freq duration availability = Raises ZeroDivisionError
  ↔ availability ≠ "All"
    ∧ ∃ c, c ∈ committees
           ∧ passes_filters min_amount max_amount category payment_freq
               duration c
           ∧ Committee.total_members c = 0.
Proof.
  rewrite for_loop_filters, <- Exists_exists. by case_decide.
Qed.

(** *** Sorting *)

Lemma insert_by_Permutation {A} (le : A → A → Prop)
    `{∀ x y, Decision (le x y)} (x : A) (l : list A) :
  insert_by le x l ≡ₚ x :: l.
Proof.
  induction l as [|y l IH]; simpl; [done|].
  case_decide; [done|]. by rewrite IH, Permutation_swap.
Qed.

Lemma sorted_Permutation {A} (le : A → A → Prop)
    `{∀ x y, Decision (le x y)} (l : list A) :
  sorted le l ≡ₚ l.
Proof.
  induction l as [|x l IH]; [done|].
  unfold sorted in *. simpl. by rewrite insert_by_Permutation, IH.
Qed.

Lemma insert_by_StronglySorted {A} (le : A → A → Prop)
    `{∀ x y, Decision (le x y)} (x : A) (l : list A) :
  (∀ a b, ¬ le a b → le b a) →
  (∀ a b c, le a b → le b c → le a c) →
  StronglySorted le l → StronglySorted le (insert_by le x l).
Proof.
  intros Htotal Htrans. induction 1 as [|y l Hl IH Hy]; simpl.
  - by repeat constructor.
  - case_decide as Hxy.
    + constructor; [by constructor|]. constructor; [done|].
      eapply Forall_impl; [exact Hy|]. intros z Hz. by eapply Htrans.
    + constructor; [done|].
      rewrite insert_by_Permutation. constructor; [by apply Htotal|done].
Qed.

Lemma sorted_StronglySorted {A} (le : A → A → Prop)
    `{∀ x y, Decision (le x y)} (l : list A) :
  (∀ a b, ¬ le a b → le b a) →
  (∀ a b c, le a b → le b c → le a c) →
  StronglySorted le (sorted le l).
Proof.
  intros Htotal Htrans. induction l as [|x l IH]; [constructor|].
  by apply insert_by_StronglySorted.
Qed.

Lemma insert_by_filter {A} (le : A → A → Prop) `{∀ x y, Decision (le x y)}
    (P : A → Prop) `{∀ x, Decision (P x)} (x : A) (l : list A) :
  (∀ y, P x → P y → le x y) →
  filter P (insert_by le x l) = filter P (x :: l).
Proof.
  intros Hclass. induction l as [|y l IH]; simpl; [done|].
  case_decide as Hxy; [done|].
  rewrite (filter_cons _ y), IH, !filter_cons.
  repeat case_decide; try done. exfalso. by apply Hxy, Hclass.
Qed.

Lemma sorted_filter {A} (le : A → A → Prop) `{∀ x y, Decision (le x y)}
    (P : A → Prop) `{∀ x, Decision (P x)} (l : list A) :
  (∀ x y, P x → P y → le x y) →
  filter P (sorted le l) = filter P l.
Proof.
  intros Hclass. induction l as [|x l IH]; [done|].
  unfold sorted in *. simpl.
  rewrite insert_by_filter, !filter_cons, IH by (intros; by apply Hclass).
  done.
Qed.

Lemma sort_committees_Permutation (committees : list Committee.t)
    (sort_by : string) :
  sort_committees committees sort_by ≡ₚ committees.
Proof.
  unfold sort_committees.
  repeat case_decide; try apply sorted_Permutation; done.
Qed.

(** X8. [sort_committees] rearranges and never drops or repeats a committee;
    the result is ordered by the chosen criterion: newest first, amount
    ascending, amount descending, or most free seats first; under any other
    label the list comes back as it was. *)
Theorem sort_committees_sorted (committees : list Committee.t) :
  (∀ sort_by, sort_committees committees sort_by ≡ₚ committees)
  ∧ StronglySorted Pg.newest_first
      (sort_committees committees "Newest First")
  ∧ StronglySorted amount_ascending
      (sort_committees committees "Amount (Low to High)")
  ∧ StronglySorted amount_descending
      (sort_committees committees "Amount (High to Low)")
  ∧ StronglySorted most_available_first
      (sort_committees committees "Most Available")
  ∧ ∀ sort_by,
      sort_committees committees sort_by = committees
      ∨ sort_by ∈ ["Newest First"; "Amount (Low to High)";
                   "Amount (High to Low)"; "Most Available"].
Proof.
  split; [intros; apply sort_committees_Permutation|].
  unfold sort_committees. simpl.
  split_and!.
  - apply sorted_StronglySorted; unfold Pg.newest_first, datetime.le; lia.
  - apply sorted_StronglySorted; unfold amount_ascending; lia.
  - apply sorted_StronglySorted; unfold amount_descending; lia.
  - apply sorted_StronglySorted; unfold most_available_first; lia.
  - intros sort_by. rewrite !elem_of_cons.
    repeat case_decide; tauto.
Qed.

(** X9. The sort is stable under every criterion, descending ones
    included: committees that tie on the key (creation date, amount, or free
    seats) keep the order they had in the input. *)
Theorem sort_committees_stable (committees : list Committee.t) :
  (∀ date,
     filter (λ c, Committee.created_date c = date)
       (sort_committees committees "Newest First")
     = filter (λ c, Committee.created_date c = date) committees)
  ∧ (∀ amount,
       filter (λ c, Committee.monthly_amount c = amount)
         (sort_committees committees "Amount (Low to High)")
       = filter (λ c, Committee.monthly_amount c = amount) committees)
  ∧ (∀ amount,
       filter (λ c, Committee.monthly_amount c = amount)
         (sort_committees committees "Amount (High to Low)")
       = filter (λ c, Committee.monthly_amount c = amount) committees)
  ∧ (∀ seats,
       filter (λ c, Committee.total_members c - Committee.current_members c
                    = seats)
         (sort_committees committees "Most Available")
       = filter (λ c, Committee.total_members c - Committee.current_members c
                      = seats) committees).
Proof.
  unfold sort_committees. simpl. split_and!; intros k; apply sorted_filter.
  - intros x y Hx Hy. unfold Pg.newest_first, datetime.le.
    rewrite Hx, Hy. lia.
  - intros x y Hx Hy. unfold amount_ascending. lia.
  - intros x y Hx Hy. unfold amount_descending. lia.
  - intros x y Hx Hy. unfold most_available_first. lia.
Qed.

(** *** Browsing a reachable store *)

Lemma public_committees_stored_open (self : DatabaseManager.t)
    (user_id : string) (c : Committee.t) :
  c ∈ DatabaseManager.get_public_committees_for_user self user_id →
  c ∈ DatabaseManager.committees self
  ∧ Committee.current_members c < Committee.total_members c.
Proof.
  destruct self as [db|s]; simpl.
  - unfold Pg.get_public_committees_for_user.
    rewrite merge_sort_Permutation, list_elem_of_filter. tauto.
  - unfold Fallback.get_public_committees_for_user.
    rewrite list_elem_of_filter. tauto.
Qed.

(** X10. Browsing never divides by zero on a store the manager can reach:
    whatever the filters and the sort order, the filters return, and every
    committee listed is one of the user's public committees, passes the
    amount, category, frequency and duration filters and has seats, so the
    fill percentage of its card is defined as well. *)
Theorem browse_committees_defined (self : DatabaseManager.t)
    (user_id : string) (min_amount max_amount : Z)
    (category payment_freq duration availability sort_by : string) :
  DatabaseManager.reachable self →
  ∃ filtered,
    apply_committee_filters
      (DatabaseManager.get_public_committees_for_user self user_id)
      min_amount max_amount category payment_freq duration availability
    = Returns filtered
    ∧ ∀ c, c ∈ sort_committees filtered sort_by →
        c ∈ DatabaseManager.get_public_committees_for_user self user_id
        ∧ passes_filters min_amount max_amount category payment_freq
            duration c
        ∧ 0 < Committee.current_members c < Committee.total_members c.
Proof.
  intros Hinv%manager_inv_reachable%manager_inv_store.
  eexists. split.
  - rewrite for_loop_filters, decide_False; [done|].
    intros (_ & (c & Hc & _ & Hzero)%Exists_exists).
    apply public_committees_stored_open in Hc as [Hc Hopen].
    apply (inv_count _ _ Hinv) in Hc. lia.
  - intros c Hc. rewrite sort_committees_Permutation in Hc.
    apply list_elem_of_filter in Hc as [[Hpass _] Hc].
    split_and!; try done.
    + apply public_committees_stored_open in Hc as [Hc _].
      apply (inv_count _ _ Hinv) in Hc. lia.
    + by apply public_committees_stored_open in Hc as [_ Hopen].
Qed.

Lemma manager_with_public_committee_reachable :
  DatabaseManager.reachable manager_with_public_committee.
Proof.
  exists (DatabaseManager.Disconnected initial_fallback). split.
  - apply initial_fallback_initial.
  - apply rtc_once. apply DatabaseManager.step_create_committee.
    + repeat split; decide_by_computation.
    + repeat split; decide_by_computation.
    + done.
Defined.

Lemma browse_committees_defined_witness :
  ∃ filtered,
    apply_committee_filters
      (DatabaseManager.get_public_committees_for_user
         manager_with_public_committee "member-id")
      0 50000 "All" "All" "All" "Just Started (<50%)"
    = Returns filtered
    ∧ ∀ c, c ∈ sort_committees filtered "Most Available" →
        c ∈ DatabaseManager.get_public_committees_for_user
              manager_with_public_committee "member-id"
        ∧ passes_filters 0 50000 "All" "All" "All" c
        ∧ 0 < Committee.current_members c < Committee.total_members c.
Proof.
  apply (browse_committees_defined manager_with_public_committee "member-id"
           0 50000 "All" "All" "All" "Just Started (<50%)" "Most Available").
  apply manager_with_public_committee_reachable.
Defined.

(** ** Signing up and logging in *)

Lemma dict_get_dict_set {V} (k : string) (v : V) (d : pydict V) :
  dict_get k (dict_set k v d) = Some v.
Proof.
  induction d as [|[k' v'] d IH]; simpl.
  - by rewrite decide_True.
  - case_decide as Hk; simpl; [by rewrite decide_True|].
    by rewrite decide_False.
Qed.

Lemma filter_app_unique {A} (P : A → Prop) `{∀ x, Decision (P x)}
    (l : list A) (v : A) :
  P v → (∀ x, x ∈ l → ¬ P x) → filter P (l ++ [v]) = [v].
Proof.
  intros Hv Hl. rewrite filter_app, (filter_head_nil P l Hl).
  by rewrite filter_cons, decide_True.
Qed.


Lemma filter_dict_set_unique {V} (P : V → Prop) `{∀ x, Decision (P x)}
    (k : string) (v : V) (d : pydict V) :
  P v → (∀ x, x ∈ dict_values d → ¬ P x) →
  filter P (dict_values (dict_set k v d)) = [v].
Proof.
  unfold dict_values. intros Hv. induction d as [|[k' v'] d IH]; intros Hd.
  - simpl. by rewrite filter_cons, decide_True.
  - cbn [dict_set]. case_decide as Hk.
    + rewrite fmap_cons, filter_cons, decide_True by done. simpl. f_equal.
      apply filter_head_nil. intros x Hx. apply Hd. rewrite fmap_cons.
      by right.
    + rewrite fmap_cons, filter_cons, decide_False.
      * apply IH. intros x Hx. apply Hd. rewrite fmap_cons. by right.
      * apply Hd. rewrite fmap_cons. left.
Qed.


(** X11. A taken user name is refused on both branches: [create_user]
    returns [False] without raising and the store stays as it was; on the
    database the [UNIQUE] violation is caught and rolled back. *)
Theorem create_user_taken_username (self : DatabaseManager.t)
    (username password_hash full_name email phone role : string)
    (cnic : option string) (user_id : string) (now : datetime.t) :
  (∃ u, u ∈ DatabaseManager.users self ∧ User.username u = username) →
  DatabaseManager.create_user self username password_hash full_name email
    phone role cnic user_id now
  = (self, Ok false).
Proof.
  intros Htaken%Exists_exists. destruct self as [db|s]; simpl in *.
  - unfold DatabaseManager.on_db, Pg.create_user. pg_run.
    unfold Pg.insert_user. rewrite decide_True by by right. done.
  - unfold DatabaseManager.on_fallback, Fallback.create_user.
    by rewrite decide_True.
Qed.

Lemma create_user_taken_username_witness :
  DatabaseManager.create_user (DatabaseManager.Disconnected initial_fallback)
    "demo_admin" Fallback.demo_password_hash "Another Admin"
    "other@civitas.pk" "+92-300-0000000" "admin" None "other-id"
    (datetime.of_ymd 2025 1 2)
  = (DatabaseManager.Disconnected initial_fallback, Ok false).
Proof.
  apply create_user_taken_username.
  eexists. split; [vm_compute; left|reflexivity].
Defined.



(** ** Joining, deleting and editing committees *)

Lemma head_filter_fmap {A} (P : A → Prop) `{∀ x, Decision (P x)}
    (f : A → A) (l : list A) :
  (∀ x, P (f x) ↔ P x) →
  head (filter P (f <$> l)) = f <$> head (filter P l).
Proof.
  intros Hf. induction l as [|x l IH]; [done|].
  rewrite fmap_cons, !filter_cons.
  destruct (decide (P x)) as [Hx|Hx].
  - by rewrite decide_True by by apply Hf.
  - by rewrite decide_False by by rewrite Hf.
Qed.

Lemma Pg_get_user_committees_elem (db : Pg.Database) (user_id : string)
    (c : Committee.t) (m : Member.t) :
  c ∈ Pg.committees db → m ∈ Pg.committee_members db →
  Committee.id c = Member.committee_id m → Member.user_id m = user_id →
  c ∈ Pg.get_user_committees db user_id.
Proof.
  intros Hc Hm Hid Hu. unfold Pg.get_user_committees.
  rewrite merge_sort_Permutation. apply list_elem_of_bind. exists c.
  split; [|done]. apply list_elem_of_bind. exists m. split; [|done].
  rewrite decide_True by done. left.
Qed.

Lemma Fallback_get_user_committees_elem (s : Fallback.t) (user_id : string)
    (c : Committee.t) (m : Member.t) :
  m ∈ dict_values (Fallback.committee_members s) →
  dict_get (Member.committee_id m) (Fallback.committees s) = Some c →
  Member.user_id m = user_id →
  c ∈ Fallback.get_user_committees s user_id.
Proof.
  intros Hm Hget Hu. unfold Fallback.get_user_committees.
  apply list_elem_of_bind. exists m. split; [|done].
  rewrite decide_True by done. rewrite Hget. left.
Qed.

(** X13. A successful [join_committee] seats the user at the end of the
    queue: the committee had a free seat and the user no membership in it,
    the stored count goes up by one, the position the user now holds is the
    new count, and the committee is among the user's committees. *)
Theorem join_committee_success (self self' : DatabaseManager.t)
    (committee_id user_id member_id : string) (now : datetime.t) :
  DatabaseManager.join_committee self committee_id user_id member_id now
  = (self', Ok true) →
  ∃ c,
    DatabaseManager.find_committee self committee_id = Some c
    ∧ Committee.current_members c < Committee.total_members c
    ∧ ¬ DatabaseManager.is_member self committee_id user_id
    ∧ DatabaseManager.find_committee self' committee_id
      = Some (Committee.set_current_members
                (Committee.current_members c + 1) c)
    ∧ DatabaseManager.get_member_position_in_committee self' committee_id
        user_id
      = Committee.current_members c + 1
    ∧ Committee.set_current_members (Committee.current_members c + 1) c
      ∈ DatabaseManager.get_user_committees self' user_id.
Proof.
  destruct self as [db|s]; simpl.
  - unfold DatabaseManager.on_db, Pg.join_committee. pg_run.
    rewrite select_members_count_find. simpl.
    destruct (head _) as [c|] eqn:Hfind; simpl; [|done].
    case_decide as Hfull; [done|].
    unfold Pg.insert_committee_member.
    case_decide as Hins; simpl; [done|]. intros [= <-].
    exists c. simpl.
    assert (Committee.id c = committee_id) as Hid.
    { apply head_Some in Hfind as [l Hl].
      by apply filter_head_elem in Hl as [_ ?]. }
    assert (∀ m, m ∈ Pg.committee_members db →
                 ¬ (Member.committee_id m = committee_id
                    ∧ Member.user_id m = user_id)) as Hseat.
    { intros m Hm Hcu. apply Hins. do 3 right. apply Exists_exists.
      by exists m. }
    assert (c ∈ Pg.committees db) as Hc.
    { apply head_Some in Hfind as [l Hl].
      by apply filter_head_elem in Hl as [? _]. }
    split_and!; [done|lia| | | |].
    + intros (m & Hm & Hcu). by apply (Hseat m).
    + rewrite head_filter_fmap, Hfind; simpl.
      * by rewrite decide_True.
      * intros x. by case_decide.
    + unfold Pg.get_member_position_in_committee. simpl.
      by rewrite filter_app_unique.
    + apply (Pg_get_user_committees_elem _ _ _
               (Member.mk member_id committee_id user_id
                  (Committee.current_members c + 1) now)); simpl;
        [|apply elem_of_app; right; left|done|done].
      apply list_elem_of_fmap. exists c. by rewrite decide_True.
  - unfold DatabaseManager.on_fallback, Fallback.join_committee.
    destruct (dict_get committee_id (Fallback.committees s)) as [c|] eqn:Hget;
      simpl; [|done].
    case_decide as Hopen; simpl; [|done].
    case_decide as Hseat; simpl; [done|]. intros [= <-].
    exists c. cbn [DatabaseManager.find_committee
                   DatabaseManager.get_member_position_in_committee
                   DatabaseManager.get_user_committees].
    unfold Fallback.get_member_position_in_committee.
    split_and!; [done|done| | | |].
    + intros (m & Hm & Hcu). apply Hseat, Exists_exists. by exists m.
    + apply dict_get_dict_set.
    + cbn [Fallback.committees Fallback.committee_members
           Fallback.set_committees Fallback.set_committee_members].
      rewrite filter_dict_set_unique; [done|done|].
      intros m Hm Hcu. apply Hseat, Exists_exists. by exists m.
    + apply (Fallback_get_user_committees_elem _ _ _
               (Member.mk member_id committee_id user_id
                  (Committee.current_members c + 1) now));
        [|apply dict_get_dict_set|done].
      apply elem_of_dict_values. exists member_id.
      apply elem_of_dict_set_new.
Qed.

Lemma join_committee_success_witness :
  let self := DatabaseManager.Connected database_with_open_committee in
  let self' :=
    (DatabaseManager.join_committee self "committee-id" "bilal-id"
       "membership-2" (datetime.of_ymd 2025 1 2)).1 in
  ∃ c,
    DatabaseManager.find_committee self "committee-id" = Some c
    ∧ Committee.current_members c < Committee.total_members c
    ∧ ¬ DatabaseManager.is_member self "committee-id" "bilal-id"
    ∧ DatabaseManager.find_committee self' "committee-id"
      = Some (Committee.set_current_members
                (Committee.current_members c + 1) c)
    ∧ DatabaseManager.get_member_position_in_committee self' "committee-id"
        "bilal-id"
      = Committee.current_members c + 1
    ∧ Committee.set_current_members (Committee.current_members c + 1) c
      ∈ DatabaseManager.get_user_committees self' "bilal-id".
Proof.
  apply (join_committee_success
           (DatabaseManager.Connected database_with_open_committee) _
           "committee-id" "bilal-id" "membership-2"
           (datetime.of_ymd 2025 1 2)).
  reflexivity.
Defined.

(** X14. Deleting a committee that has been invited to: the database
    refuses, since [delete_committee] removes payments, payouts and
    memberships but not the invitations that still reference the committee;
    the violation is caught, everything is rolled back and the answer is
    [False]. The fallback deletes the committee, answers [True] and keeps the
    invitations. *)
Theorem delete_committee_with_invitation (self : DatabaseManager.t)
    (committee_id : string) (c : Committee.t) :
  DatabaseManager.find_committee self committee_id = Some c →
  (∃ i, i ∈ DatabaseManager.invitations self
        ∧ Invitation.committee_id i = committee_id) →
  match self with
  | DatabaseManager.Connected _ =>
      DatabaseManager.delete_committee self committee_id = (self, Ok false)
  | DatabaseManager.Disconnected _ =>
      ∃ self',
        DatabaseManager.delete_committee self committee_id = (self', Ok true)
        ∧ DatabaseManager.find_committee self' committee_id = None
        ∧ DatabaseManager.invitations self' = DatabaseManager.invitations self
  end.
Proof.
  intros Hfind Hinv. destruct self as [db|s]; simpl in *.
  - unfold DatabaseManager.on_db, Pg.delete_committee. pg_run. simpl.
    unfold Pg.delete_committees. rewrite decide_True; [done|].
    apply head_Some in Hfind as [l Hl].
    apply filter_head_elem in Hl as [Hc Hid].
    split.
    + apply Exists_exists. by exists c.
    + do 3 right. by apply Exists_exists.
  - unfold DatabaseManager.on_fallback, Fallback.delete_committee.
    rewrite Hfind. eexists. split; [done|]. simpl. split; [|done].
    apply dict_get_None. unfold dict_keys, dict_del.
    intros ([k v] & -> & [Hne _]%list_elem_of_filter)%list_elem_of_fmap.
    done.
Qed.

Lemma delete_committee_with_invitation_witness :
  DatabaseManager.delete_committee
    (DatabaseManager.Connected database_with_invitation) "committee-id"
  = (DatabaseManager.Connected database_with_invitation, Ok false).
Proof.
  apply (delete_committee_with_invitation
           (DatabaseManager.Connected database_with_invitation) "committee-id"
           (Committee.mk "committee-id" "Neighbours" None 5000 3 1 6 "public"
              "General" "monthly" "active" "amina-id"
              (datetime.of_ymd 2025 1 1))).
  - reflexivity.
  - eexists. split; [vm_compute; left|reflexivity].
Defined.

Lemma dict_set_same_terms {V} (R : V → V → Prop) (k : string) (v v' : V)
    (d : pydict V) :
  (∀ x, R x x) → dict_get k d = Some v → R v v' →
  Forall2 R (dict_values d) (dict_values (dict_set k v' d)).
Proof.
  unfold dict_values. intros Hrefl Hget Hv.
  induction d as [|[k0 v0] d IH]; [done|].
  simpl in Hget. cbn [dict_set]. case_decide as Hk.
  - injection Hget as ->. rewrite !fmap_cons. constructor; [done|].
    by apply Forall_Forall2_diag, Forall_true.
  - rewrite !fmap_cons. constructor; [done|]. by apply IH.
Qed.

(** X15. Editing the settings never touches the money or the seats: after
    [update_committee_settings], successful or not, the store holds the same
    committees in the same order, each with the identifier, monthly amount,
    seat counts, duration, admin and creation date it had, and the
    memberships are as they were. *)
Theorem update_committee_settings_keeps_terms (self : DatabaseManager.t)
    (committee_id title : string) (description : option string)
    (status payment_frequency category committee_type : string) :
  let self' :=
    (DatabaseManager.update_committee_settings self committee_id title
       description status payment_frequency category committee_type).1 in
  Forall2 same_terms (DatabaseManager.committees self)
    (DatabaseManager.committees self')
  ∧ DatabaseManager.memberships self' = DatabaseManager.memberships self.
Proof.
  assert (∀ c, same_terms c c) as Hrefl by (by intros c; repeat split).
  destruct self as [db|s]; simpl.
  - unfold Pg.update_committee_settings. pg_run. simpl. split; [|done].
    apply Forall2_fmap_r, Forall_Forall2_diag, Forall_forall.
    intros c _. unfold compose. case_decide; [by repeat split|done].
  - unfold Fallback.update_committee_settings.
    destruct (dict_get committee_id (Fallback.committees s)) as [c|] eqn:Hget;
      simpl.
    + split; [|done]. apply (dict_set_same_terms _ _ c); [done|done|].
      by repeat split.
    + split; [|done]. by apply Forall_Forall2_diag, Forall_true.
Qed.

(** ** The payout queue of every committee *)

(** *** The changes keep the queues in order *)

Lemma NoDup_fmap_inj_on {A B} (f : A → B) (l : list A) (x y : A) :
  NoDup (f <$> l) → x ∈ l → y ∈ l → f x = f y → x = y.
Proof.
  induction l as [|z l IH]; [by intros _ ?%elem_of_nil|].
  rewrite fmap_cons, NoDup_cons, !elem_of_cons.
  intros [Hz Hl] [->|Hx] [->|Hy] Hf; try done.
  - destruct Hz. rewrite Hf. by apply list_elem_of_fmap_2.
  - destruct Hz. rewrite <- Hf. by apply list_elem_of_fmap_2.
  - by apply IH.
Qed.

Lemma queue_inv_change (cs cs' : list Committee.t) (ms ms' : list Member.t) :
  queue_inv cs ms → store_change cs ms cs' ms' → queue_inv cs' ms'.
Proof.
  intros [Hids Hrefs Hqueue Hcap] Hchange.
  destruct Hchange as
    [|c m Hfresh Hmc Hmu Hpos Hone|c m Hc Hopen Hmc Hpos
     |cid title description status payment_frequency category committee_type
     |cid].
  - done.
  - split.
    + rewrite fmap_app. apply NoDup_app. split; [done|].
      split; [|apply NoDup_singleton].
      intros x Hx ->%list_elem_of_singleton. done.
    + intros x [Hx| ->%list_elem_of_singleton]%elem_of_app;
        rewrite fmap_app, elem_of_app.
      * left. by apply Hrefs.
      * right. rewrite Hmc. by left.
    + intros c0 [Hc0| ->%list_elem_of_singleton]%elem_of_app;
        rewrite filter_app, fmap_app, filter_cons.
      * rewrite decide_False.
        { rewrite filter_nil, app_nil_r. by apply Hqueue. }
        rewrite Hmc. intros Heq. apply Hfresh. rewrite Heq.
        by apply list_elem_of_fmap_2.
      * rewrite decide_True by done.
        rewrite (filter_head_nil _ ms); [simpl; by rewrite Hpos, Hone|].
        intros x Hx Heq. apply Hfresh. rewrite <- Heq. by apply Hrefs.
    + intros c0 [Hc0| ->%list_elem_of_singleton]%elem_of_app;
        [by apply Hcap | lia].
  - set (f := λ x, if decide (Committee.id x = Committee.id c)
                   then Committee.set_current_members
                          (Committee.current_members x + 1) x
                   else x).
    assert (∀ x, Committee.id (f x) = Committee.id x) as Hfid.
    { intros x. unfold f. case_decide; reflexivity. }
    assert (Committee.id <$> (f <$> cs) = Committee.id <$> cs) as Hfids.
    { rewrite <- list_fmap_compose. apply list_fmap_ext. intros ? x _. apply Hfid. }
    split.
    + by rewrite Hfids.
    + rewrite Hfids. intros x [Hx| ->%list_elem_of_singleton]%elem_of_app.
      * by apply Hrefs.
      * rewrite Hmc. by apply list_elem_of_fmap_2.
    + intros c0' (c0 & -> & Hc0)%list_elem_of_fmap.
      rewrite Hfid, filter_app, fmap_app, filter_cons. unfold f.
      destruct (decide (Committee.id c0 = Committee.id c)) as [Heq|Hne].
      * assert (c0 = c) as -> by by eapply (NoDup_fmap_inj_on Committee.id cs).
        rewrite decide_True by done. rewrite Hqueue by done. simpl.
        rewrite Hpos. pose proof (Hcap c Hc).
        rewrite (seqZ_app 1 (Committee.current_members c) 1) by lia.
        f_equal. rewrite seqZ_cons, seqZ_nil by lia. f_equal. lia.
      * rewrite decide_False by congruence.
        rewrite filter_nil, app_nil_r. by apply Hqueue.
    + intros c0' (c0 & -> & Hc0)%list_elem_of_fmap. unfold f.
      pose proof (Hcap c0 Hc0). case_decide as Heq; [|done]. simpl.
      assert (c0 = c) as -> by by eapply (NoDup_fmap_inj_on Committee.id cs).
      lia.
  - set (f := λ x, if decide (Committee.id x = cid)
                   then Committee.set_settings title description status
                          payment_frequency category committee_type x
                   else x).
    assert (∀ x, Committee.id (f x) = Committee.id x) as Hfid
      by (intros x; unfold f; case_decide; reflexivity).
    assert (Committee.id <$> (f <$> cs) = Committee.id <$> cs) as Hfids.
    { rewrite <- list_fmap_compose. apply list_fmap_ext. intros ? x _. apply Hfid. }
    split.
    + by rewrite Hfids.
    + by rewrite Hfids.
    + intros c0' (c0 & -> & Hc0)%list_elem_of_fmap.
      rewrite Hfid, (Hqueue c0 Hc0). unfold f. by case_decide.
    + intros c0' (c0 & -> & Hc0)%list_elem_of_fmap.
      pose proof (Hcap c0 Hc0). unfold f. by case_decide.
  - split.
    + eapply sublist_NoDup; [exact Hids|].
      apply fmap_sublist, sublist_filter.
    + intros m [Hne Hm]%list_elem_of_filter.
      apply Hrefs in Hm as (c & Hid & Hc)%list_elem_of_fmap.
      apply list_elem_of_fmap. exists c. split; [done|].
      apply list_elem_of_filter. split; [congruence|done].
    + intros c [Hne Hc]%list_elem_of_filter.
      rewrite list_filter_filter_l by (intros m ->; done).
      by apply Hqueue.
    + intros c [Hne Hc]%list_elem_of_filter. by apply Hcap.
Qed.

(** *** Every call is one of the changes: the database *)

Lemma Pg_join_statements_change (db dbi : Pg.Database)
    (committee_id user_id member_id : string) (now : datetime.t)
    (current total : Z) :
  Pg.committees dbi = Pg.committees db →
  Pg.committee_members dbi = Pg.committee_members db →
  Pg.select_members_count committee_id dbi = Some (current, total) →
  ¬ total ≤ current →
  match Pg.insert_committee_member member_id committee_id user_id
          (current + 1) now dbi with
  | Ok (_, db1) =>
      match Pg.increment_current_members committee_id db1 with
      | Ok (_, db2) =>
          store_change (Pg.committees db) (Pg.committee_members db)
            (Pg.committees db2) (Pg.committee_members db2)
      | Raise _ => False
      end
  | Raise _ => True
  end.
Proof.
  intros Hcs Hms Hsel Hopen.
  apply select_members_count_Some in Hsel as (c & Hc & Hid & Hcur & Htot).
  unfold Pg.insert_committee_member. case_decide as Hins; [done|].
  simpl. rewrite Hcs, Hms. subst committee_id current total.
  by apply (change_join _ _ c
              (Member.mk member_id (Committee.id c) user_id
                 (Committee.current_members c + 1) now));
    [by rewrite <- Hcs|lia|done|done].
Qed.

Lemma Pg_create_committee_change (db : Pg.Database) title description
    monthly_amount total_members duration committee_type category
    payment_frequency admin_id committee_id member_id now :
  let db' := (Pg.create_committee db title description monthly_amount
                total_members duration committee_type category
                payment_frequency admin_id committee_id member_id now).1 in
  store_change (Pg.committees db) (Pg.committee_members db)
    (Pg.committees db') (Pg.committee_members db').
Proof.
  unfold Pg.create_committee. pg_run. unfold Pg.insert_committee.
  case_decide as Hc; simpl; [constructor|].
  unfold Pg.insert_committee_member. case_decide as Hm; simpl; [constructor|].
  apply change_create; try done.
  intros (c & Hid & Hin)%list_elem_of_fmap. apply Hc. left.
  apply Exists_exists. by exists c.
Qed.

Lemma Pg_join_committee_change (db : Pg.Database) committee_id user_id
    member_id now :
  let db' := (Pg.join_committee db committee_id user_id member_id now).1 in
  store_change (Pg.committees db) (Pg.committee_members db)
    (Pg.committees db') (Pg.committee_members db').
Proof.
  unfold Pg.join_committee. pg_run.
  destruct (Pg.select_members_count committee_id db) as [[current total]|]
    eqn:Hsel; simpl; [|constructor].
  case_decide as Hfull; simpl; [constructor|].
  pose proof (Pg_join_statements_change db db committee_id user_id member_id
                now current total eq_refl eq_refl Hsel Hfull) as Hjoin.
  destruct (Pg.insert_committee_member _ _ _ _ _ db) as [[[] db1]|e];
    simpl; [|destruct e; constructor].
  exact Hjoin.
Qed.

Lemma Pg_respond_to_invitation_change (db : Pg.Database) invitation_id
    response now member_id now_joined :
  let db' := (Pg.respond_to_invitation db invitation_id response now member_id
                now_joined).1 in
  store_change (Pg.committees db) (Pg.committee_members db)
    (Pg.committees db') (Pg.committee_members db').
Proof.
  unfold Pg.respond_to_invitation, Pg._join_committee_internal. pg_run.
  unfold Pg.update_pending_invitation. simpl.
  case_decide as Hrows; [constructor|].
  case_decide as Hresp; simpl; [|constructor].
  destruct (Pg.select_invitation _ _) as [[cid uid]|]; simpl; [|constructor].
  set (dbi := Pg.set_committee_invitations _ db).
  destruct (Pg.select_members_count cid dbi) as [[current total]|] eqn:Hsel;
    simpl; [|constructor].
  case_decide as Hfull; simpl; [constructor|].
  pose proof (Pg_join_statements_change db dbi cid uid member_id now_joined
                current total eq_refl eq_refl Hsel Hfull) as Hjoin.
  destruct (Pg.insert_committee_member _ _ _ _ _ dbi) as [[[] db1]|e];
    simpl; [|destruct e; constructor].
  exact Hjoin.
Qed.

Lemma Pg_delete_committee_change (db : Pg.Database) committee_id :
  let db' := (Pg.delete_committee db committee_id).1 in
  store_change (Pg.committees db) (Pg.committee_members db)
    (Pg.committees db') (Pg.committee_members db').
Proof.
  unfold Pg.delete_committee. pg_run. simpl.
  unfold Pg.delete_committees. case_decide as Href; simpl; constructor.
Qed.

Lemma Pg_update_committee_settings_change (db : Pg.Database) committee_id
    title description status payment_frequency category committee_type :
  let db' := (Pg.update_committee_settings db committee_id title description
                status payment_frequency category committee_type).1 in
  store_change (Pg.committees db) (Pg.committee_members db)
    (Pg.committees db') (Pg.committee_members db').
Proof. unfold Pg.update_committee_settings. pg_run. simpl. constructor. Qed.

(** *** Every call is one of the changes: the fallback *)

Lemma fmap_id_on {A} (g : A → A) (l : list A) :
  (∀ x, x ∈ l → g x = x) → g <$> l = l.
Proof.
  intros Hg. induction l as [|x l IH]; [done|].
  rewrite fmap_cons, Hg by left. f_equal. apply IH. intros y Hy. apply Hg.
  by right.
Qed.

Lemma filter_ext_in {A} (P Q : A → Prop) `{∀ x, Decision (P x)}
    `{∀ x, Decision (Q x)} (l : list A) :
  (∀ x, x ∈ l → P x ↔ Q x) → filter P l = filter Q l.
Proof.
  intros HPQ. induction l as [|x l IH]; [done|].
  rewrite !filter_cons, IH by (intros y Hy; apply HPQ; by right).
  destruct (decide (P x)) as [HP|HP].
  - by rewrite decide_True by (by apply HPQ; [left|]).
  - rewrite decide_False; [done|]. intros HQ. apply HP, HPQ; [left|done].
Qed.

Lemma dict_values_filter {V} (Q : V → Prop) `{∀ x, Decision (Q x)}
    (d : pydict V) :
  dict_values (filter (λ kv, Q kv.2) d) = filter Q (dict_values d).
Proof.
  unfold dict_values. induction d as [|[k v] d IH]; [done|].
  rewrite fmap_cons, !filter_cons. simpl.
  case_decide; [rewrite fmap_cons|]; by rewrite IH.
Qed.

Lemma dict_keys_ids {V} (key : V → string) (d : pydict V) :
  (∀ k v, (k, v) ∈ d → key v = k) → key <$> dict_values d = dict_keys d.
Proof.
  unfold dict_values, dict_keys. intros Hkey.
  induction d as [|[k v] d IH]; [done|].
  rewrite !fmap_cons. simpl. rewrite (Hkey k v) by left. f_equal.
  apply IH. intros k0 v0 Hin. apply Hkey. by right.
Qed.

Lemma dict_values_dict_set_fresh {V} (k : string) (v : V) (d : pydict V) :
  k ∉ dict_keys d → dict_values (dict_set k v d) = dict_values d ++ [v].
Proof.
  intros Hk. rewrite dict_set_fresh by done. unfold dict_values.
  by rewrite fmap_app.
Qed.

Lemma dict_values_dict_set_map {V} (key : V → string) (f : V → V)
    (k : string) (v : V) (d : pydict V) :
  (∀ k0 v0, (k0, v0) ∈ d → key v0 = k0) →
  NoDup (dict_keys d) →
  dict_get k d = Some v →
  dict_values (dict_set k (f v) d)
  = (λ x, if decide (key x = k) then f x else x) <$> dict_values d.
Proof.
  unfold dict_values, dict_keys. intros Hkey Hnodup Hget.
  induction d as [|[k0 v0] d IH]; [done|].
  rewrite fmap_cons, NoDup_cons in Hnodup. destruct Hnodup as [Hk0 Hd].
  simpl in Hget. cbn [dict_set].
  pose proof (Hkey k0 v0 ltac:(left)) as Hv0.
  case_decide as Hk.
  - injection Hget as ->. subst k0. rewrite !fmap_cons. simpl.
    rewrite decide_True by done. f_equal. symmetry. apply fmap_id_on.
    intros x ([k1 v1] & -> & Hin)%list_elem_of_fmap. simpl.
    rewrite decide_False; [done|]. intros Heq. apply Hk0.
    rewrite (Hkey k1 v1) in Heq by by right. subst k1.
    apply list_elem_of_fmap. by exists (k, v1).
  - rewrite !fmap_cons. simpl. rewrite decide_False by congruence. f_equal.
    apply IH; [|done|done]. intros k1 v1 Hin. apply Hkey. by right.
Qed.

Lemma dict_values_dict_del {V} (key : V → string) (k : string)
    (d : pydict V) :
  (∀ k0 v0, (k0, v0) ∈ d → key v0 = k0) →
  dict_values (dict_del k d) = filter (λ v, key v ≠ k) (dict_values d).
Proof.
  intros Hkey. rewrite <- dict_values_filter. unfold dict_del. f_equal.
  apply filter_ext_in. intros [k0 v0] Hin. simpl.
  by rewrite (Hkey k0 v0 Hin).
Qed.

Lemma filter_all {A} (P : A → Prop) `{∀ x, Decision (P x)} (l : list A) :
  (∀ x, x ∈ l → P x) → filter P l = l.
Proof.
  intros HP. induction l as [|x l IH]; [done|].
  rewrite filter_cons, decide_True by (apply HP; left).
  f_equal. apply IH. intros y Hy. apply HP. by right.
Qed.

Lemma foldl_dict_del_filter {V} (ks : list string) (d : pydict V) :
  foldl (λ ms mid, dict_del mid ms) d ks = filter (λ kv, kv.1 ∉ ks) d.
Proof.
  revert d. induction ks as [|k ks IH]; intros d; simpl.
  - symmetry. apply filter_all. intros x _. apply not_elem_of_nil.
  - rewrite IH. unfold dict_del. rewrite list_filter_filter.
    apply list_filter_iff. intros kv. rewrite not_elem_of_cons. tauto.
Qed.

Lemma dict_values_foldl_dict_del {V} (P : V → Prop) `{∀ x, Decision (P x)}
    (d : pydict V) :
  NoDup (dict_keys d) →
  dict_values
    (foldl (λ ms mid, dict_del mid ms) d (filter (λ kv, P kv.2) d).*1)
  = filter (λ v, ¬ P v) (dict_values d).
Proof.
  intros Hnodup. rewrite foldl_dict_del_filter, <- dict_values_filter.
  f_equal. apply filter_ext_in. intros [k v] Hin. simpl. split.
  - intros Hk HP. apply Hk. apply list_elem_of_fmap. exists (k, v).
    split; [done|]. by apply list_elem_of_filter.
  - intros HP ([k' v'] & Hk & [HP' Hin']%list_elem_of_filter)%list_elem_of_fmap.
    simpl in *. subst k'.
    by rewrite (dict_keys_functional k v v' d Hnodup Hin Hin') in HP.
Qed.

Lemma Fallback_create_committee_change (s : Fallback.t) title description
    monthly_amount total_members duration committee_type category
    payment_frequency admin_id committee_id member_id now_created now_joined :
  (committee_id ∉ dict_keys (Fallback.committees s)) →
  (member_id ∉ dict_keys (Fallback.committee_members s)) →
  fallback_inv s →
  let s' := (Fallback.create_committee s title description monthly_amount
               total_members duration committee_type category
               payment_frequency admin_id committee_id member_id now_created
               now_joined).1 in
  store_change (dict_values (Fallback.committees s))
    (dict_values (Fallback.committee_members s))
    (dict_values (Fallback.committees s'))
    (dict_values (Fallback.committee_members s')).
Proof.
  intros Hcid Hmid Hinv. unfold Fallback.create_committee.
  cbn [fst Fallback.committees Fallback.committee_members
       Fallback.set_committees Fallback.set_committee_members].
  rewrite !dict_values_dict_set_fresh by done.
  apply change_create; try done. simpl.
  by rewrite (dict_keys_ids Committee.id) by apply (inv_key s Hinv).
Qed.

Lemma Fallback_join_committee_change (s : Fallback.t) committee_id user_id
    member_id now :
  (member_id ∉ dict_keys (Fallback.committee_members s)) →
  fallback_inv s →
  NoDup (Committee.id <$> dict_values (Fallback.committees s)) →
  let s' := (Fallback.join_committee s committee_id user_id member_id now).1 in
  store_change (dict_values (Fallback.committees s))
    (dict_values (Fallback.committee_members s))
    (dict_values (Fallback.committees s'))
    (dict_values (Fallback.committee_members s')).
Proof.
  intros Hmid Hinv Hids. unfold Fallback.join_committee.
  destruct (dict_get committee_id (Fallback.committees s)) as [c|] eqn:Hget;
    [|constructor].
  case_decide as Hopen; [|constructor].
  case_decide as Hseat; [constructor|].
  cbn [fst Fallback.committees Fallback.committee_members
       Fallback.set_committees Fallback.set_committee_members].
  assert (Committee.id c = committee_id) as Hid
    by (by apply (inv_key s Hinv), dict_get_Some).
  rewrite (dict_values_dict_set_fresh member_id) by done.
  rewrite (dict_values_dict_set_map Committee.id
             (λ x, Committee.set_current_members
                     (Committee.current_members x + 1) x)
             committee_id c);
    [|apply (inv_key s Hinv)
     |by rewrite <- (dict_keys_ids Committee.id) by apply (inv_key s Hinv)
     |done].
  rewrite <- Hid.
  by apply (change_join _ _ c
              (Member.mk member_id (Committee.id c) user_id
                 (Committee.current_members c + 1) now));
    [by eapply dict_get_value|done|done|done].
Qed.

Lemma Fallback_update_committee_settings_change (s : Fallback.t) committee_id
    title description status payment_frequency category committee_type :
  fallback_inv s →
  NoDup (Committee.id <$> dict_values (Fallback.committees s)) →
  let s' := (Fallback.update_committee_settings s committee_id title
               description status payment_frequency category
               committee_type).1 in
  store_change (dict_values (Fallback.committees s))
    (dict_values (Fallback.committee_members s))
    (dict_values (Fallback.committees s'))
    (dict_values (Fallback.committee_members s')).
Proof.
  intros Hinv Hids. unfold Fallback.update_committee_settings.
  destruct (dict_get committee_id (Fallback.committees s)) as [c|] eqn:Hget;
    [|constructor].
  cbn [fst Fallback.committees Fallback.committee_members
       Fallback.set_committees].
  rewrite (dict_values_dict_set_map Committee.id
             (Committee.set_settings title description status
                payment_frequency category committee_type)
             committee_id c);
    [|apply (inv_key s Hinv)
     |by rewrite <- (dict_keys_ids Committee.id) by apply (inv_key s Hinv)
     |done].
  constructor.
Qed.

Lemma Fallback_delete_committee_change (s : Fallback.t) committee_id :
  fallback_inv s →
  let s' := (Fallback.delete_committee s committee_id).1 in
  store_change (dict_values (Fallback.committees s))
    (dict_values (Fallback.committee_members s))
    (dict_values (Fallback.committees s'))
    (dict_values (Fallback.committee_members s')).
Proof.
  intros Hinv. unfold Fallback.delete_committee.
  destruct (dict_get committee_id (Fallback.committees s)) as [c|] eqn:Hget;
    [|constructor].
  cbn [fst Fallback.committees Fallback.committee_members
       Fallback.set_committees Fallback.set_committee_members].
  rewrite (dict_values_dict_del Committee.id) by apply (inv_key s Hinv).
  pose proof (dict_values_foldl_dict_del
                (λ m, Member.committee_id m = committee_id)
                (Fallback.committee_members s) (inv_member_keys s Hinv))
    as Hdel.
  cbv beta in Hdel. rewrite Hdel. constructor.
Qed.

Lemma Fallback_respond_to_invitation_change (s : Fallback.t) invitation_id
    response now member_id now_joined :
  (member_id ∉ dict_keys (Fallback.committee_members s)) →
  fallback_inv s →
  NoDup (Committee.id <$> dict_values (Fallback.committees s)) →
  let s' := (Fallback.respond_to_invitation s invitation_id response now
               member_id now_joined).1 in
  store_change (dict_values (Fallback.committees s))
    (dict_values (Fallback.committee_members s))
    (dict_values (Fallback.committees s'))
    (dict_values (Fallback.committee_members s')).
Proof.
  intros Hmid Hinv Hids. unfold Fallback.respond_to_invitation.
  destruct (Fallback.fallback_invitations s) as [invs|]; [|constructor].
  destruct (dict_get invitation_id invs) as [inv|]; [|constructor].
  case_decide as Hresp; [|constructor].
  set (s1 := Fallback.set_fallback_invitations _ s).
  apply (Fallback_join_committee_change s1); [done| |done].
  by apply (fallback_inv_same_committees s).
Qed.

(** *** The queues of a reachable store *)

Lemma step_store_change (self self' : DatabaseManager.t) :
  manager_inv self →
  NoDup (Committee.id <$> DatabaseManager.committees self) →
  DatabaseManager.step self self' →
  store_change (DatabaseManager.committees self)
    (DatabaseManager.memberships self)
    (DatabaseManager.committees self') (DatabaseManager.memberships self').
Proof.
  intros Hinv Hids Hstep.
  destruct Hstep as
    [username password_hash full_name email phone role cnic user_id now Hid
    |title description monthly_amount total_members duration committee_type
       category payment_frequency admin_id committee_id member_id now_created
       now_joined Hcid Hmid Hne
    |committee_id user_id member_id now Hmid
    |user_id full_name email phone cnic
    |committee_id title description status payment_frequency category
       committee_type
    |committee_id
    |committee_id invited_user_id invited_by_id message invitation_id now Hid
    |invitation_id response now member_id now_joined Hmid];
    destruct self as [db|s]; simpl in Hinv, Hids.
  - simpl. unfold Pg.create_user. pg_run. unfold Pg.insert_user.
    case_decide; simpl; constructor.
  - simpl. unfold Fallback.create_user. case_decide; constructor.
  - exact (Pg_create_committee_change db title description monthly_amount
             total_members duration committee_type category payment_frequency
             admin_id committee_id member_id now_created).
  - apply Fallback_create_committee_change; [apply Hcid|apply Hmid|done].
  - exact (Pg_join_committee_change db committee_id user_id member_id now).
  - apply Fallback_join_committee_change; [apply Hmid|done|done].
  - simpl. unfold Pg.update_user_profile. pg_run. simpl. constructor.
  - simpl. unfold Fallback.update_user_profile.
    destruct (dict_get _ _); constructor.
  - exact (Pg_update_committee_settings_change db committee_id title
             description status payment_frequency category committee_type).
  - by apply Fallback_update_committee_settings_change.
  - exact (Pg_delete_committee_change db committee_id).
  - by apply Fallback_delete_committee_change.
  - simpl. unfold Pg.send_committee_invitation. pg_run.
    unfold Pg.insert_invitation. case_decide; simpl; constructor.
  - simpl. constructor.
  - exact (Pg_respond_to_invitation_change db invitation_id response now
             member_id now_joined).
  - apply Fallback_respond_to_invitation_change; [apply Hmid|done|done].
Qed.

Lemma queue_inv_initial (self : DatabaseManager.t) :
  DatabaseManager.initial self →
  queue_inv (DatabaseManager.committees self)
    (DatabaseManager.memberships self).
Proof.
  assert (queue_inv [] []) as Hempty.
  { split; [constructor|by intros m ?%elem_of_nil..]. }
  destruct self as [db|s]; simpl.
  - by intros (-> & -> & _).
  - by intros (a & m & t1 & t2 & _ & ->).
Qed.

Lemma queue_inv_reachable (self : DatabaseManager.t) :
  DatabaseManager.reachable self →
  queue_inv (DatabaseManager.committees self)
    (DatabaseManager.memberships self).
Proof.
  intros (self0 & Hinit & Hsteps).
  pose proof (manager_inv_initial _ Hinit) as Hinv.
  apply queue_inv_initial in Hinit.
  induction Hsteps as [|x y z Hxy _ IH]; [done|].
  apply IH.
  - eapply queue_inv_change; [exact Hinit|].
    apply step_store_change; [done|by destruct Hinit|done].
  - by apply (manager_inv_step x).
Qed.







(** X18. No call removes or alters a single membership: from a reachable
    store, whatever method is called next, every membership is still there
    unchanged, same position included, unless its whole committee has been
    deleted. *)
Theorem memberships_are_kept (self self' : DatabaseManager.t) (m : Member.t) :
  DatabaseManager.reachable self →
  DatabaseManager.step self self' →
  m ∈ DatabaseManager.memberships self →
  m ∈ DatabaseManager.memberships self'
  ∨ (Member.committee_id m ∉ Committee.id <$> DatabaseManager.committees self').
Proof.
  intros Hreach Hstep Hm.
  pose proof (queue_inv_reachable _ Hreach) as Hqueue.
  pose proof (step_store_change self self' (manager_inv_reachable _ Hreach)
                (inv_ids _ _ Hqueue) Hstep) as Hchange.
  destruct Hchange as
    [|c0 m0 _ _ _ _ _|c0 m0 _ _ _ _
     |cid title description status payment_frequency category committee_type
     |cid].
  - by left.
  - left. apply elem_of_app. by left.
  - left. apply elem_of_app. by left.
  - by left.
  - destruct (decide (Member.committee_id m = cid)) as [Heq|Hne].
    + right. intros (c & Hid & [Hc _]%list_elem_of_filter)%list_elem_of_fmap.
      congruence.
    + left. by apply list_elem_of_filter.
Qed.

Lemma memberships_are_kept_witness :
  let self' :=
    (DatabaseManager.join_committee manager_with_committee "committee-id"
       "member-id" "membership-2" (datetime.of_ymd 2025 1 2)).1 in
  let m :=
    Member.mk "membership-1" "committee-id" "admin-id" 1
      (datetime.of_ymd 2025 1 1) in
  m ∈ DatabaseManager.memberships self'
  ∨ (Member.committee_id m ∉ Committee.id <$> DatabaseManager.committees self').
Proof.
  apply (memberships_are_kept manager_with_committee).
  - apply manager_with_committee_reachable.
  - apply DatabaseManager.step_join_committee.
    repeat split; decide_by_computation.
  - vm_compute. left.
Defined.

Lemma dict_get_dict_del {V} (k : string) (d : pydict V) :
  dict_get k (dict_del k d) = None.
Proof.
  apply dict_get_None. unfold dict_keys, dict_del.
  by intros ([k0 v] & -> & [Hne _]%list_elem_of_filter)%list_elem_of_fmap.
Qed.

(** X19. A successful [delete_committee] on a reachable store removes the
    committee and exactly the memberships of that committee: the other
    committees and memberships stay, in their order, the users are
    untouched, and the committee can no longer be found. *)
Theorem delete_committee_removes (self self' : DatabaseManager.t)
    (committee_id : string) :
  DatabaseManager.reachable self →
  DatabaseManager.delete_committee self committee_id = (self', Ok true) →
  DatabaseManager.committees self'
  = filter (λ c, Committee.id c ≠ committee_id)
      (DatabaseManager.committees self)
  ∧ DatabaseManager.memberships self'
    = filter (λ m, Member.committee_id m ≠ committee_id)
        (DatabaseManager.memberships self)
  ∧ DatabaseManager.users self' = DatabaseManager.users self
  ∧ DatabaseManager.find_committee self' committee_id = None.
Proof.
  intros Hinv%manager_inv_reachable. destruct self as [db|s]; simpl in Hinv.
  - simpl. unfold DatabaseManager.on_db, Pg.delete_committee. pg_run. simpl.
    unfold Pg.delete_committees. case_decide as Href; simpl; [done|].
    intros [= <- _]. simpl. split_and!; try done.
    by rewrite filter_head_nil by (by intros c [? _]%list_elem_of_filter).
  - simpl. unfold DatabaseManager.on_fallback, Fallback.delete_committee.
    destruct (dict_get committee_id (Fallback.committees s)) as [c|] eqn:Hget;
      simpl; [|done].
    intros [= <-].
    cbn [DatabaseManager.committees DatabaseManager.memberships
         DatabaseManager.users DatabaseManager.find_committee
         Fallback.committees Fallback.committee_members Fallback.users
         Fallback.set_committees Fallback.set_committee_members].
    pose proof (dict_values_foldl_dict_del
                  (λ m, Member.committee_id m = committee_id)
                  (Fallback.committee_members s) (inv_member_keys s Hinv))
      as Hdel.
    cbv beta in Hdel. split_and!.
    + apply (dict_values_dict_del Committee.id), (inv_key s Hinv).
    + exact Hdel.
    + done.
    + apply dict_get_dict_del.
Qed.

Lemma delete_committee_removes_witness :
  let self' :=
    (DatabaseManager.delete_committee manager_with_full_committee
       "committee-id").1 in
  DatabaseManager.committees self'
  = filter (λ c, Committee.id c ≠ "committee-id")
      (DatabaseManager.committees manager_with_full_committee)
  ∧ DatabaseManager.memberships self'
    = filter (λ m, Member.committee_id m ≠ "committee-id")
        (DatabaseManager.memberships manager_with_full_committee)
  ∧ DatabaseManager.users self'
    = DatabaseManager.users manager_with_full_committee
  ∧ DatabaseManager.find_committee self' "committee-id" = None.
Proof.
  apply (delete_committee_removes manager_with_full_committee).
  - apply manager_with_full_committee_reachable.
  - reflexivity.
Defined.

(** ** New committees and invitations *)

Lemma public_committees_iff (self : DatabaseManager.t) (user_id : string)
    (c : Committee.t) :
  c ∈ DatabaseManager.get_public_committees_for_user self user_id
  ↔ c ∈ DatabaseManager.committees self
    ∧ Committee.committee_type c = "public"
    ∧ ¬ DatabaseManager.is_member self (Committee.id c) user_id
    ∧ Committee.current_members c < Committee.total_members c.
Proof.
  assert (Hmem : ∀ ms : list Member.t,
            Committee.id c ∈ Member.committee_id <$>
              filter (λ m, Member.user_id m = user_id) ms
            ↔ ∃ m, m ∈ ms ∧ Member.committee_id m = Committee.id c
                   ∧ Member.user_id m = user_id).
  { intros ms. rewrite list_elem_of_fmap. split.
    - intros (m & Hid & [Hu Hm]%list_elem_of_filter). by exists m.
    - intros (m & Hm & Hid & Hu). exists m. split; [done|].
      by apply list_elem_of_filter. }
  destruct self as [db|s]; simpl; unfold DatabaseManager.is_member; simpl.
  - unfold Pg.get_public_committees_for_user.
    rewrite merge_sort_Permutation, list_elem_of_filter, Hmem. tauto.
  - unfold Fallback.get_public_committees_for_user.
    rewrite list_elem_of_filter, elem_of_list_to_set, Hmem. tauto.
Qed.

(** X20. A committee just created on a reachable store, under a fresh
    identifier, is among the committees of its admin, and it is offered for
    joining to a user exactly when it is public, has more than one seat and
    the user is not the admin: a private committee, or one created with a
    single seat or less, is offered to no one. *)
Theorem new_committee_is_offered (self self' : DatabaseManager.t)
    (title : string) (description : option string)
    (monthly_amount total_members duration : Z)
    (committee_type category payment_frequency admin_id : string)
    (committee_id member_id : string) (now_created now_joined : datetime.t)
    (user_id : string) :
  DatabaseManager.reachable self →
  DatabaseManager.uuid4_unused self committee_id →
  DatabaseManager.create_committee self title description monthly_amount
    total_members duration committee_type category payment_frequency admin_id
    committee_id member_id now_created now_joined
  = (self', Ok true) →
  let c :=
    Committee.mk committee_id title description monthly_amount total_members
      1 duration committee_type category payment_frequency "active" admin_id
      now_created in
  c ∈ DatabaseManager.get_user_committees self' admin_id
  ∧ (c ∈ DatabaseManager.get_public_committees_for_user self' user_id
     ↔ committee_type = "public" ∧ user_id ≠ admin_id ∧ 1 < total_members).
Proof.
  intros Hreach Hfresh Hcreate c.
  pose proof (queue_inv_reachable _ Hreach) as Hqueue.
  assert (∀ m, m ∈ DatabaseManager.memberships self →
               Member.committee_id m ≠ committee_id) as Hrefs.
  { intros m Hm Heq. apply (inv_refs _ _ Hqueue) in Hm. rewrite Heq in Hm.
    destruct self as [db|s]; simpl in *.
    - by destruct Hfresh as (_ & ? & _).
    - destruct Hfresh as (_ & Hk & _). apply Hk.
      rewrite <- (dict_keys_ids Committee.id); [done|].
      apply (inv_key s), (manager_inv_reachable _ Hreach). }
  set (m0 := Member.mk member_id committee_id admin_id 1
               (match self with
                | DatabaseManager.Connected _ => now_created
                | DatabaseManager.Disconnected _ => now_joined
                end)).
  assert (c ∈ DatabaseManager.committees self'
          ∧ c ∈ DatabaseManager.get_user_committees self' admin_id
          ∧ m0 ∈ DatabaseManager.memberships self'
          ∧ ∀ m, m ∈ DatabaseManager.memberships self' →
                 m ∈ DatabaseManager.memberships self ∨ m = m0)
    as (Hc & Hmine & Hm0 & Hms).
  { subst m0. destruct self as [db|s]; simpl in Hcreate.
    - revert Hcreate. unfold DatabaseManager.on_db, Pg.create_committee.
      pg_run. unfold Pg.insert_committee.
      case_decide as Hc; simpl; [done|].
      unfold Pg.insert_committee_member. case_decide as Hm; simpl; [done|].
      intros [= <-]. simpl. split_and!.
      + apply elem_of_app. right. left.
      + apply (Pg_get_user_committees_elem _ _ _
                 (Member.mk member_id committee_id admin_id 1 now_created));
          simpl; [apply elem_of_app; right; left..|done|done].
      + apply elem_of_app. right. left.
      + intros m. by rewrite elem_of_app, list_elem_of_singleton.
    - injection Hcreate as <-. simpl. split_and!.
      + apply elem_of_dict_values. exists committee_id.
        apply elem_of_dict_set_new.
      + apply (Fallback_get_user_committees_elem _ _ _
                 (Member.mk member_id committee_id admin_id 1 now_joined));
          simpl; [|apply dict_get_dict_set|done].
        apply elem_of_dict_values. exists member_id.
        apply elem_of_dict_set_new.
      + apply elem_of_dict_values. exists member_id.
        apply elem_of_dict_set_new.
      + intros m. apply dict_values_set. }
  split; [done|].
  rewrite public_committees_iff. simpl. split.
  - intros (_ & Htype & Hnot & Hopen). split_and!; [done| |lia].
    intros ->. apply Hnot. by exists m0.
  - intros (Htype & Hne & Hseats). split_and!; [done|done| |lia].
    intros (m & [Hm| ->]%Hms & Hcid & Huid); [by apply (Hrefs m)|].
    by apply Hne.
Qed.

Lemma new_committee_is_offered_witness :
  let self := DatabaseManager.Disconnected initial_fallback in
  let self' :=
    (DatabaseManager.create_committee self "Neighbours" None 5000 3 6 "public"
       "General" "monthly" "admin-id" "committee-id" "membership-1"
       (datetime.of_ymd 2025 1 1) (datetime.of_ymd 2025 1 1)).1 in
  let c :=
    Committee.mk "committee-id" "Neighbours" None 5000 3 1 6 "public"
      "General" "monthly" "active" "admin-id" (datetime.of_ymd 2025 1 1) in
  c ∈ DatabaseManager.get_user_committees self' "admin-id"
  ∧ (c ∈ DatabaseManager.get_public_committees_for_user self' "member-id"
     ↔ "public" = "public" ∧ "member-id" ≠ "admin-id" ∧ 1 < 3).
Proof.
  apply (new_committee_is_offered
           (DatabaseManager.Disconnected initial_fallback) _ "Neighbours" None
           5000 3 6 "public" "General" "monthly" "admin-id" "committee-id"
           "membership-1" (datetime.of_ymd 2025 1 1)
           (datetime.of_ymd 2025 1 1) "member-id").
  - exists (DatabaseManager.Disconnected initial_fallback).
    split; [apply initial_fallback_initial|apply rtc_refl].
  - repeat split; decide_by_computation.
  - reflexivity.
Defined.

(** X21. An invitation reaches the invited user: once
    [send_committee_invitation] has returned [True] for a committee the
    store holds, [get_user_invitations] lists it for the invited user, with
    the identifier drawn for it, the title of the committee, the inviting
    user, the message and the date. *)
Theorem invitation_reaches_invitee (self self' : DatabaseManager.t)
    (committee_id invited_user_id invited_by_id : string)
    (message : option string) (invitation_id : string) (now : datetime.t)
    (c : Committee.t) :
  DatabaseManager.send_committee_invitation self committee_id invited_user_id
    invited_by_id message invitation_id now
  = (self', Ok true) →
  DatabaseManager.find_committee self committee_id = Some c →
  ∃ info,
    info ∈ DatabaseManager.get_user_invitations self' invited_user_id
    ∧ UserInvitation.id info = invitation_id
    ∧ UserInvitation.committee_id info = committee_id
    ∧ UserInvitation.committee_title info = Committee.title c
    ∧ UserInvitation.invited_by_id info = invited_by_id
    ∧ UserInvitation.invitation_date info = now
    ∧ UserInvitation.message info = message.
Proof.
  intros Hsend Hfind. destruct self as [db|s]; simpl in Hsend, Hfind.
  - revert Hsend.
    unfold DatabaseManager.on_db, Pg.send_committee_invitation. pg_run.
    unfold Pg.insert_invitation. case_decide as Hins; simpl; [done|].
    intros [= <-].
    apply head_Some in Hfind as [l Hl].
    apply filter_head_elem in Hl as [Hc Hid].
    destruct (decide (Pg.user_exists db invited_by_id)) as [Hu|Hu];
      [|tauto].
    apply Exists_exists in Hu as (u & Hu & Huid).
    exists (UserInvitation.mk invitation_id (Committee.title c) committee_id
              invited_by_id now message (Some (User.username u))).
    split; [|done].
    cbn [DatabaseManager.get_user_invitations].
    unfold Pg.get_user_invitations. rewrite merge_sort_Permutation.
    apply list_elem_of_bind. eexists. split;
      [|apply elem_of_app; right; left].
    apply list_elem_of_bind. exists c. split; [|done].
    apply list_elem_of_bind. exists u. split; [|done].
    simpl. rewrite decide_True by done. left.
  - injection Hsend as <-.
    exists (UserInvitation.mk invitation_id (Committee.title c) committee_id
              invited_by_id now message None).
    split; [|done].
    cbn [DatabaseManager.get_user_invitations].
    unfold Fallback.get_user_invitations, Fallback.send_committee_invitation.
    cbn [fst Fallback.fallback_invitations Fallback.set_fallback_invitations
         Fallback.committees].
    apply list_elem_of_bind. eexists. split;
      [|apply elem_of_dict_values; exists invitation_id;
        apply elem_of_dict_set_new].
    simpl. rewrite decide_True by done. rewrite Hfind. left.
Qed.

Lemma invitation_reaches_invitee_witness :
  ∃ info,
    info ∈ DatabaseManager.get_user_invitations
             (DatabaseManager.Connected database_with_invitation) "bilal-id"
    ∧ UserInvitation.id info = "invitation-1"
    ∧ UserInvitation.committee_id info = "committee-id"
    ∧ UserInvitation.committee_title info
      = Committee.title
          (Committee.mk "committee-id" "Neighbours" None 5000 3 1 6 "public"
             "General" "monthly" "active" "amina-id"
             (datetime.of_ymd 2025 1 1))
    ∧ UserInvitation.invited_by_id info = "amina-id"
    ∧ UserInvitation.invitation_date info = datetime.of_ymd 2025 1 2
    ∧ UserInvitation.message info = None.
Proof.
  apply (invitation_reaches_invitee
           (DatabaseManager.Connected database_with_open_committee)
           (DatabaseManager.Connected database_with_invitation)
           "committee-id" "bilal-id" "amina-id" None "invitation-1"
           (datetime.of_ymd 2025 1 2)).
  - reflexivity.
  - reflexivity.
Defined.

(** ** Profiles and logins *)

Lemma filter_Forall2 {A} (R : A → A → Prop) (P : A → Prop)
    `{∀ x, Decision (P x)} (l l' : list A) :
  (∀ x y, R x y → P x ↔ P y) →
  Forall2 R l l' → Forall2 R (filter P l) (filter P l').
Proof.
  intros HP. induction 1 as [|x y l l' Hxy Hl IH]; [constructor|].
  rewrite !filter_cons. destruct (decide (P x)) as [Hx|Hx].
  - rewrite decide_True by by apply (HP x y). by constructor.
  - rewrite decide_False; [done|]. by rewrite <- (HP x y).
Qed.

(** X22. Editing the profile never touches the login: after
    [update_user_profile], successful or not, a name and digest are accepted
    exactly if they were before, and for the same account, with the
    identifier, user name, role and trust score it had. *)
Theorem update_user_profile_keeps_login (self : DatabaseManager.t)
    (user_id full_name email phone : string) (cnic : option string)
    (username password_hash : string) :
  let self' :=
    (DatabaseManager.update_user_profile self user_id full_name email phone
       cnic).1 in
  match DatabaseManager.authenticate_user self username password_hash,
        DatabaseManager.authenticate_user self' username password_hash with
  | Some before, Some after =>
      UserInfo.id after = UserInfo.id before
      ∧ UserInfo.username after = UserInfo.username before
      ∧ UserInfo.role after = UserInfo.role before
      ∧ UserInfo.trust_score after = UserInfo.trust_score before
  | None, None => True
  | _, _ => False
  end.
Proof.
  intros self'.
  assert (Forall2 same_login (DatabaseManager.users self)
            (DatabaseManager.users self')) as Husers.
  { assert (∀ u, same_login u u) as Hrefl by (by intros u; repeat split).
    subst self'. destruct self as [db|s]; simpl.
    - unfold Pg.update_user_profile. pg_run. simpl.
      apply Forall2_fmap_r, Forall_Forall2_diag, Forall_forall.
      intros u _. unfold compose. case_decide; [by repeat split|done].
    - unfold Fallback.update_user_profile.
      destruct (dict_get user_id (Fallback.users s)) as [u|] eqn:Hget; simpl.
      + apply (dict_set_same_terms _ _ u); [done|done|]. by repeat split.
      + by apply Forall_Forall2_diag, Forall_true. }
  apply (filter_Forall2 same_login
           (λ u, User.username u = username
                 ∧ User.password_hash u = password_hash)) in Husers;
    [|by intros x y (_ & -> & -> & _)].
  assert (∀ s0, DatabaseManager.authenticate_user s0 username password_hash
                = match filter (λ u, User.username u = username
                                     ∧ User.password_hash u = password_hash)
                          (DatabaseManager.users s0) with
                  | user :: _ => Some (UserInfo.of_user user)
                  | [] => None
                  end) as Hauth by (by intros [db|s]).
  rewrite !Hauth.
  destruct Husers as [|u u' l l' (Hid & Hname & _ & Hrole & Hscore) _]; done.
Qed.

(** X23. A join that can be made is made: when the committee is found with
    a free seat and the user holds no seat in it, [join_committee] returns
    [True]; the database asks in addition that the user exists and that the
    identifier drawn for the membership is new. *)
Theorem join_committee_accepts (self : DatabaseManager.t)
    (committee_id user_id member_id : string) (now : datetime.t)
    (c : Committee.t) :
  DatabaseManager.find_committee self committee_id = Some c →
  Committee.current_members c < Committee.total_members c →
  ¬ DatabaseManager.is_member self committee_id user_id →
  match self with
  | DatabaseManager.Connected db =>
      Pg.user_exists db user_id
      ∧ member_id ∉ Member.id <$> Pg.committee_members db
  | DatabaseManager.Disconnected _ => True
  end →
  (DatabaseManager.join_committee self committee_id user_id member_id now).2
  = Ok true.
Proof.
  intros Hfind Hopen Hseat Hdb. destruct self as [db|s]; simpl in *.
  - unfold Pg.join_committee. pg_run.
    rewrite select_members_count_find. simpl. rewrite Hfind. simpl.
    rewrite decide_False by lia.
    unfold Pg.insert_committee_member. rewrite decide_False; [done|].
    destruct Hdb as [Huser Hmid].
    apply head_Some in Hfind as [l Hl].
    apply filter_head_elem in Hl as [Hc Hid].
    intros [Hm|[Hm|[Hm|Hm]]].
    + apply Hmid. apply Exists_exists in Hm as (m & Hm & <-).
      by apply list_elem_of_fmap_2.
    + apply Hm. apply Exists_exists. by exists c.
    + done.
    + apply Hseat. apply Exists_exists in Hm as (m & Hm & Hcu). by exists m.
  - unfold Fallback.join_committee. rewrite Hfind.
    rewrite decide_True by done. rewrite decide_False; [done|].
    intros (m & Hm & Hcu)%Exists_exists. apply Hseat. by exists m.
Qed.

Lemma join_committee_accepts_witness :
  (DatabaseManager.join_committee
     (DatabaseManager.Connected database_with_open_committee) "committee-id"
     "bilal-id" "membership-2" (datetime.of_ymd 2025 1 2)).2
  = Ok true.
Proof.
  apply (join_committee_accepts
           (DatabaseManager.Connected database_with_open_committee)
           "committee-id" "bilal-id" "membership-2" (datetime.of_ymd 2025 1 2)
           (Committee.mk "committee-id" "Neighbours" None 5000 3 1 6 "public"
              "General" "monthly" "active" "amina-id"
              (datetime.of_ymd 2025 1 1))).
  - reflexivity.
  - vm_compute. reflexivity.
  - intros (m & Hm & Hc & Hu). vm_compute in Hm.
    apply list_elem_of_singleton in Hm. subst m. discriminate Hu.
  - split; decide_by_computation.
Defined.

(** ** The payout calendar of the member dashboard *)

Lemma filter_eq_NoDup {A} `{EqDecision A} (p : A) (l : list A) :
  NoDup l → p ∈ l → filter (λ x, x = p) l = [p].
Proof.
  induction l as [|x l IH]; [by intros _ ?%elem_of_nil|].
  rewrite NoDup_cons, elem_of_cons, filter_cons. intros [Hx Hl] [->|Hp].
  - rewrite decide_True by done. f_equal. apply filter_head_nil.
    by intros y Hy ->.
  - rewrite decide_False by (by intros ->). by apply IH.
Qed.

Lemma filter_fmap_pre {A B} (P : B → Prop) `{∀ y, Decision (P y)}
    (f : A → B) (l : list A) :
  filter P (f <$> l) = f <$> filter (λ x, P (f x)) l.
Proof.
  induction l as [|x l IH]; [done|].
  rewrite fmap_cons, !filter_cons, IH. by case_decide.
Qed.

(** X24. The payout calendar of a member: on a reachable store, for a
    committee the user is a member of and a clock from which the last payout
    date can be reached, [show_payout_schedule] lists the positions 1 to
    [current_members] in order, each dated [freq_days * (position - 1)] days
    from now; the user's own position lies among them, exactly one row is
    marked as the user's, the one of that position, and the expected date is
    the date of that row. *)
Theorem payout_calendar_marks_member (self : DatabaseManager.t)
    (committee : Committee.t) (user_id : string) (now : datetime.t) :
  let freq_days :=
    if decide (Committee.payment_frequency committee = "bi_monthly")
    then 60 else 30 in
  DatabaseManager.reachable self →
  committee ∈ DatabaseManager.committees self →
  DatabaseManager.is_member self (Committee.id committee) user_id →
  0 < datetime.toordinal now →
  datetime.toordinal now
    + freq_days * (Committee.current_members committee - 1)
    ≤ datetime.MAXORDINAL →
  ∃ member_position payout_date payout_schedule,
    show_payout_schedule self committee user_id now
    = Ok (member_position,
          Committee.monthly_amount committee
          * Committee.current_members committee,
          payout_date, payout_schedule)
    ∧ 1 ≤ member_position ≤ Committee.current_members committee
    ∧ Position <$> payout_schedule
      = seqZ 1 (Committee.current_members committee)
    ∧ filter (λ row, is_current_user row = true) payout_schedule
      = [mkCalendarRow member_position payout_date true]
    ∧ ∀ row, row ∈ payout_schedule →
        payout_month row
        = datetime.mk
            (datetime.toordinal now + freq_days * (Position row - 1))
            (datetime.time_us now).
Proof.
  intros freq_days Hreach Hc Hmember Hlo Hhi.
  pose proof (queue_inv_reachable _ Hreach) as Hqueue.
  pose proof (inv_capacity _ _ Hqueue committee Hc) as Hcap.
  assert (0 < freq_days) as Hfreq by (subst freq_days; case_decide; lia).
  set (p := DatabaseManager.get_member_position_in_committee self
              (Committee.id committee) user_id).
  assert (1 ≤ p ≤ Committee.current_members committee) as Hp.
  { destruct (get_member_position_member _ _ _ Hmember)
      as (m & Hm & Hcid & _ & Hpos).
    subst p. rewrite Hpos.
    assert (Member.position m
            ∈ seqZ 1 (Committee.current_members committee)) as Hin.
    { rewrite <- (inv_queue _ _ Hqueue committee Hc).
      apply list_elem_of_fmap_2. by apply list_elem_of_filter. }
    apply elem_of_seqZ in Hin. lia. }
  set (row := λ position,
         mkCalendarRow position
           (datetime.mk
              (datetime.toordinal now + freq_days * (position - 1))
              (datetime.time_us now))
           (bool_decide (position = p))).
  exists p, (datetime.mk (datetime.toordinal now + freq_days * (p - 1))
               (datetime.time_us now)),
    (row <$> seqZ 1 (Committee.current_members committee)).
  split_and!.
  - unfold show_payout_schedule. fold p. fold freq_days.
    pose proof (due_date_in_range now (freq_days * (p - 1))) as Hdate.
    unfold res_bind in Hdate. unfold res_bind at 1 2.
    destruct (datetime.timedelta (freq_days * (p - 1))) as [delta|e];
      [|discriminate Hdate; nia].
    rewrite Hdate by nia.
    replace (Committee.current_members committee + 1 - 1)
      with (Committee.current_members committee) by lia.
    rewrite (for_each_append _ _ row []); [done|].
    intros s position Hpos%elem_of_seqZ.
    pose proof (due_date_in_range now (freq_days * (position - 1))) as Hr.
    unfold res_bind in Hr |- *.
    destruct (datetime.timedelta _) as [delta'|e].
    + rewrite Hr by nia. done.
    + discriminate Hr; nia.
  - lia.
  - lia.
  - rewrite <- list_fmap_compose. by apply fmap_id_on.
  - rewrite filter_fmap_pre. simpl.
    rewrite (list_filter_iff _ (λ x, x = p))
      by (intros x; by rewrite bool_decide_eq_true).
    rewrite filter_eq_NoDup; [|apply NoDup_seqZ|apply elem_of_seqZ; lia].
    simpl. unfold row. by rewrite bool_decide_true.
  - by intros r (position & -> & _)%list_elem_of_fmap.
Qed.

Lemma payout_calendar_marks_member_witness :
  let committee :=
    Committee.mk "committee-id" "Family fund" None 5000 2 2 6 "private"
      "General" "monthly" "active" "admin-id" (datetime.of_ymd 2025 1 1) in
  let now := datetime.of_ymd 2025 2 1 in
  ∃ member_position payout_date payout_schedule,
    show_payout_schedule manager_with_full_committee committee "carol-id" now
    = Ok (member_position,
          Committee.monthly_amount committee
          * Committee.current_members committee,
          payout_date, payout_schedule)
    ∧ 1 ≤ member_position ≤ Committee.current_members committee
    ∧ Position <$> payout_schedule
      = seqZ 1 (Committee.current_members committee)
    ∧ filter (λ row, is_current_user row = true) payout_schedule
      = [mkCalendarRow member_position payout_date true]
    ∧ ∀ row, row ∈ payout_schedule →
        payout_month row
        = datetime.mk (datetime.toordinal now + 30 * (Position row - 1))
            (datetime.time_us now).
Proof.
  apply (payout_calendar_marks_member manager_with_full_committee
           (Committee.mk "committee-id" "Family fund" None 5000 2 2 6
              "private" "General" "monthly" "active" "admin-id"
              (datetime.of_ymd 2025 1 1))
           "carol-id" (datetime.of_ymd 2025 2 1)).
  - apply manager_with_full_committee_reachable.
  - vm_compute. left.
  - eexists. split; [vm_compute; right; left|]. split; reflexivity.
  - vm_compute. reflexivity.
  - vm_compute. discriminate.
Defined.
